(** * Workforce scheduling core: metrics, incremental cache, placeholder optimizer

    A shallow embedding of the computation engine of the scheduler:

    - [src/lib/metrics.ts]: the batch metrics calculator and the skill score
      matrix;
    - [src/lib/metrics/incrementalMetrics.ts]: the incremental metrics cache
      (class [IncrementalMetricsCalculator]);
    - the optimizer module (imported elsewhere as [./optimizer]): placeholder
      resolution by a weighted greedy heuristic.

    Conventions of the embedding.

    - A JavaScript [number] that holds hours, capacities, weights or scores is
      an exact rational ([Q]); results of [Math.round] are integers ([Z]).
      The only unguarded divisions of the source are in the optimizer; there
      the quotient lives in [jsnum], which adds [NaN] and the two infinities.
      Statements on these definitions are bounds, comparisons and relations
      between runs of the code, which do not depend on how a sum or a quotient
      is rounded.
    - Module [Double] holds the batch utilization and the two overtime
      functions once more with every number an IEEE 754 double ([float]);
      the value of a utilization or an overtime total is stated there.
    - [employee.skills[skill]] is a lookup among the employee's own skills;
      statements about the value of a skill score assume [plainSkills], which
      excludes the names a plain object inherits.
    - A JavaScript [Map] is an association list in insertion order without
      repeated keys ([JSMap]); a [Set] of strings is a duplicate-free list in
      insertion order ([JSSet]).  Iteration ([forEach], [values()]) walks the
      list from its head.
    - Template strings are [String.append]; truthiness of a string is
      non-emptiness.
    - Mutable objects become explicit state passing. *)

From Stdlib Require Import List String Bool ZArith QArith Qround Qminmax Lia Permutation.
From Stdlib Require Import Setoid Morphisms.
From Stdlib Require Import Floats.
Import ListNotations.

Local Open Scope string_scope.
Local Open Scope list_scope.
Local Open Scope Q_scope.

(** ** JavaScript values *)

(** [a || b] on strings. *)
Definition str_or (a b : string) : string :=
  if String.eqb a "" then b else a.

(** Truthiness of a string. *)
Definition truthy (s : string) : bool := negb (String.eqb s "").

(** [s.startsWith(p)]. *)
Definition startsWith (s p : string) : bool := String.prefix p s.

(** [x > y] on finite numbers. *)
Definition Qgtb (x y : Q) : bool := negb (Qle_bool x y).

(** [Math.round]: the nearest integer, halves rounded towards +infinity. *)
Definition Math_round (x : Q) : Z := Qfloor (x + (1 # 2)).

(** [Math.max(0, x)], [Math.min(100, x)]. *)
Definition Math_max0 (x : Q) : Q := if Qle_bool 0 x then x else 0.
Definition Math_min100 (x : Q) : Q := if Qle_bool x 100 then x else 100.

(** [o || 0] where [o] is a number or [undefined]. *)
Definition num_or0 (o : option Q) : Q :=
  match o with Some q => q | None => 0 end.

(** Sum of a list of numbers, left to right from 0. *)
Definition sumQ (l : list Q) : Q := fold_left Qplus l 0.

(** ** [Map] and [Set] *)

Definition JSMap (V : Type) : Type := list (string * V).

Fixpoint map_get {V} (m : JSMap V) (k : string) : option V :=
  match m with
  | [] => None
  | (k', v) :: r => if String.eqb k' k then Some v else map_get r k
  end.

Definition map_has {V} (m : JSMap V) (k : string) : bool :=
  match map_get m k with Some _ => true | None => false end.

(** [m.set(k, v)]: an existing key keeps its position. *)
Fixpoint map_set {V} (m : JSMap V) (k : string) (v : V) : JSMap V :=
  match m with
  | [] => [(k, v)]
  | (k', v') :: r =>
      if String.eqb k' k then (k', v) :: r else (k', v') :: map_set r k v
  end.

Fixpoint map_delete {V} (m : JSMap V) (k : string) : JSMap V :=
  match m with
  | [] => []
  | (k', v') :: r =>
      if String.eqb k' k then r else (k', v') :: map_delete r k
  end.

Definition map_keys {V} (m : JSMap V) : list string := map fst m.
Definition map_values {V} (m : JSMap V) : list V := map snd m.
Definition map_size {V} (m : JSMap V) : nat := List.length m.

(** [new Map(entries)]. *)
Definition map_of_entries {V} (es : list (string * V)) : JSMap V :=
  fold_left (fun m kv => map_set m (fst kv) (snd kv)) es [].

Definition JSSet : Type := list string.

Definition set_has (s : JSSet) (k : string) : bool :=
  existsb (String.eqb k) s.

Definition set_add (s : JSSet) (k : string) : JSSet :=
  if set_has s k then s else s ++ [k].

Definition set_delete (s : JSSet) (k : string) : JSSet :=
  filter (fun x => negb (String.eqb k x)) s.

Definition set_size (s : JSSet) : nat := List.length s.

(** ** Data model ([types/schedule]) *)

Inductive ProficiencyLevel : Type := Beginner | Intermediate | Expert.

Module Employee.
Record t : Type := mk {
  id : string;
  name : string;
  maxHours : Q;
  skills : JSMap ProficiencyLevel
}.
End Employee.

Module Project.
(** [requiredSkills] is optional in the source. *)
Record t : Type := mk {
  id : string;
  name : string;
  requiredSkills : option (list string)
}.
End Project.

Module Assignment.
Record t : Type := mk {
  id : string;
  employeeId : string;
  projectId : string;
  hours : Q;
  week : string;
  date : string
}.
End Assignment.

Module DateRange.
(** The source tests [dateRange?.start && dateRange?.end], so either end may
    be missing at run time. *)
Record t (Date : Type) : Type := mk {
  start : option Date;
  end_ : option Date
}.
Arguments mk {Date}.
Arguments start {Date}.
Arguments end_ {Date}.
End DateRange.

Module ScheduleData.
Record t : Type := mk {
  employees : list Employee.t;
  projects : list Project.t;
  assignments : list Assignment.t
}.
End ScheduleData.

Module Metrics.
Record t : Type := mk {
  overtimeHours : Z;
  resourceUtilization : Z;
  skillsMatching : Z
}.
End Metrics.

(** The two period keys of the source. *)

(** [assignment.date || assignment.week] (batch calculator, optimizer's
    overtime). *)
Definition dateOrWeek (a : Assignment.t) : string :=
  str_or (Assignment.date a) (Assignment.week a).

(** [assignment.week || assignment.date] (optimizer grouping; with a trailing
    [|| ''] also the incremental cache, which adds nothing on strings). *)
Definition weekOrDate (a : Assignment.t) : string :=
  str_or (Assignment.week a) (Assignment.date a).

(** ** Batch metrics calculator ([lib/metrics.ts]) *)

Definition PROFICIENCY_SCORES (p : ProficiencyLevel) : Q :=
  match p with
  | Beginner => 1
  | Intermediate => 2
  | Expert => 3
  end.

(** The body of [for (const assignment of assignments)
    employeeAssignedHours.set(...)]. *)
Definition addAssignedHours (m : JSMap Q) (a : Assignment.t) : JSMap Q :=
  map_set m (Assignment.employeeId a)
    (num_or0 (map_get m (Assignment.employeeId a)) + Assignment.hours a).

(** The fallback period count: distinct [date || week] keys. *)
Definition timePeriodsSet (assignments : list Assignment.t) : JSSet :=
  fold_left (fun s a => set_add s (dateOrWeek a)) assignments [].

(** [employee.skills[skill]] followed by [if (proficiency) score += ...]. *)
Definition skillPoints (employee : Employee.t) (skill : string) : Q :=
  match map_get (Employee.skills employee) skill with
  | Some proficiency => PROFICIENCY_SCORES proficiency
  | None => 0
  end.

Definition getEmployeeProjectSkillScore (employee : Employee.t)
  (project : Project.t) : Q :=
  match Project.requiredSkills project with
  | None => 0
  | Some requiredSkills =>
      fold_left (fun score skill => score + skillPoints employee skill)
        requiredSkills 0
  end.

Definition createSkillScoreMatrix (employees : list Employee.t)
  (projects : list Project.t) : JSMap (JSMap Q) :=
  fold_left
    (fun matrix employee =>
       let projectScores :=
         fold_left
           (fun ps project =>
              let score := getEmployeeProjectSkillScore employee project in
              if Qgtb score 0 then map_set ps (Project.id project) score else ps)
           projects [] in
       if (0 <? map_size projectScores)%nat
       then map_set matrix (Employee.id employee) projectScores
       else matrix)
    employees [].

(** One iteration of the loop of [calculateSkillsMatch]; the state is
    [(totalScore, uniquePairs)]. *)
Definition skillsMatchStep (employeeMap : JSMap Employee.t)
  (projectMap : JSMap Project.t) (st : Q * JSSet) (assignment : Assignment.t)
  : Q * JSSet :=
  let '(totalScore, uniquePairs) := st in
  let pairKey :=
    (Assignment.employeeId assignment ++ "-" ++ Assignment.projectId assignment)%string in
  if set_has uniquePairs pairKey then st
  else
    match map_get employeeMap (Assignment.employeeId assignment),
          map_get projectMap (Assignment.projectId assignment) with
    | Some employee, Some project =>
        match Project.requiredSkills project with
        | None | Some [] => st
        | Some requiredSkills =>
            (fold_left (fun score skill => score + skillPoints employee skill)
               requiredSkills totalScore,
             set_add uniquePairs pairKey)
        end
    | _, _ => st
    end.

Definition calculateSkillsMatch (assignments : list Assignment.t)
  (employeeMap : JSMap Employee.t) (projectMap : JSMap Project.t) : Q :=
  fst (fold_left (skillsMatchStep employeeMap projectMap) assignments (0, [])).

(** [new Map(data.employees.map(e => [e.id, e]))] and the like. *)
Definition employeeMapOf (employees : list Employee.t) : JSMap Employee.t :=
  map_of_entries (map (fun e => (Employee.id e, e)) employees).

Definition projectMapOf (projects : list Project.t) : JSMap Project.t :=
  map_of_entries (map (fun p => (Project.id p, p)) projects).

(** [periodMap.set(period, (periodMap.get(period) || 0) + a.hours)]. *)
Definition bumpPeriod (period : Assignment.t -> string)
  (periodMap : JSMap Q) (a : Assignment.t) : JSMap Q :=
  let currentHours := num_or0 (map_get periodMap (period a)) in
  map_set periodMap (period a) (currentHours + Assignment.hours a).

(** One entry into [employeeHoursByPeriod]: employee id -> period -> hours.
    The inner map is a shared object mutated in place; here it is written
    back under its key, which keeps its position. *)
Definition addPeriodHours (period : Assignment.t -> string)
  (m : JSMap (JSMap Q)) (a : Assignment.t) : JSMap (JSMap Q) :=
  let m1 :=
    if map_has m (Assignment.employeeId a) then m
    else map_set m (Assignment.employeeId a) [] in
  let periodMap :=
    match map_get m1 (Assignment.employeeId a) with
    | Some pm => pm
    | None => []
    end in
  map_set m1 (Assignment.employeeId a) (bumpPeriod period periodMap a).

(** [periodHours.forEach(hours => if (hours > employee.maxHours) ...)]. *)
Definition overtimeOfPeriods (maxHours : Q) (periodHours : JSMap Q) (acc : Q) : Q :=
  fold_left
    (fun ot hours => if Qgtb hours maxHours then ot + (hours - maxHours) else ot)
    (map_values periodHours) acc.

(** [employees.forEach(employee => ...)] over the filled map. *)
Definition overtimeOfEmployees (employeeHoursByPeriod : JSMap (JSMap Q))
  (employees : list Employee.t) : Q :=
  fold_left
    (fun ot employee =>
       match map_get employeeHoursByPeriod (Employee.id employee) with
       | Some periodHours =>
           overtimeOfPeriods (Employee.maxHours employee) periodHours ot
       | None => ot
       end)
    employees 0.

(** The unrounded [overtimeHours] accumulator of [calculateMetrics]. *)
Definition metricsOvertime (employees : list Employee.t)
  (assignments : list Assignment.t) : Q :=
  overtimeOfEmployees (fold_left (addPeriodHours dateOrWeek) assignments [])
    employees.

Section Batch.

(** [differenceInWeeks] comes from the date-fns package and [Date] from the
    run time; both are parameters of the embedding. *)
Variable Date : Type.
Variable differenceInWeeks : Date -> Date -> Z.

Definition numPeriodsOf (assignments : list Assignment.t)
  (dateRange : option (DateRange.t Date)) : Z :=
  match dateRange with
  | Some {| DateRange.start := Some start; DateRange.end_ := Some end_ |} =>
      Z.max 1 (differenceInWeeks end_ start + 1)
  | _ => Z.max 1 (Z.of_nat (set_size (timePeriodsSet assignments)))
  end.

(** The loop [for (const employee of employees)]: the pair is
    [(totalMaxCapacity, totalAssignedHours)]. *)
Definition capacityAndHours (numPeriods : Z) (employeeAssignedHours : JSMap Q)
  (employees : list Employee.t) : Q * Q :=
  fold_left
    (fun '(cap, tot) employee =>
       (cap + Employee.maxHours employee * inject_Z numPeriods,
        tot + num_or0 (map_get employeeAssignedHours (Employee.id employee))))
    employees (0, 0).

Definition calculateResourceUtilization (employees : list Employee.t)
  (assignments : list Assignment.t) (dateRange : option (DateRange.t Date)) : Z :=
  match employees with
  | [] => 0%Z
  | _ =>
      let numPeriods := numPeriodsOf assignments dateRange in
      let employeeAssignedHours := fold_left addAssignedHours assignments [] in
      let '(totalMaxCapacity, totalAssignedHours) :=
        capacityAndHours numPeriods employeeAssignedHours employees in
      if Qgtb totalMaxCapacity 0
      then Math_round ((totalAssignedHours / totalMaxCapacity) * 100)
      else 0%Z
  end.

Definition calculateMetrics (employees : list Employee.t)
  (projects : list Project.t) (assignments : list Assignment.t)
  (dateRange : option (DateRange.t Date)) : Metrics.t :=
  let employeeMap := employeeMapOf employees in
  let projectMap := projectMapOf projects in
  let overtimeHours := metricsOvertime employees assignments in
  let resourceUtilization :=
    calculateResourceUtilization employees assignments dateRange in
  let skillsMatching := calculateSkillsMatch assignments employeeMap projectMap in
  {| Metrics.overtimeHours := Math_round overtimeHours;
     Metrics.resourceUtilization := resourceUtilization;
     Metrics.skillsMatching := Math_round skillsMatching |}.

End Batch.

Arguments numPeriodsOf {Date}.
Arguments calculateResourceUtilization {Date}.
Arguments calculateMetrics {Date}.

(** ** Numbers with [NaN] and infinities

    Only the optimizer divides by a number it has not tested: the quotient
    by [employee.maxHours].  Inputs stay finite; the results of these
    divisions are [jsnum]s.  Signed zeros are not distinguished. *)

Inductive jsnum : Type :=
| NaN
| NegInf
| Fin (q : Q)
| PosInf.

Definition js_opp (a : jsnum) : jsnum :=
  match a with
  | NaN => NaN
  | NegInf => PosInf
  | Fin q => Fin (- q)
  | PosInf => NegInf
  end.

Definition js_add (a b : jsnum) : jsnum :=
  match a, b with
  | NaN, _ | _, NaN => NaN
  | Fin x, Fin y => Fin (x + y)
  | PosInf, NegInf | NegInf, PosInf => NaN
  | PosInf, _ | _, PosInf => PosInf
  | NegInf, _ | _, NegInf => NegInf
  end.

Definition js_sub (a b : jsnum) : jsnum := js_add a (js_opp b).

(** An infinity times a finite number. *)
Definition js_scale_inf (positive : bool) (q : Q) : jsnum :=
  if Qeq_bool q 0 then NaN
  else if Bool.eqb positive (Qgtb q 0) then PosInf else NegInf.

Definition js_mul (a b : jsnum) : jsnum :=
  match a, b with
  | NaN, _ | _, NaN => NaN
  | Fin x, Fin y => Fin (x * y)
  | PosInf, Fin q | Fin q, PosInf => js_scale_inf true q
  | NegInf, Fin q | Fin q, NegInf => js_scale_inf false q
  | PosInf, PosInf | NegInf, NegInf => PosInf
  | PosInf, NegInf | NegInf, PosInf => NegInf
  end.

(** [x / y] for finite [x] and [y]. *)
Definition js_div (x y : Q) : jsnum :=
  if Qeq_bool y 0 then
    if Qeq_bool x 0 then NaN
    else if Qgtb x 0 then PosInf else NegInf
  else Fin (x / y).

(** [a <= b] and [a > b]; every comparison with [NaN] is false. *)
Definition js_le (a b : jsnum) : bool :=
  match a, b with
  | NaN, _ | _, NaN => false
  | NegInf, _ => true
  | _, PosInf => true
  | Fin x, Fin y => Qle_bool x y
  | _, _ => false
  end.

Definition js_gt (a b : jsnum) : bool :=
  match a, b with
  | NaN, _ | _, NaN => false
  | _, _ => negb (js_le a b)
  end.

(** [Math.min(a, b)]. *)
Definition js_min (a b : jsnum) : jsnum :=
  match a, b with
  | NaN, _ | _, NaN => NaN
  | _, _ => if js_le a b then a else b
  end.

(** ** Placeholder optimizer *)

Module OptimizationWeights.
Record t : Type := mk {
  overtime : Q;
  utilization : Q;
  skills : Q
}.
End OptimizationWeights.

Module PlaceholderSuggestion.
Record t : Type := mk {
  projectId : string;
  projectName : string;
  week : string;
  originalHours : Q;
  suggestedEmployeeId : string;
  suggestedEmployeeName : string;
  overtimeScore : Q;
  utilizationScore : jsnum;
  skillsScore : Q
}.
End PlaceholderSuggestion.

Module OptimizationMetrics.
Record t : Type := mk {
  currentOvertimeHours : Q;
  currentUtilization : Z;
  currentSkillsMatch : Q;
  predictedOvertimeHours : Q;
  predictedUtilization : Z;
  predictedSkillsMatch : Q
}.
End OptimizationMetrics.

Module OptimizationResult.
Record t : Type := mk {
  suggestions : list PlaceholderSuggestion.t;
  totalScore : jsnum;
  metrics : OptimizationMetrics.t
}.
End OptimizationResult.

Inductive Algorithm : Type := genetic | annealing | constraint.

(** The placeholder test written out in [optimizeSchedule] and
    [applysuggestions], as a test on the employee reference. *)
Definition sentinelId (employeeId : string) : bool :=
  negb (truthy employeeId)
  || (String.eqb employeeId "Placeholder"
      || String.eqb employeeId "placeholder"
      || startsWith employeeId "Placeholder ").

Definition isPlaceholder (a : Assignment.t) : bool :=
  sentinelId (Assignment.employeeId a).

(** The guard of [calculateTotalOvertime]. *)
Definition countsForOvertime (a : Assignment.t) : bool :=
  truthy (Assignment.employeeId a)
  && negb (String.eqb (Assignment.employeeId a) "Placeholder")
  && negb (String.eqb (Assignment.employeeId a) "placeholder")
  && negb (startsWith (Assignment.employeeId a) "Placeholder ").

Definition calculateTotalOvertime (employees : list Employee.t)
  (assignments : list Assignment.t) : Q :=
  let employeeHoursByPeriod :=
    fold_left
      (fun m a => if countsForOvertime a then addPeriodHours dateOrWeek m a else m)
      assignments [] in
  overtimeOfEmployees employeeHoursByPeriod employees.

(** [data.assignments.filter(a => a.employeeId === employee.id)
      .reduce((sum, a) => sum + a.hours, 0)]. *)
Definition currentHoursOf (data : ScheduleData.t) (employee : Employee.t) : Q :=
  fold_left (fun sum a => sum + Assignment.hours a)
    (filter (fun a => String.eqb (Assignment.employeeId a) (Employee.id employee))
       (ScheduleData.assignments data))
    0.

(** [(skillScoreMatrix.get(employee.id)?.get(project.id)) || 0]. *)
Definition matrixScore (skillScoreMatrix : JSMap (JSMap Q))
  (employee : Employee.t) (project : Project.t) : Q :=
  match map_get skillScoreMatrix (Employee.id employee) with
  | Some employeeSkills => num_or0 (map_get employeeSkills (Project.id project))
  | None => 0
  end.

(** The filter that builds [candidates] in [findBestEmployee]. *)
Definition isCandidate (excludedEmployees : JSSet) (e : Employee.t) : bool :=
  negb (String.eqb (Employee.id e) "placeholder")
  && negb (String.eqb (Employee.id e) "Placeholder")
  && negb (startsWith (Employee.id e) "placeholder")
  && negb (set_has excludedEmployees (Employee.id e)).

(** The combined score of one candidate. *)
Definition candidateScore (placeholder : Assignment.t) (project : Project.t)
  (data : ScheduleData.t) (weights : OptimizationWeights.t)
  (skillScoreMatrix : JSMap (JSMap Q)) (employee : Employee.t) : jsnum :=
  let currentHours := currentHoursOf data employee in
  let newHours := currentHours + Assignment.hours placeholder in
  let wouldCauseOvertime := Qgtb newHours (Employee.maxHours employee) in
  let skillScore := matrixScore skillScoreMatrix employee project in
  let score0 := Fin 0 in
  let score1 :=
    if wouldCauseOvertime
    then js_sub score0
           (Fin (OptimizationWeights.overtime weights
                 * (newHours - Employee.maxHours employee)))
    else score0 in
  let utilizationRatio := js_div newHours (Employee.maxHours employee) in
  let score2 :=
    if js_le utilizationRatio (Fin 1)
    then js_add score1
           (js_mul (Fin (OptimizationWeights.utilization weights)) utilizationRatio)
    else score1 in
  js_add score2 (Fin (OptimizationWeights.skills weights * skillScore)).

(** One turn of [for (const employee of candidates)]; the state is
    [(bestEmployee, bestScore)]. *)
Definition bestStep (scoreOf : Employee.t -> jsnum)
  (st : option Employee.t * jsnum) (employee : Employee.t)
  : option Employee.t * jsnum :=
  let '(bestEmployee, bestScore) := st in
  let score := scoreOf employee in
  if js_gt score bestScore then (Some employee, score)
  else (bestEmployee, bestScore).

(** [findBestEmployee]; the loop starts at [(null, -Infinity)].  The
    [_algorithm] argument is unused in the source. *)
Definition findBestEmployee (placeholder : Assignment.t) (project : Project.t)
  (data : ScheduleData.t) (weights : OptimizationWeights.t)
  (skillScoreMatrix : JSMap (JSMap Q)) (_algorithm : Algorithm)
  (excludedEmployees : JSSet) : option Employee.t :=
  let candidates :=
    filter (isCandidate excludedEmployees) (ScheduleData.employees data) in
  match candidates with
  | [] => None
  | _ =>
      fst (fold_left
             (bestStep
                (candidateScore placeholder project data weights skillScoreMatrix))
             candidates (None, NegInf))
  end.

Module AssignmentScores.
Record t : Type := mk {
  overtime : Q;
  utilization : jsnum;
  skills : Q
}.
End AssignmentScores.

Definition calculateAssignmentScores (employee : Employee.t)
  (assignment : Assignment.t) (project : Project.t) (data : ScheduleData.t)
  (skillScoreMatrix : JSMap (JSMap Q)) : AssignmentScores.t :=
  let currentHours := currentHoursOf data employee in
  let newTotalHours := currentHours + Assignment.hours assignment in
  let overtimeScore :=
    if Qgtb newTotalHours (Employee.maxHours employee)
    then - (newTotalHours - Employee.maxHours employee)
    else 0 in
  let utilizationScore :=
    js_min (Fin 100)
      (js_mul (js_div newTotalHours (Employee.maxHours employee)) (Fin 100)) in
  let skillScore := matrixScore skillScoreMatrix employee project * 100 in
  {| AssignmentScores.overtime := overtimeScore;
     AssignmentScores.utilization := utilizationScore;
     AssignmentScores.skills := skillScore |}.

(** The grouping key [`${placeholder.projectId}-${placeholder.week || placeholder.date}`]. *)
Definition placeholderKey (a : Assignment.t) : string :=
  (Assignment.projectId a ++ "-" ++ weekOrDate a)%string.

(** [placeholderGroups]: key -> the placeholders pushed under it, in order.
    The array under a key is mutated in place by [push]. *)
Definition addToGroup (groups : JSMap (list Assignment.t))
  (placeholder : Assignment.t) : JSMap (list Assignment.t) :=
  let key := placeholderKey placeholder in
  let groups1 := if map_has groups key then groups else map_set groups key [] in
  match map_get groups1 key with
  | Some members => map_set groups1 key (members ++ [placeholder])
  | None => groups1
  end.

Definition placeholderGroupsOf (placeholderAssignments : list Assignment.t)
  : JSMap (list Assignment.t) :=
  fold_left addToGroup placeholderAssignments [].

(** One turn of [for (const placeholder of placeholders)]; the state is
    [(assignedEmployeesForWeek, suggestions pushed for this group)]. *)
Definition groupStep (project : Project.t) (data : ScheduleData.t)
  (weights : OptimizationWeights.t) (skillScoreMatrix : JSMap (JSMap Q))
  (algorithm : Algorithm)
  (st : JSSet * list PlaceholderSuggestion.t) (placeholder : Assignment.t)
  : JSSet * list PlaceholderSuggestion.t :=
  let '(assignedEmployeesForWeek, pushed) := st in
  match findBestEmployee placeholder project data weights skillScoreMatrix
          algorithm assignedEmployeesForWeek with
  | Some bestEmployee =>
      let scores :=
        calculateAssignmentScores bestEmployee placeholder project data
          skillScoreMatrix in
      (set_add assignedEmployeesForWeek (Employee.id bestEmployee),
       pushed ++
       [{| PlaceholderSuggestion.projectId := Project.id project;
           PlaceholderSuggestion.projectName := Project.name project;
           PlaceholderSuggestion.week := Assignment.week placeholder;
           PlaceholderSuggestion.originalHours := Assignment.hours placeholder;
           PlaceholderSuggestion.suggestedEmployeeId := Employee.id bestEmployee;
           PlaceholderSuggestion.suggestedEmployeeName := Employee.name bestEmployee;
           PlaceholderSuggestion.overtimeScore := AssignmentScores.overtime scores;
           PlaceholderSuggestion.utilizationScore := AssignmentScores.utilization scores;
           PlaceholderSuggestion.skillsScore := AssignmentScores.skills scores |}])
  | None => st
  end.

(** The suggestions that the inner loop pushes for one group whose project
    was found. *)
Definition groupSuggestions (project : Project.t) (data : ScheduleData.t)
  (weights : OptimizationWeights.t) (skillScoreMatrix : JSMap (JSMap Q))
  (algorithm : Algorithm) (placeholders : list Assignment.t)
  : list PlaceholderSuggestion.t :=
  snd (fold_left (groupStep project data weights skillScoreMatrix algorithm)
         placeholders ([], [])).

(** One turn of [for (const placeholders of placeholderGroups.values())],
    including [if (!project) continue]. *)
Definition processGroup (projectMap : JSMap Project.t) (data : ScheduleData.t)
  (weights : OptimizationWeights.t) (skillScoreMatrix : JSMap (JSMap Q))
  (algorithm : Algorithm) (placeholders : list Assignment.t)
  : list PlaceholderSuggestion.t :=
  match placeholders with
  | [] => []
  | firstPlaceholder :: _ =>
      match map_get projectMap (Assignment.projectId firstPlaceholder) with
      | None => []
      | Some project =>
          groupSuggestions project data weights skillScoreMatrix algorithm
            placeholders
      end
  end.

Definition suggestionKey (s : PlaceholderSuggestion.t) : string :=
  (PlaceholderSuggestion.projectId s ++ "-" ++ PlaceholderSuggestion.week s)%string.

Definition suggestedAssignment (s : PlaceholderSuggestion.t) : Assignment.t :=
  {| Assignment.id :=
       (PlaceholderSuggestion.suggestedEmployeeId s ++ "-"
        ++ PlaceholderSuggestion.projectId s ++ "-"
        ++ PlaceholderSuggestion.week s)%string;
     Assignment.employeeId := PlaceholderSuggestion.suggestedEmployeeId s;
     Assignment.projectId := PlaceholderSuggestion.projectId s;
     Assignment.hours := PlaceholderSuggestion.originalHours s;
     Assignment.week := PlaceholderSuggestion.week s;
     Assignment.date := PlaceholderSuggestion.week s |}.

Definition applysuggestions (assignments : list Assignment.t)
  (suggestions : list PlaceholderSuggestion.t) : list Assignment.t :=
  let replacedPlaceholders :=
    fold_left (fun s suggestion => set_add s (suggestionKey suggestion))
      suggestions [] in
  let filtered :=
    filter
      (fun a =>
         if negb (isPlaceholder a) then true
         else negb (set_has replacedPlaceholders (placeholderKey a)))
      assignments in
  fold_left (fun acc suggestion => acc ++ [suggestedAssignment suggestion])
    suggestions filtered.

Definition calculateTotalScore (suggestions : list PlaceholderSuggestion.t)
  (weights : OptimizationWeights.t) : jsnum :=
  fold_left
    (fun total s =>
       js_add
         (js_add
            (js_add total
               (Fin (PlaceholderSuggestion.overtimeScore s
                     * OptimizationWeights.overtime weights)))
            (js_mul (PlaceholderSuggestion.utilizationScore s)
               (Fin (OptimizationWeights.utilization weights))))
         (Fin (PlaceholderSuggestion.skillsScore s
               * OptimizationWeights.skills weights)))
    suggestions (Fin 0).

Section Optimizer.

Variable Date : Type.
Variable differenceInWeeks : Date -> Date -> Z.

(** All suggestions of a run, group after group. *)
Definition allSuggestions (data : ScheduleData.t) (algorithm : Algorithm)
  (weights : OptimizationWeights.t) : list PlaceholderSuggestion.t :=
  let skillScoreMatrix :=
    createSkillScoreMatrix (ScheduleData.employees data)
      (ScheduleData.projects data) in
  let placeholderAssignments :=
    filter isPlaceholder (ScheduleData.assignments data) in
  let projectMap := projectMapOf (ScheduleData.projects data) in
  let placeholderGroups := placeholderGroupsOf placeholderAssignments in
  fold_left
    (fun suggestions placeholders =>
       suggestions
       ++ processGroup projectMap data weights skillScoreMatrix algorithm
            placeholders)
    (map_values placeholderGroups) [].

(** [optimizeSchedule] without a progress callback ([onProgress] is
    optional and only reports percentages); the promise it returns is
    resolved with this value. *)
Definition optimizeSchedule (data : ScheduleData.t) (algorithm : Algorithm)
  (weights : OptimizationWeights.t) (dateRange : option (DateRange.t Date))
  : OptimizationResult.t :=
  let employees := ScheduleData.employees data in
  let projects := ScheduleData.projects data in
  let assignments := ScheduleData.assignments data in
  let placeholderAssignments := filter isPlaceholder assignments in
  match placeholderAssignments with
  | [] =>
      {| OptimizationResult.suggestions := [];
         OptimizationResult.totalScore := Fin 0;
         OptimizationResult.metrics :=
           {| OptimizationMetrics.currentOvertimeHours :=
                calculateTotalOvertime employees assignments;
              OptimizationMetrics.currentUtilization :=
                calculateResourceUtilization differenceInWeeks employees
                  assignments dateRange;
              OptimizationMetrics.currentSkillsMatch :=
                calculateSkillsMatch assignments (employeeMapOf employees)
                  (projectMapOf projects);
              OptimizationMetrics.predictedOvertimeHours :=
                calculateTotalOvertime employees assignments;
              OptimizationMetrics.predictedUtilization :=
                calculateResourceUtilization differenceInWeeks employees
                  assignments dateRange;
              OptimizationMetrics.predictedSkillsMatch :=
                calculateSkillsMatch assignments (employeeMapOf employees)
                  (projectMapOf projects) |} |}
  | _ =>
      let suggestions := allSuggestions data algorithm weights in
      let predictedAssignments := applysuggestions assignments suggestions in
      {| OptimizationResult.suggestions := suggestions;
         OptimizationResult.totalScore := calculateTotalScore suggestions weights;
         OptimizationResult.metrics :=
           {| OptimizationMetrics.currentOvertimeHours :=
                calculateTotalOvertime employees assignments;
              OptimizationMetrics.currentUtilization :=
                calculateResourceUtilization differenceInWeeks employees
                  assignments dateRange;
              OptimizationMetrics.currentSkillsMatch :=
                calculateSkillsMatch assignments (employeeMapOf employees)
                  (projectMapOf projects);
              OptimizationMetrics.predictedOvertimeHours :=
                calculateTotalOvertime employees predictedAssignments;
              OptimizationMetrics.predictedUtilization :=
                calculateResourceUtilization differenceInWeeks employees
                  predictedAssignments dateRange;
              OptimizationMetrics.predictedSkillsMatch :=
                calculateSkillsMatch predictedAssignments
                  (employeeMapOf employees) (projectMapOf projects) |} |}
  end.

End Optimizer.

Arguments optimizeSchedule {Date}.

(** ** Incremental metrics cache ([lib/metrics/incrementalMetrics.ts]) *)

Module PartialAssignment.
(** [Partial<Assignment>]: every field may be left out. *)
Record t : Type := mk {
  id : option string;
  employeeId : option string;
  projectId : option string;
  hours : option Q;
  week : option string;
  date : option string
}.
End PartialAssignment.

(** [{ ...existing, ...updates }]. *)
Definition spreadAssignment (existing : Assignment.t)
  (updates : PartialAssignment.t) : Assignment.t :=
  let pick {A} (o : option A) (d : A) := match o with Some x => x | None => d end in
  {| Assignment.id := pick (PartialAssignment.id updates) (Assignment.id existing);
     Assignment.employeeId :=
       pick (PartialAssignment.employeeId updates) (Assignment.employeeId existing);
     Assignment.projectId :=
       pick (PartialAssignment.projectId updates) (Assignment.projectId existing);
     Assignment.hours :=
       pick (PartialAssignment.hours updates) (Assignment.hours existing);
     Assignment.week := pick (PartialAssignment.week updates) (Assignment.week existing);
     Assignment.date := pick (PartialAssignment.date updates) (Assignment.date existing) |}.

(** [updates.f && updates.f !== old]: present, non-empty and different. *)
Definition changedTo (o : option string) (old : string) : option string :=
  match o with
  | Some new => if truthy new && negb (String.eqb new old) then Some new else None
  | None => None
  end.

Module IncrementalMetricsCalculator.

(** [MetricsCache]; the time stamp [lastCalculated] is written from
    [Date.now()] and never read, and is left out. *)
Record MetricsCache : Type := mkCache {
  overtimeByEmployee : JSMap (JSMap Q);
  utilizationByEmployee : JSMap Q;
  skillsMatchByProject : JSMap Q;
  isDirty : bool
}.

Record DirtyTracking : Type := mkDirty {
  dirtyEmployees : JSSet;
  dirtyProjects : JSSet;
  dirtyWeeks : JSSet
}.

(** The fields of the calculator object. *)
Record t : Type := mk {
  cache : MetricsCache;
  dirtyTracking : DirtyTracking;
  employees : JSMap Employee.t;
  projects : JSMap Project.t;
  assignments : JSMap Assignment.t;
  assignmentsByEmployee : JSMap JSSet;
  assignmentsByProject : JSMap JSSet
}.

Definition emptyCache (dirty : bool) : MetricsCache :=
  {| overtimeByEmployee := []; utilizationByEmployee := [];
     skillsMatchByProject := []; isDirty := dirty |}.

Definition emptyDirty : DirtyTracking :=
  {| dirtyEmployees := []; dirtyProjects := []; dirtyWeeks := [] |}.

(** The object as its field initialisers leave it. *)
Definition new : t :=
  {| cache := emptyCache true; dirtyTracking := emptyDirty;
     employees := []; projects := []; assignments := [];
     assignmentsByEmployee := []; assignmentsByProject := [] |}.

Definition with_cache (s : t) (c : MetricsCache) : t :=
  {| cache := c; dirtyTracking := dirtyTracking s; employees := employees s;
     projects := projects s; assignments := assignments s;
     assignmentsByEmployee := assignmentsByEmployee s;
     assignmentsByProject := assignmentsByProject s |}.

Definition setDirtyFlag (c : MetricsCache) (b : bool) : MetricsCache :=
  {| overtimeByEmployee := overtimeByEmployee c;
     utilizationByEmployee := utilizationByEmployee c;
     skillsMatchByProject := skillsMatchByProject c; isDirty := b |}.

(** [if (!index.has(k)) index.set(k, new Set()); index.get(k)!.add(id)]. *)
Definition indexAdd (index : JSMap JSSet) (k id : string) : JSMap JSSet :=
  let index1 := if map_has index k then index else map_set index k [] in
  match map_get index1 k with
  | Some ids => map_set index1 k (set_add ids id)
  | None => index1
  end.

(** [index.get(k)?.delete(id)]. *)
Definition indexDelete (index : JSMap JSSet) (k id : string) : JSMap JSSet :=
  match map_get index k with
  | Some ids => map_set index k (set_delete ids id)
  | None => index
  end.

(** [index.get(k) || new Set()]. *)
Definition indexGet (index : JSMap JSSet) (k : string) : JSSet :=
  match map_get index k with Some ids => ids | None => [] end.

(** The assignments behind a set of ids, skipping ids that no longer
    resolve ([if (assignment)]). *)
Definition resolveIds (s : t) (ids : JSSet) : list Assignment.t :=
  flat_map
    (fun assignmentId =>
       match map_get (assignments s) assignmentId with
       | Some a => [a]
       | None => []
       end)
    ids.

Definition calculateEmployeeOvertime (s : t) (employeeId : string) : t :=
  match map_get (employees s) employeeId with
  | None => s
  | Some employee =>
      let assignmentIds := indexGet (assignmentsByEmployee s) employeeId in
      let weeklyHours :=
        fold_left
          (fun wh a =>
             let week := weekOrDate a in
             map_set wh week (num_or0 (map_get wh week) + Assignment.hours a))
          (resolveIds s assignmentIds) ([] : JSMap Q) in
      let overtimeByWeek :=
        fold_left
          (fun ow '(week, hours) =>
             let overtime := Math_max0 (hours - Employee.maxHours employee) in
             if Qgtb overtime 0 then map_set ow week overtime else ow)
          weeklyHours ([] : JSMap Q) in
      let c := cache s in
      with_cache s
        {| overtimeByEmployee := map_set (overtimeByEmployee c) employeeId overtimeByWeek;
           utilizationByEmployee := utilizationByEmployee c;
           skillsMatchByProject := skillsMatchByProject c;
           isDirty := isDirty c |}
  end.

Definition calculateEmployeeUtilization (s : t) (employeeId : string) : t :=
  match map_get (employees s) employeeId with
  | None => s
  | Some employee =>
      let assignmentIds := indexGet (assignmentsByEmployee s) employeeId in
      let '(totalHours, weeksWorked) :=
        fold_left
          (fun '(total, weeks) a =>
             (total + Assignment.hours a, set_add weeks (weekOrDate a)))
          (resolveIds s assignmentIds) (0, ([] : JSSet)) in
      let maxCapacity :=
        Employee.maxHours employee
        * inject_Z (Z.max 1 (Z.of_nat (set_size weeksWorked))) in
      let utilization :=
        if Qgtb maxCapacity 0 then (totalHours / maxCapacity) * 100 else 0 in
      let c := cache s in
      with_cache s
        {| overtimeByEmployee := overtimeByEmployee c;
           utilizationByEmployee :=
             map_set (utilizationByEmployee c) employeeId (Math_min100 utilization);
           skillsMatchByProject := skillsMatchByProject c;
           isDirty := isDirty c |}
  end.

(** The private [calculateSkillsMatch(employee, project)] with the
    fractional weights. *)
Definition calculateSkillsMatch (employee : Employee.t) (project : Project.t) : Q :=
  match Project.requiredSkills project with
  | None | Some [] => 1
  | Some requiredSkills =>
      match Employee.skills employee with
      | [] => 0
      | _ =>
          let weightedScore :=
            fold_left
              (fun ws requiredSkill =>
                 match map_get (Employee.skills employee) requiredSkill with
                 | Some Expert => ws + 1
                 | Some Intermediate => ws + (7 # 10)
                 | Some Beginner => ws + (4 # 10)
                 | None => ws
                 end)
              requiredSkills 0 in
          weightedScore / inject_Z (Z.of_nat (List.length requiredSkills))
      end
  end.

Definition setSkillsMatch (s : t) (projectId : string) (v : Q) : t :=
  let c := cache s in
  with_cache s
    {| overtimeByEmployee := overtimeByEmployee c;
       utilizationByEmployee := utilizationByEmployee c;
       skillsMatchByProject := map_set (skillsMatchByProject c) projectId v;
       isDirty := isDirty c |}.

Definition hasRequiredSkills (project : Project.t) : bool :=
  match Project.requiredSkills project with
  | None | Some [] => false
  | Some _ => true
  end.

Definition calculateProjectSkillsMatch (s : t) (projectId : string) : t :=
  match map_get (projects s) projectId with
  | None => setSkillsMatch s projectId 100
  | Some project =>
      if negb (hasRequiredSkills project) then setSkillsMatch s projectId 100
      else
        let assignmentIds := indexGet (assignmentsByProject s) projectId in
        let employeesOnProject :=
          fold_left (fun es a => set_add es (Assignment.employeeId a))
            (resolveIds s assignmentIds) ([] : JSSet) in
        if (set_size employeesOnProject =? 0)%nat then setSkillsMatch s projectId 0
        else
          let totalMatch :=
            fold_left
              (fun total employeeId =>
                 match map_get (employees s) employeeId with
                 | Some employee => total + calculateSkillsMatch employee project
                 | None => total
                 end)
              employeesOnProject 0 in
          let averageMatch :=
            (totalMatch / inject_Z (Z.of_nat (set_size employeesOnProject))) * 100 in
          setSkillsMatch s projectId averageMatch
  end.

Definition clearDirtyTracking (s : t) : t :=
  {| cache := cache s; dirtyTracking := emptyDirty; employees := employees s;
     projects := projects s; assignments := assignments s;
     assignmentsByEmployee := assignmentsByEmployee s;
     assignmentsByProject := assignmentsByProject s |}.

Definition recalcEmployee (s : t) (employeeId : string) : t :=
  calculateEmployeeUtilization (calculateEmployeeOvertime s employeeId) employeeId.

Definition calculateAll (s : t) : t :=
  let s1 := fold_left recalcEmployee (map (fun e => Employee.id e) (map_values (employees s))) s in
  let s2 := fold_left calculateProjectSkillsMatch
              (map (fun p => Project.id p) (map_values (projects s1))) s1 in
  clearDirtyTracking (with_cache s2 (setDirtyFlag (cache s2) false)).

Definition recalculateDirty (s : t) : t :=
  let s1 := fold_left recalcEmployee (dirtyEmployees (dirtyTracking s)) s in
  let s2 := fold_left calculateProjectSkillsMatch (dirtyProjects (dirtyTracking s1)) s1 in
  clearDirtyTracking (with_cache s2 (setDirtyFlag (cache s2) false)).

Definition aggregateMetrics (s : t) : Metrics.t :=
  let c := cache s in
  let totalOvertime :=
    fold_left
      (fun total weekMap => fold_left (fun t hours => t + hours) (map_values weekMap) total)
      (map_values (overtimeByEmployee c)) 0 in
  let '(totalUtilization, employeeCount) :=
    fold_left (fun '(total, n) utilization => (total + utilization, (n + 1)%Z))
      (map_values (utilizationByEmployee c)) (0, 0%Z) in
  let '(totalSkillsMatch, projectCount) :=
    fold_left (fun '(total, n) m => (total + m, (n + 1)%Z))
      (map_values (skillsMatchByProject c)) (0, 0%Z) in
  {| Metrics.overtimeHours := Math_round totalOvertime;
     Metrics.resourceUtilization :=
       if (0 <? employeeCount)%Z
       then Math_round (totalUtilization / inject_Z employeeCount) else 0%Z;
     Metrics.skillsMatching :=
       if (0 <? projectCount)%Z
       then Math_round (totalSkillsMatch / inject_Z projectCount) else 0%Z |}.

Definition initialize (s : t) (employees0 : list Employee.t)
  (projects0 : list Project.t) (assignments0 : list Assignment.t) : t :=
  let employeesMap :=
    fold_left (fun m e => map_set m (Employee.id e) e) employees0 [] in
  let projectsMap :=
    fold_left (fun m p => map_set m (Project.id p) p) projects0 [] in
  let '(assignmentsMap, byEmployee, byProject) :=
    fold_left
      (fun '(am, be, bp) a =>
         (map_set am (Assignment.id a) a,
          indexAdd be (Assignment.employeeId a) (Assignment.id a),
          indexAdd bp (Assignment.projectId a) (Assignment.id a)))
      assignments0 ([], [], []) in
  calculateAll
    {| cache := emptyCache false; dirtyTracking := dirtyTracking s;
       employees := employeesMap; projects := projectsMap;
       assignments := assignmentsMap;
       assignmentsByEmployee := byEmployee; assignmentsByProject := byProject |}.

Definition markDirty (d : DirtyTracking) (employeeIds projectIds weeks : list string)
  : DirtyTracking :=
  {| dirtyEmployees := fold_left set_add employeeIds (dirtyEmployees d);
     dirtyProjects := fold_left set_add projectIds (dirtyProjects d);
     dirtyWeeks := fold_left set_add weeks (dirtyWeeks d) |}.

Definition opt_list {A} (o : option A) : list A :=
  match o with Some x => [x] | None => [] end.

Definition updateAssignment (s : t) (assignmentId : string)
  (updates : PartialAssignment.t) : t :=
  match map_get (assignments s) assignmentId with
  | None => s
  | Some existing =>
      let newEmployee :=
        changedTo (PartialAssignment.employeeId updates) (Assignment.employeeId existing) in
      let newProject :=
        changedTo (PartialAssignment.projectId updates) (Assignment.projectId existing) in
      let newWeek :=
        match PartialAssignment.week updates with
        | Some w => if truthy w then Some w else None
        | None => None
        end in
      let dirty :=
        markDirty (dirtyTracking s)
          (Assignment.employeeId existing :: opt_list newEmployee)
          (Assignment.projectId existing :: opt_list newProject)
          (weekOrDate existing :: opt_list newWeek) in
      let updated := spreadAssignment existing updates in
      let byEmployee :=
        match newEmployee with
        | Some e =>
            indexAdd
              (indexDelete (assignmentsByEmployee s) (Assignment.employeeId existing)
                 assignmentId)
              e assignmentId
        | None => assignmentsByEmployee s
        end in
      let byProject :=
        match newProject with
        | Some p =>
            indexAdd
              (indexDelete (assignmentsByProject s) (Assignment.projectId existing)
                 assignmentId)
              p assignmentId
        | None => assignmentsByProject s
        end in
      {| cache := setDirtyFlag (cache s) true; dirtyTracking := dirty;
         employees := employees s; projects := projects s;
         assignments := map_set (assignments s) assignmentId updated;
         assignmentsByEmployee := byEmployee; assignmentsByProject := byProject |}
  end.

Definition addAssignment (s : t) (assignment : Assignment.t) : t :=
  {| cache := setDirtyFlag (cache s) true;
     dirtyTracking :=
       markDirty (dirtyTracking s) [Assignment.employeeId assignment]
         [Assignment.projectId assignment] [weekOrDate assignment];
     employees := employees s; projects := projects s;
     assignments := map_set (assignments s) (Assignment.id assignment) assignment;
     assignmentsByEmployee :=
       indexAdd (assignmentsByEmployee s) (Assignment.employeeId assignment)
         (Assignment.id assignment);
     assignmentsByProject :=
       indexAdd (assignmentsByProject s) (Assignment.projectId assignment)
         (Assignment.id assignment) |}.

Definition removeAssignment (s : t) (assignmentId : string) : t :=
  match map_get (assignments s) assignmentId with
  | None => s
  | Some assignment =>
      {| cache := setDirtyFlag (cache s) true;
         dirtyTracking :=
           markDirty (dirtyTracking s) [Assignment.employeeId assignment]
             [Assignment.projectId assignment] [weekOrDate assignment];
         employees := employees s; projects := projects s;
         assignments := map_delete (assignments s) assignmentId;
         assignmentsByEmployee :=
           indexDelete (assignmentsByEmployee s) (Assignment.employeeId assignment)
             assignmentId;
         assignmentsByProject :=
           indexDelete (assignmentsByProject s) (Assignment.projectId assignment)
             assignmentId |}
  end.

(** [getMetrics] returns the record and leaves the object in a new state. *)
Definition getMetrics (s : t) : Metrics.t * t :=
  let s' := if isDirty (cache s) then recalculateDirty s else s in
  (aggregateMetrics s', s').

End IncrementalMetricsCalculator.

(** ** Reference formulas

    The quantities of the written specification, stated directly on the
    input lists, without intermediate maps. *)

(** Two ways to select assignments: all of them, or all but placeholders. *)
Definition everyAssignment (a : Assignment.t) : bool := true.
Definition notPlaceholder (a : Assignment.t) : bool := negb (isPlaceholder a).

(** The assignments that [keep] admits and that name the employee. *)
Definition assignedTo (keep : Assignment.t -> bool) (employeeId : string)
  (assignments : list Assignment.t) : list Assignment.t :=
  filter (fun a => keep a && String.eqb (Assignment.employeeId a) employeeId)
    assignments.

Definition hoursOf (assignments : list Assignment.t) : Q :=
  sumQ (map Assignment.hours assignments).

(** The distinct elements of a list, in order of first occurrence. *)
Fixpoint distinct (seen : list string) (l : list string) : list string :=
  match l with
  | [] => []
  | k :: r =>
      if existsb (String.eqb k) seen then distinct seen r
      else k :: distinct (k :: seen) r
  end.

(** Total assigned hours: each listed employee's hours over all assignments
    that refer to the employee. *)
Definition totalAssignedHoursSpec (employees : list Employee.t)
  (assignments : list Assignment.t) : Q :=
  sumQ (map (fun e => hoursOf (assignedTo everyAssignment (Employee.id e) assignments))
          employees).

(** Number of distinct period keys present across all assignments. *)
Definition distinctPeriodKeys (assignments : list Assignment.t) : nat :=
  List.length (nodup string_dec (map dateOrWeek assignments)).

Definition numPeriodsSpec {Date} (differenceInWeeks : Date -> Date -> Z)
  (assignments : list Assignment.t) (dateRange : option (DateRange.t Date)) : Z :=
  match dateRange with
  | Some r =>
      match DateRange.start r, DateRange.end_ r with
      | Some start, Some end_ => Z.max 1 (differenceInWeeks end_ start + 1)
      | _, _ => Z.max 1 (Z.of_nat (distinctPeriodKeys assignments))
      end
  | None => Z.max 1 (Z.of_nat (distinctPeriodKeys assignments))
  end.

Definition totalCapacitySpec {Date} (differenceInWeeks : Date -> Date -> Z)
  (employees : list Employee.t) (assignments : list Assignment.t)
  (dateRange : option (DateRange.t Date)) : Q :=
  sumQ (map Employee.maxHours employees)
  * inject_Z (numPeriodsSpec differenceInWeeks assignments dateRange).

(** Period-scoped overtime of one employee over the assignments admitted by
    [keep]: for each period key the employee appears in, the excess of the
    period's hours over [maxHours]. *)
Definition periodKeysOf (keep : Assignment.t -> bool) (employeeId : string)
  (assignments : list Assignment.t) : list string :=
  distinct [] (map dateOrWeek (assignedTo keep employeeId assignments)).

Definition periodHoursSpec (keep : Assignment.t -> bool) (employeeId period : string)
  (assignments : list Assignment.t) : Q :=
  hoursOf (filter (fun a => String.eqb (dateOrWeek a) period)
             (assignedTo keep employeeId assignments)).

Definition employeeOvertimeSpec (keep : Assignment.t -> bool) (e : Employee.t)
  (assignments : list Assignment.t) : Q :=
  sumQ (map (fun period =>
               Qmax 0 (periodHoursSpec keep (Employee.id e) period assignments
                       - Employee.maxHours e))
          (periodKeysOf keep (Employee.id e) assignments)).

Definition overtimeSpec (keep : Assignment.t -> bool)
  (employees : list Employee.t) (assignments : list Assignment.t) : Q :=
  sumQ (map (fun e => employeeOvertimeSpec keep e assignments) employees).

(** The ids of the employees that [findBestEmployee] may pick when nobody is
    excluded yet. *)
Definition eligibleIds (employees : list Employee.t) : list string :=
  nodup string_dec (map Employee.id (filter (isCandidate []) employees)).

(** What the per-group loop maintains: the ids suggested so far are exactly
    the used set, without repetition, and all of them are eligible. *)
Definition groupInvariant (data : ScheduleData.t)
  (st : JSSet * list PlaceholderSuggestion.t) : Prop :=
  map PlaceholderSuggestion.suggestedEmployeeId (snd st) = fst st
  /\ NoDup (fst st)
  /\ incl (fst st) (eligibleIds (ScheduleData.employees data)).

(** The calculator re-initialised on its own current entities. *)
Definition reinitialize (s : IncrementalMetricsCalculator.t)
  : IncrementalMetricsCalculator.t :=
  IncrementalMetricsCalculator.initialize s
    (map_values (IncrementalMetricsCalculator.employees s))
    (map_values (IncrementalMetricsCalculator.projects s))
    (map_values (IncrementalMetricsCalculator.assignments s)).

(** ** Concrete data *)

(** Dates as day numbers, and whole weeks between two of them, for closed
    examples. *)
Definition weeksBetweenDays (later earlier : Z) : Z := Z.quot (later - earlier) 7.

Definition noRange : option (DateRange.t Z) := None.

Definition mkEmployee (id : string) (maxHours : Q)
  (skills : JSMap ProficiencyLevel) : Employee.t :=
  {| Employee.id := id; Employee.name := id; Employee.maxHours := maxHours;
     Employee.skills := skills |}.

Definition mkProject (id : string) (requiredSkills : list string) : Project.t :=
  {| Project.id := id; Project.name := id;
     Project.requiredSkills := Some requiredSkills |}.

Definition mkAssignment (id employeeId projectId : string) (hours : Q)
  (week date : string) : Assignment.t :=
  {| Assignment.id := id; Assignment.employeeId := employeeId;
     Assignment.projectId := projectId; Assignment.hours := hours;
     Assignment.week := week; Assignment.date := date |}.

Definition unitWeights : OptimizationWeights.t :=
  {| OptimizationWeights.overtime := 1; OptimizationWeights.utilization := 1;
     OptimizationWeights.skills := 1 |}.

(** The example of the documentation of [calculateResourceUtilization]. *)
Definition john : Employee.t := mkEmployee "john" 40 [].
Definition johnTwoWeeks : list Assignment.t :=
  [ mkAssignment "1" "john" "p1" 10 "week1" "2024-01-01";
    mkAssignment "2" "john" "p1" 50 "week2" "2024-01-08" ].

(** An assignment whose employee is not listed, in a third week. *)
Definition strayAssignment : Assignment.t :=
  mkAssignment "3" "nobody" "p1" 10 "week3" "2024-01-15".

(** Under capacity in each week, over capacity in total. *)
Definition johnSteady : list Assignment.t :=
  [ mkAssignment "1" "john" "p1" 30 "week1" "2024-01-01";
    mkAssignment "2" "john" "p1" 30 "week2" "2024-01-08" ].

(** An employee entry that carries the sentinel id. *)
Definition sentinelEmployee : Employee.t := mkEmployee "Placeholder" 40 [].
Definition sentinelSlot : Assignment.t :=
  mkAssignment "s1" "Placeholder" "p1" 50 "week1" "2024-01-01".

(** Two employees and one project requiring one skill. *)
Definition ann : Employee.t := mkEmployee "ann" 40 [("Data", Expert)].
Definition bob : Employee.t := mkEmployee "bob" 40 [("Data", Beginner)].
Definition projData : Project.t := mkProject "p1" ["Data"].

(** Two open slots of one project on the same date, one labelled by the
    importer and one by the grid. *)
Definition slotImported : Assignment.t :=
  mkAssignment "x1" "Placeholder" "p1" 10 "2024-W01" "2024-01-01".
Definition slotGrid : Assignment.t :=
  mkAssignment "x2" "Placeholder 2" "p1" 10 "JAN 1" "2024-01-01".
Definition sameDateData : ScheduleData.t :=
  {| ScheduleData.employees := [ann; bob]; ScheduleData.projects := [projData];
     ScheduleData.assignments := [slotImported; slotGrid] |}.

(** One employee booked twice on one date under two week labels. *)
Definition annSameDate : list Assignment.t :=
  [ mkAssignment "y1" "ann" "p1" 30 "2024-W01" "2024-01-01";
    mkAssignment "y2" "ann" "p1" 30 "JAN 1" "2024-01-01" ].


(** An open slot that has a date and no week label. *)
Definition slotNoWeek : Assignment.t :=
  mkAssignment "z1" "" "p1" 10 "" "2024-01-01".
Definition noWeekData : ScheduleData.t :=
  {| ScheduleData.employees := [ann]; ScheduleData.projects := [projData];
     ScheduleData.assignments := [slotNoWeek] |}.

(** An open slot of a project that is not in the project list. *)
Definition slotUnknownProject : Assignment.t :=
  mkAssignment "u1" "Placeholder" "p9" 10 "2024-W01" "2024-01-01".
Definition unknownProjectData : ScheduleData.t :=
  {| ScheduleData.employees := [ann]; ScheduleData.projects := [projData];
     ScheduleData.assignments := [slotUnknownProject] |}.

(** The cache initialised with one employee and one project, then given an
    assignment to an unlisted project. *)
Definition cacheStart : IncrementalMetricsCalculator.t :=
  IncrementalMetricsCalculator.initialize IncrementalMetricsCalculator.new
    [bob] [mkProject "p1" ["Finance"]] [].
Definition danglingProjectAssignment : Assignment.t :=
  mkAssignment "a1" "bob" "p9" 10 "2024-W01" "2024-01-01".
Definition cacheAfterAdd : IncrementalMetricsCalculator.t :=
  IncrementalMetricsCalculator.addAssignment cacheStart danglingProjectAssignment.

(** ** The batch calculator and the optimizer's overtime in double precision

    The definitions above take numbers as exact rationals.  This module
    holds the same functions of [lib/metrics.ts] and of the optimizer with
    every number an IEEE 754 double and every operation the correctly
    rounded one of the run time, [NaN], the infinities and the signed zeros
    included.  The statements that depend on how a sum or a quotient is
    rounded are made on these definitions. *)

Module Double.

Module Employee.
Record t : Type := mk {
  id : string;
  name : string;
  maxHours : float;
  skills : JSMap ProficiencyLevel
}.
End Employee.

Module Assignment.
Record t : Type := mk {
  id : string;
  employeeId : string;
  projectId : string;
  hours : float;
  week : string;
  date : string
}.
End Assignment.

(** [x || 0] on a number: 0, -0 and [NaN] are falsy. *)
Definition orZero (x : float) : float :=
  if PrimFloat.is_zero x || PrimFloat.is_nan x then 0%float else x.

(** [o || 0] where [o] is a number or [undefined]. *)
Definition num_or0 (o : option float) : float :=
  match o with Some x => orZero x | None => 0%float end.

(** [x > y]; false when either side is [NaN]. *)
Definition gt (x y : float) : bool := PrimFloat.ltb y x.

(** [Math.max(1, y)]. *)
Definition Math_max1 (y : float) : float :=
  if PrimFloat.is_nan y then PrimFloat.nan
  else if PrimFloat.ltb 1 y then y else 1%float.

(** The size of a set as a number; sizes stay far below 2^53. *)
Definition size_number (n : nat) : float :=
  PrimFloat.of_uint63 (Uint63.of_Z (Z.of_nat n)).

(** The value a double stands for. *)
Definition value (x : float) : jsnum :=
  match Prim2SF x with
  | S754_zero _ => Fin 0
  | S754_infinity false => PosInf
  | S754_infinity true => NegInf
  | S754_nan => NaN
  | S754_finite s m e =>
      Fin ((if s then - inject_Z (Zpos m) else inject_Z (Zpos m)) * 2 ^ e)
  end.

(** [Math.round]: the nearest integer to the value of the double, halves
    towards +infinity; [NaN] and the infinities are returned as they are. *)
Definition Math_round (x : float) : jsnum :=
  match value x with
  | Fin q => Fin (inject_Z (Math_round q))
  | v => v
  end.

Definition dateOrWeek (a : Assignment.t) : string :=
  str_or (Assignment.date a) (Assignment.week a).

Definition isPlaceholder (a : Assignment.t) : bool :=
  sentinelId (Assignment.employeeId a).

(** *** [calculateResourceUtilization] *)

Definition addAssignedHours (m : JSMap float) (a : Assignment.t) : JSMap float :=
  map_set m (Assignment.employeeId a)
    (num_or0 (map_get m (Assignment.employeeId a)) + Assignment.hours a)%float.

Definition timePeriodsSet (assignments : list Assignment.t) : JSSet :=
  fold_left (fun s a => set_add s (dateOrWeek a)) assignments [].

Section Batch.

(** [differenceInWeeks] returns a number, [NaN] for an invalid date. *)
Variable Date : Type.
Variable differenceInWeeks : Date -> Date -> float.

Definition numPeriodsOf (assignments : list Assignment.t)
  (dateRange : option (DateRange.t Date)) : float :=
  match dateRange with
  | Some {| DateRange.start := Some start; DateRange.end_ := Some end_ |} =>
      Math_max1 (differenceInWeeks end_ start + 1)%float
  | _ => Math_max1 (size_number (set_size (timePeriodsSet assignments)))
  end.

Definition capacityAndHours (numPeriods : float)
  (employeeAssignedHours : JSMap float) (employees : list Employee.t)
  : float * float :=
  fold_left
    (fun '(cap, tot) employee =>
       ((cap + Employee.maxHours employee * numPeriods)%float,
        (tot + num_or0 (map_get employeeAssignedHours (Employee.id employee)))%float))
    employees (0%float, 0%float).

Definition calculateResourceUtilization (employees : list Employee.t)
  (assignments : list Assignment.t) (dateRange : option (DateRange.t Date))
  : jsnum :=
  match employees with
  | [] => Fin 0
  | _ =>
      let numPeriods := numPeriodsOf assignments dateRange in
      let employeeAssignedHours := fold_left addAssignedHours assignments [] in
      let '(totalMaxCapacity, totalAssignedHours) :=
        capacityAndHours numPeriods employeeAssignedHours employees in
      if gt totalMaxCapacity 0
      then Math_round ((totalAssignedHours / totalMaxCapacity) * 100)%float
      else Fin 0
  end.

End Batch.

Arguments numPeriodsOf {Date}.
Arguments calculateResourceUtilization {Date}.

(** *** Overtime: [calculateMetrics] and [calculateTotalOvertime] *)

Definition bumpPeriod (periodMap : JSMap float) (a : Assignment.t) : JSMap float :=
  let currentHours := num_or0 (map_get periodMap (dateOrWeek a)) in
  map_set periodMap (dateOrWeek a) (currentHours + Assignment.hours a)%float.

Definition addPeriodHours (m : JSMap (JSMap float)) (a : Assignment.t)
  : JSMap (JSMap float) :=
  let m1 :=
    if map_has m (Assignment.employeeId a) then m
    else map_set m (Assignment.employeeId a) [] in
  let periodMap :=
    match map_get m1 (Assignment.employeeId a) with
    | Some pm => pm
    | None => []
    end in
  map_set m1 (Assignment.employeeId a) (bumpPeriod periodMap a).

(** [if (hours > employee.maxHours) total += hours - employee.maxHours]. *)
Definition addExcess (maxHours total hours : float) : float :=
  if gt hours maxHours then (total + (hours - maxHours))%float else total.

Definition overtimeOfPeriods (maxHours : float) (periodHours : JSMap float)
  (acc : float) : float :=
  fold_left (addExcess maxHours) (map_values periodHours) acc.

Definition overtimeOfEmployees (employeeHoursByPeriod : JSMap (JSMap float))
  (employees : list Employee.t) : float :=
  fold_left
    (fun ot employee =>
       match map_get employeeHoursByPeriod (Employee.id employee) with
       | Some periodHours =>
           overtimeOfPeriods (Employee.maxHours employee) periodHours ot
       | None => ot
       end)
    employees 0%float.

(** The [overtimeHours] accumulator of [calculateMetrics], and the field it
    returns. *)
Definition metricsOvertime (employees : list Employee.t)
  (assignments : list Assignment.t) : float :=
  overtimeOfEmployees (fold_left addPeriodHours assignments []) employees.

Definition metricsOvertimeHours (employees : list Employee.t)
  (assignments : list Assignment.t) : jsnum :=
  Math_round (metricsOvertime employees assignments).

(** The guard of [calculateTotalOvertime]. *)
Definition countsForOvertime (a : Assignment.t) : bool :=
  truthy (Assignment.employeeId a)
  && negb (String.eqb (Assignment.employeeId a) "Placeholder")
  && negb (String.eqb (Assignment.employeeId a) "placeholder")
  && negb (startsWith (Assignment.employeeId a) "Placeholder ").

Definition calculateTotalOvertime (employees : list Employee.t)
  (assignments : list Assignment.t) : float :=
  let employeeHoursByPeriod :=
    fold_left (fun m a => if countsForOvertime a then addPeriodHours m a else m)
      assignments [] in
  overtimeOfEmployees employeeHoursByPeriod employees.

(** *** The quantities of the written specification, in double precision

    Stated on the input lists, without intermediate maps.  The sums are the
    running sums of the code: hours are added in assignment order and a
    running total that is 0 or [NaN] counts as 0, as [|| 0] makes it. *)

Definition everyAssignment (a : Assignment.t) : bool := true.
Definition notPlaceholder (a : Assignment.t) : bool := negb (isPlaceholder a).

Definition assignedTo (keep : Assignment.t -> bool) (employeeId : string)
  (assignments : list Assignment.t) : list Assignment.t :=
  filter (fun a => keep a && String.eqb (Assignment.employeeId a) employeeId)
    assignments.

Definition hoursOf (assignments : list Assignment.t) : float :=
  fold_left (fun total a => (orZero total + Assignment.hours a)%float)
    assignments 0%float.

Definition totalAssignedHours (employees : list Employee.t)
  (assignments : list Assignment.t) : float :=
  fold_left
    (fun total e =>
       (total
        + orZero (hoursOf (assignedTo everyAssignment (Employee.id e) assignments)))%float)
    employees 0%float.

Definition distinctPeriodKeys (assignments : list Assignment.t) : nat :=
  List.length (nodup string_dec (map dateOrWeek assignments)).

Definition numPeriodsSpec {Date} (differenceInWeeks : Date -> Date -> float)
  (assignments : list Assignment.t) (dateRange : option (DateRange.t Date))
  : float :=
  match dateRange with
  | Some r =>
      match DateRange.start r, DateRange.end_ r with
      | Some start, Some end_ => Math_max1 (differenceInWeeks end_ start + 1)%float
      | _, _ => Math_max1 (size_number (distinctPeriodKeys assignments))
      end
  | None => Math_max1 (size_number (distinctPeriodKeys assignments))
  end.

Definition totalMaxCapacity (employees : list Employee.t) (numPeriods : float)
  : float :=
  fold_left (fun total e => (total + Employee.maxHours e * numPeriods)%float)
    employees 0%float.

Definition periodKeysOf (keep : Assignment.t -> bool) (employeeId : string)
  (assignments : list Assignment.t) : list string :=
  distinct [] (map dateOrWeek (assignedTo keep employeeId assignments)).

Definition periodHours (keep : Assignment.t -> bool) (employeeId period : string)
  (assignments : list Assignment.t) : float :=
  hoursOf (filter (fun a => String.eqb (dateOrWeek a) period)
             (assignedTo keep employeeId assignments)).

(** Period-scoped overtime: employee by employee and period by period, the
    excess of the period's hours over [maxHours] is added where the hours
    exceed it. *)
Definition overtimeSpec (keep : Assignment.t -> bool)
  (employees : list Employee.t) (assignments : list Assignment.t) : float :=
  fold_left
    (fun total e =>
       fold_left (addExcess (Employee.maxHours e))
         (map (fun period => periodHours keep (Employee.id e) period assignments)
            (periodKeysOf keep (Employee.id e) assignments))
         total)
    employees 0%float.

(** The exact value of a finite double, for comparison with the formulas
    in exact arithmetic. *)
Definition toQ (x : float) : Q :=
  match value x with Fin q => q | _ => 0 end.

End Double.

Definition exactEmployee (e : Double.Employee.t) : Employee.t :=
  {| Employee.id := Double.Employee.id e; Employee.name := Double.Employee.name e;
     Employee.maxHours := Double.toQ (Double.Employee.maxHours e);
     Employee.skills := Double.Employee.skills e |}.

Definition exactAssignment (a : Double.Assignment.t) : Assignment.t :=
  {| Assignment.id := Double.Assignment.id a;
     Assignment.employeeId := Double.Assignment.employeeId a;
     Assignment.projectId := Double.Assignment.projectId a;
     Assignment.hours := Double.toQ (Double.Assignment.hours a);
     Assignment.week := Double.Assignment.week a;
     Assignment.date := Double.Assignment.date a |}.

(** Concrete data in double precision. *)
Definition mkEmployee64 (id : string) (maxHours : float) : Double.Employee.t :=
  {| Double.Employee.id := id; Double.Employee.name := id;
     Double.Employee.maxHours := maxHours; Double.Employee.skills := [] |}.

Definition mkAssignment64 (id employeeId : string) (hours : float)
  (week date : string) : Double.Assignment.t :=
  {| Double.Assignment.id := id; Double.Assignment.employeeId := employeeId;
     Double.Assignment.projectId := "p1"; Double.Assignment.hours := hours;
     Double.Assignment.week := week; Double.Assignment.date := date |}.

Definition noRange64 : option (DateRange.t Z) := None.
Definition weeksBetweenDays64 (later earlier : Z) : float :=
  let weeks := Z.quot (later - earlier) 7 in
  if (weeks <? 0)%Z
  then PrimFloat.opp (PrimFloat.of_uint63 (Uint63.of_Z (- weeks)))
  else PrimFloat.of_uint63 (Uint63.of_Z weeks).

Definition john64 : Double.Employee.t := mkEmployee64 "john" 40.
Definition johnTwoWeeks64 : list Double.Assignment.t :=
  [ mkAssignment64 "1" "john" 10 "week1" "2024-01-01";
    mkAssignment64 "2" "john" 50 "week2" "2024-01-08" ].
Definition johnSteady64 : list Double.Assignment.t :=
  [ mkAssignment64 "1" "john" 30 "week1" "2024-01-01";
    mkAssignment64 "2" "john" 30 "week2" "2024-01-08" ].

(** 23 hours of 40: the quotient 0.575 is not a double. *)
Definition john23 : list Double.Assignment.t :=
  [ mkAssignment64 "1" "john" 23 "week1" "2024-01-01" ].

(** 0.1 + 32.2 + 7.7 hours in one week, written as the doubles nearest to
    the decimals. *)
Definition johnFractions : list Double.Assignment.t :=
  [ mkAssignment64 "1" "john" 0x1.999999999999ap-4 "week1" "2024-01-01";
    mkAssignment64 "2" "john" 0x1.019999999999ap+5 "week1" "2024-01-01";
    mkAssignment64 "3" "john" 0x1.ecccccccccccdp+2 "week1" "2024-01-01" ].

(** The same three amounts as exact decimals. *)
Definition johnFractionsDecimal : list Assignment.t :=
  [ mkAssignment "1" "john" "p1" (1 # 10) "week1" "2024-01-01";
    mkAssignment "2" "john" "p1" (322 # 10) "week1" "2024-01-01";
    mkAssignment "3" "john" "p1" (77 # 10) "week1" "2024-01-01" ].

(** ** Auxiliary definitions for the further properties *)

(** The property names every plain object inherits from [Object.prototype].
    The source reads [employee.skills[skill]] on a plain object: for a
    skill the employee has, that is the employee's level; for any other
    name it is [undefined], except for these names, where it is the
    inherited function or accessor value.  The embedding reads the skill
    among the employee's own skills, which is what the source does when
    the name is the employee's own or is not inherited. *)
Definition objectPrototypeKeys : list string :=
  [ "constructor"; "hasOwnProperty"; "isPrototypeOf"; "propertyIsEnumerable";
    "toLocaleString"; "toString"; "valueOf"; "__proto__";
    "__defineGetter__"; "__defineSetter__"; "__lookupGetter__";
    "__lookupSetter__" ].

Definition plainSkill (employee : Employee.t) (skill : string) : bool :=
  map_has (Employee.skills employee) skill
  || negb (existsb (String.eqb skill) objectPrototypeKeys).

(** Every skill the project requires reads as a level or as [undefined]
    from the employee's skills. *)
Definition plainSkills (employee : Employee.t) (project : Project.t) : Prop :=
  Forall (fun skill => plainSkill employee skill = true)
    (match Project.requiredSkills project with
     | Some requiredSkills => requiredSkills
     | None => []
     end).


(** The inner loop of [createSkillScoreMatrix]: the non-zero project scores
    of one employee. *)
Definition projectScoresOf (employee : Employee.t) (projects : list Project.t)
  : JSMap Q :=
  fold_left
    (fun ps project =>
       if Qgtb (getEmployeeProjectSkillScore employee project) 0
       then map_set ps (Project.id project)
              (getEmployeeProjectSkillScore employee project)
       else ps)
    projects [].

(** The key [`${assignment.employeeId}-${assignment.projectId}`] of
    [calculateSkillsMatch]. *)
Definition pairKeyOf (a : Assignment.t) : string :=
  (Assignment.employeeId a ++ "-" ++ Assignment.projectId a)%string.

(** Whether an assignment can score in [calculateSkillsMatch]: both
    references resolve and the project lists at least one required skill. *)
Definition scorable (employeeMap : JSMap Employee.t)
  (projectMap : JSMap Project.t) (a : Assignment.t) : bool :=
  match map_get employeeMap (Assignment.employeeId a),
        map_get projectMap (Assignment.projectId a) with
  | Some _, Some project =>
      match Project.requiredSkills project with
      | Some (_ :: _) => true
      | _ => false
      end
  | _, _ => false
  end.

(** A suggestion made for a group: it carries the id of the group's project
    and the week label and hours of one of the group's placeholders. *)
Definition suggestionFrom (project : Project.t) (placeholders : list Assignment.t)
  (s : PlaceholderSuggestion.t) : Prop :=
  PlaceholderSuggestion.projectId s = Project.id project
  /\ exists p, In p placeholders
               /\ PlaceholderSuggestion.week s = Assignment.week p
               /\ PlaceholderSuggestion.originalHours s = Assignment.hours p.

(** The suggestion that the optimizer makes for [noWeekData]. *)
Definition noWeekSuggestion : PlaceholderSuggestion.t :=
  {| PlaceholderSuggestion.projectId := "p1";
     PlaceholderSuggestion.projectName := "p1";
     PlaceholderSuggestion.week := "";
     PlaceholderSuggestion.originalHours := 10;
     PlaceholderSuggestion.suggestedEmployeeId := "ann";
     PlaceholderSuggestion.suggestedEmployeeName := "ann";
     PlaceholderSuggestion.overtimeScore := 0;
     PlaceholderSuggestion.utilizationScore := Fin (1000 # 40);
     PlaceholderSuggestion.skillsScore := 300 |}.

(** The calculator with its dirty sets replaced. *)
Definition withDirty (s : IncrementalMetricsCalculator.t)
  (d : IncrementalMetricsCalculator.DirtyTracking)
  : IncrementalMetricsCalculator.t :=
  {| IncrementalMetricsCalculator.cache := IncrementalMetricsCalculator.cache s;
     IncrementalMetricsCalculator.dirtyTracking := d;
     IncrementalMetricsCalculator.employees :=
       IncrementalMetricsCalculator.employees s;
     IncrementalMetricsCalculator.projects :=
       IncrementalMetricsCalculator.projects s;
     IncrementalMetricsCalculator.assignments :=
       IncrementalMetricsCalculator.assignments s;
     IncrementalMetricsCalculator.assignmentsByEmployee :=
       IncrementalMetricsCalculator.assignmentsByEmployee s;
     IncrementalMetricsCalculator.assignmentsByProject :=
       IncrementalMetricsCalculator.assignmentsByProject s |}.

(** An update that names a new employee only. *)
Definition reassignTo (employeeId : string) : PartialAssignment.t :=
  {| PartialAssignment.id := None;
     PartialAssignment.employeeId := Some employeeId;
     PartialAssignment.projectId := None;
     PartialAssignment.hours := None;
     PartialAssignment.week := None;
     PartialAssignment.date := None |}.

(** The bounds the calculator keeps on what it caches: utilisation values
    are capped, skills values are percentages and only positive overtime is
    stored. *)
Definition cacheInRange (c : IncrementalMetricsCalculator.MetricsCache) : Prop :=
  (forall v, In v (map_values (IncrementalMetricsCalculator.utilizationByEmployee c))
             -> v <= 100)
  /\ (forall v, In v (map_values (IncrementalMetricsCalculator.skillsMatchByProject c))
                -> 0 <= v /\ v <= 100)
  /\ (forall weekMap v,
        In weekMap (map_values (IncrementalMetricsCalculator.overtimeByEmployee c)) ->
        In v (map_values weekMap) -> 0 < v).

(** The states a calculator object can be in: a fresh object, and whatever
    its public methods make of a state it can be in. *)
Inductive reachable : IncrementalMetricsCalculator.t -> Prop :=
| reach_new : reachable IncrementalMetricsCalculator.new
| reach_initialize s employees projects assignments :
    reachable s ->
    reachable (IncrementalMetricsCalculator.initialize s employees projects assignments)
| reach_updateAssignment s assignmentId updates :
    reachable s ->
    reachable (IncrementalMetricsCalculator.updateAssignment s assignmentId updates)
| reach_addAssignment s assignment :
    reachable s ->
    reachable (IncrementalMetricsCalculator.addAssignment s assignment)
| reach_removeAssignment s assignmentId :
    reachable s ->
    reachable (IncrementalMetricsCalculator.removeAssignment s assignmentId)
| reach_getMetrics s :
    reachable s ->
    reachable (snd (IncrementalMetricsCalculator.getMetrics s)).

(** * Properties *)

(** ** Arithmetic of exact numbers *)

Lemma fold_Qplus_acc (l : list Q) (a : Q) :
  fold_left Qplus l a == a + sumQ l.
Proof.
  unfold sumQ. revert a.
  induction l as [|x l IH]; intros a; simpl.
  - ring.
  - rewrite (IH (a + x)), (IH (0 + x)). ring.
Qed.

Lemma sumQ_cons (x : Q) (l : list Q) : sumQ (x :: l) == x + sumQ l.
Proof.
  unfold sumQ at 1. simpl. rewrite fold_Qplus_acc. ring.
Qed.

Lemma sumQ_app (l1 l2 : list Q) : sumQ (l1 ++ l2) == sumQ l1 + sumQ l2.
Proof.
  induction l1 as [|x l1 IH]; simpl.
  - unfold sumQ at 2. simpl. ring.
  - rewrite !sumQ_cons, IH. ring.
Qed.

Lemma sumQ_pointwise {A} (f g : A -> Q) (l : list A) :
  (forall x, In x l -> f x == g x) -> sumQ (map f l) == sumQ (map g l).
Proof.
  induction l as [|x l IH]; intros H; simpl.
  - reflexivity.
  - rewrite !sumQ_cons. apply Qplus_comp.
    + apply H. simpl; auto.
    + apply IH. intros y Hy. apply H. simpl; auto.
Qed.

Lemma sumQ_nonneg (l : list Q) : Forall (fun x => 0 <= x) l -> 0 <= sumQ l.
Proof.
  induction 1 as [|x l Hx _ IH].
  - discriminate.
  - rewrite sumQ_cons.
    setoid_replace 0 with (0 + 0) by ring.
    apply Qplus_le_compat; assumption.
Qed.

Lemma sumQ_all_zero {A} (f : A -> Q) (l : list A) :
  (forall x, In x l -> f x == 0) -> sumQ (map f l) == 0.
Proof.
  induction l as [|x l IH]; intros H; simpl.
  - reflexivity.
  - rewrite sumQ_cons.
    assert (E1 : f x == 0) by (apply H; simpl; auto).
    assert (E2 : sumQ (map f l) == 0)
      by (apply IH; intros y Hy; apply H; simpl; auto).
    rewrite E1, E2. ring.
Qed.

Lemma Qgtb_true (x y : Q) : Qgtb x y = true <-> y < x.
Proof.
  unfold Qgtb. rewrite negb_true_iff. split; intros H.
  - apply Qnot_le_lt. intros Hle. apply Qle_bool_iff in Hle. congruence.
  - destruct (Qle_bool x y) eqn:E; [|reflexivity].
    apply Qle_bool_iff in E. exfalso. exact (Qlt_not_le _ _ H E).
Qed.

Lemma Qgtb_false (x y : Q) : Qgtb x y = false <-> x <= y.
Proof.
  unfold Qgtb. rewrite negb_false_iff. apply Qle_bool_iff.
Qed.

#[local] Instance Qgtb_comp : Proper (Qeq ==> Qeq ==> eq) Qgtb.
Proof.
  intros x x' Hx y y' Hy. unfold Qgtb. now rewrite Hx, Hy.
Qed.

#[local] Instance Math_round_comp : Proper (Qeq ==> eq) Math_round.
Proof.
  intros x y H. unfold Math_round. now rewrite H.
Qed.

Lemma Math_round_mono (x y : Q) : x <= y -> (Math_round x <= Math_round y)%Z.
Proof.
  intros H. unfold Math_round. apply Qfloor_resp_le.
  apply Qplus_le_compat; [assumption | apply Qle_refl].
Qed.

(** The guarded accumulation [if (hours > max) total += hours - max] adds
    the positive part of the excess. *)
Lemma excess_is_Qmax (hours maxHours acc : Q) :
  (if Qgtb hours maxHours then acc + (hours - maxHours) else acc)
  == acc + Qmax 0 (hours - maxHours).
Proof.
  destruct (Qgtb hours maxHours) eqn:E.
  - apply Qgtb_true in E.
    rewrite Q.max_r; [reflexivity|].
    apply Qlt_le_weak. unfold Qminus. rewrite <- (Qplus_opp_r maxHours).
    apply Qplus_lt_l. assumption.
  - apply Qgtb_false in E.
    rewrite Q.max_l; [ring|].
    unfold Qminus. rewrite <- (Qplus_opp_r maxHours).
    apply Qplus_le_l. assumption.
Qed.

(** ** [Map] and [Set] laws *)

Lemma map_get_set_same {V} (m : JSMap V) (k : string) (v : V) :
  map_get (map_set m k v) k = Some v.
Proof.
  induction m as [|[k' v'] m IH]; simpl.
  - now rewrite String.eqb_refl.
  - destruct (String.eqb k' k) eqn:E; simpl; rewrite E; auto.
Qed.

Lemma map_get_set_other {V} (m : JSMap V) (k k0 : string) (v : V) :
  k <> k0 -> map_get (map_set m k v) k0 = map_get m k0.
Proof.
  intros Hne. induction m as [|[k' v'] m IH]; simpl.
  - destruct (String.eqb k k0) eqn:E; [apply String.eqb_eq in E; contradiction|reflexivity].
  - destruct (String.eqb k' k) eqn:E; simpl.
    + apply String.eqb_eq in E. subst k'.
      destruct (String.eqb k k0) eqn:E'; [|reflexivity].
      apply String.eqb_eq in E'. contradiction.
    + now rewrite IH.
Qed.

Lemma map_get_None_keys {V} (m : JSMap V) (k : string) :
  map_get m k = None <-> ~ In k (map_keys m).
Proof.
  induction m as [|[k' v'] m IH]; simpl.
  - tauto.
  - destruct (String.eqb k' k) eqn:E.
    + apply String.eqb_eq in E. split; [discriminate|]. intros H. exfalso. auto.
    + apply String.eqb_neq in E. rewrite IH. tauto.
Qed.

Lemma map_keys_set {V} (m : JSMap V) (k : string) (v : V) :
  map_keys (map_set m k v)
  = if map_has m k then map_keys m else map_keys m ++ [k].
Proof.
  unfold map_has. induction m as [|[k' v'] m IH]; simpl.
  - reflexivity.
  - destruct (String.eqb k' k) eqn:E; simpl.
    + reflexivity.
    + rewrite IH. destruct (map_get m k); reflexivity.
Qed.

Lemma map_has_true {V} (m : JSMap V) (k : string) :
  map_has m k = true <-> In k (map_keys m).
Proof.
  unfold map_has. destruct (map_get m k) eqn:E.
  - split; [intros _|reflexivity].
    destruct (in_dec string_dec k (map_keys m)) as [H|H]; [assumption|].
    apply map_get_None_keys in H. congruence.
  - split; [discriminate|]. intros H. apply map_get_None_keys in E. contradiction.
Qed.

Lemma map_of_entries_get_None {A} (key : A -> string) (l : list A) (k : string) :
  ~ In k (map key l) ->
  map_get (map_of_entries (map (fun x => (key x, x)) l)) k = None.
Proof.
  unfold map_of_entries.
  assert (G : forall m, map_get m k = None -> ~ In k (map key l) ->
    map_get (fold_left (fun m kv => map_set m (fst kv) (snd kv))
               (map (fun x => (key x, x)) l) m) k = None).
  { induction l as [|x l IH]; intros m Hm Hn; simpl in *.
    - assumption.
    - apply IH; [|tauto].
      rewrite map_get_set_other; [assumption|]. intros E. apply Hn. now left. }
  intros Hn. apply G; [reflexivity | assumption].
Qed.

Lemma map_of_entries_get_key {A} (key : A -> string) (l : list A) (k : string) (x : A) :
  map_get (map_of_entries (map (fun x => (key x, x)) l)) k = Some x -> key x = k.
Proof.
  unfold map_of_entries.
  assert (G : forall m,
    (forall y, map_get m k = Some y -> key y = k) ->
    map_get (fold_left (fun m kv => map_set m (fst kv) (snd kv))
               (map (fun x => (key x, x)) l) m) k = Some x -> key x = k).
  { induction l as [|y l IH]; intros m Hm; simpl.
    - apply Hm.
    - apply IH. intros z. destruct (string_dec (key y) k) as [E|E].
      + rewrite E, map_get_set_same. intros [= <-]. assumption.
      + rewrite map_get_set_other by assumption. apply Hm. }
  apply G. simpl. discriminate.
Qed.

Lemma set_has_true (s : JSSet) (k : string) : set_has s k = true <-> In k s.
Proof.
  unfold set_has. rewrite existsb_exists. split.
  - intros [x [Hin E]]. apply String.eqb_eq in E. now subst.
  - intros H. exists k. split; [assumption | apply String.eqb_refl].
Qed.

Lemma set_has_false (s : JSSet) (k : string) : set_has s k = false <-> ~ In k s.
Proof.
  rewrite <- set_has_true. destruct (set_has s k); split; congruence.
Qed.

Lemma set_add_In (s : JSSet) (k x : string) :
  In x (set_add s k) <-> In x s \/ x = k.
Proof.
  unfold set_add. destruct (set_has s k) eqn:E.
  - apply set_has_true in E. split; [tauto|]. intros [H| ->]; assumption.
  - rewrite in_app_iff. simpl. intuition.
Qed.

Lemma set_add_NoDup (s : JSSet) (k : string) : NoDup s -> NoDup (set_add s k).
Proof.
  intros H. unfold set_add. destruct (set_has s k) eqn:E; [assumption|].
  apply set_has_false in E.
  apply NoDup_app; [assumption | repeat constructor; simpl; tauto |].
  intros x Hx [<-|[]]. contradiction.
Qed.

Lemma fold_set_add_In (l : list string) (s : JSSet) (x : string) :
  In x (fold_left set_add l s) <-> In x s \/ In x l.
Proof.
  revert s. induction l as [|k l IH]; intros s; simpl.
  - tauto.
  - rewrite IH, set_add_In. intuition.
Qed.

Lemma fold_set_add_NoDup (l : list string) (s : JSSet) :
  NoDup s -> NoDup (fold_left set_add l s).
Proof.
  revert s. induction l as [|k l IH]; intros s H; simpl.
  - assumption.
  - apply IH, set_add_NoDup, H.
Qed.

Lemma fold_left_map_arg {A B C} (f : C -> B -> C) (g : A -> B) (l : list A) (c : C) :
  fold_left (fun acc a => f acc (g a)) l c = fold_left f (map g l) c.
Proof.
  revert c. induction l as [|a l IH]; intros c; simpl; auto.
Qed.

(** The size of a set filled from a list is the number of distinct elements
    of the list. *)
Lemma fold_set_add_size (l : list string) :
  set_size (fold_left set_add l []) = List.length (nodup string_dec l).
Proof.
  unfold set_size. apply Permutation_length, NoDup_Permutation.
  - apply fold_set_add_NoDup. constructor.
  - apply NoDup_nodup.
  - intros x. rewrite fold_set_add_In, nodup_In. simpl. tauto.
Qed.

Lemma timePeriodsSet_size (assignments : list Assignment.t) :
  set_size (timePeriodsSet assignments) = distinctPeriodKeys assignments.
Proof.
  unfold timePeriodsSet, distinctPeriodKeys.
  rewrite (fold_left_map_arg set_add dateOrWeek). apply fold_set_add_size.
Qed.

(** ** Resource utilization: the maps compute the reference formula *)

Lemma hoursOf_cons (a : Assignment.t) (l : list Assignment.t) :
  hoursOf (a :: l) == Assignment.hours a + hoursOf l.
Proof. unfold hoursOf. simpl. apply sumQ_cons. Qed.

Lemma hoursOf_nil : hoursOf [] == 0.
Proof. reflexivity. Qed.

Lemma assignedHours_fold (assignments : list Assignment.t) (m : JSMap Q) (k : string) :
  num_or0 (map_get (fold_left addAssignedHours assignments m) k)
  == num_or0 (map_get m k) + hoursOf (assignedTo everyAssignment k assignments).
Proof.
  revert m. induction assignments as [|a l IH]; intros m; simpl.
  - rewrite hoursOf_nil. ring.
  - rewrite IH. unfold addAssignedHours at 1.
    destruct (String.eqb (Assignment.employeeId a) k) eqn:E.
    + apply String.eqb_eq in E. subst k.
      rewrite map_get_set_same, hoursOf_cons. simpl. ring.
    + apply String.eqb_neq in E.
      rewrite map_get_set_other by assumption. reflexivity.
Qed.

Lemma capacityAndHours_fold (numPeriods : Z) (m : JSMap Q)
  (employees : list Employee.t) (c0 t0 : Q) :
  let r :=
    fold_left
      (fun '(cap, tot) employee =>
         (cap + Employee.maxHours employee * inject_Z numPeriods,
          tot + num_or0 (map_get m (Employee.id employee))))
      employees (c0, t0) in
  fst r == c0 + sumQ (map Employee.maxHours employees) * inject_Z numPeriods
  /\ snd r == t0 + sumQ (map (fun e => num_or0 (map_get m (Employee.id e))) employees).
Proof.
  revert c0 t0. induction employees as [|e l IH]; intros c0 t0; simpl.
  - split; unfold sumQ; simpl; ring.
  - destruct (IH (c0 + Employee.maxHours e * inject_Z numPeriods)
                 (t0 + num_or0 (map_get m (Employee.id e)))) as [Hc Ht].
    simpl in Hc, Ht. split.
    + rewrite Hc, sumQ_cons. ring.
    + rewrite Ht, sumQ_cons. ring.
Qed.

Section UtilizationFormula.

Variable Date : Type.
Variable differenceInWeeks : Date -> Date -> Z.

Lemma numPeriodsOf_spec (assignments : list Assignment.t)
  (dateRange : option (DateRange.t Date)) :
  numPeriodsOf differenceInWeeks assignments dateRange
  = numPeriodsSpec differenceInWeeks assignments dateRange.
Proof.
  unfold numPeriodsOf, numPeriodsSpec.
  destruct dateRange as [[[s|] [e|]]|]; simpl;
    rewrite ?timePeriodsSet_size; reflexivity.
Qed.

Lemma capacityAndHours_spec (employees : list Employee.t)
  (assignments : list Assignment.t) (dateRange : option (DateRange.t Date)) :
  let r :=
    capacityAndHours (numPeriodsOf differenceInWeeks assignments dateRange)
      (fold_left addAssignedHours assignments []) employees in
  fst r == totalCapacitySpec differenceInWeeks employees assignments dateRange
  /\ snd r == totalAssignedHoursSpec employees assignments.
Proof.
  unfold capacityAndHours.
  destruct (capacityAndHours_fold
              (numPeriodsOf differenceInWeeks assignments dateRange)
              (fold_left addAssignedHours assignments []) employees 0 0)
    as [Hc Ht].
  simpl in *. split.
  - rewrite Hc. unfold totalCapacitySpec. rewrite numPeriodsOf_spec. ring.
  - rewrite Ht, Qplus_0_l. unfold totalAssignedHoursSpec.
    apply sumQ_pointwise. intros e _.
    rewrite assignedHours_fold. simpl. ring.
Qed.

(** The value of [calculateResourceUtilization] on a non-empty employee
    list, in terms of the reference quantities. *)
Lemma utilization_by_formula (employees : list Employee.t)
  (assignments : list Assignment.t) (dateRange : option (DateRange.t Date)) :
  employees <> [] ->
  calculateResourceUtilization differenceInWeeks employees assignments dateRange
  = if Qgtb (totalCapacitySpec differenceInWeeks employees assignments dateRange) 0
    then Math_round
           (100 * totalAssignedHoursSpec employees assignments
            / totalCapacitySpec differenceInWeeks employees assignments dateRange)
    else 0%Z.
Proof.
  intros Hne. unfold calculateResourceUtilization.
  destruct employees as [|e0 l]; [contradiction|].
  destruct (capacityAndHours_spec (e0 :: l) assignments dateRange) as [Hc Ht].
  cbv zeta in Hc, Ht.
  destruct (capacityAndHours _ _ (e0 :: l)) as [cap tot]. simpl in Hc, Ht.
  rewrite Hc.
  destruct (Qgtb _ 0) eqn:E; [|reflexivity].
  apply Math_round_comp. rewrite Hc, Ht.
  apply Qgtb_true in E.
  field. intros H0. rewrite H0 in E. discriminate.
Qed.

End UtilizationFormula.

(** ** Overtime: the nested map computes the period-scoped sum *)

Lemma distinct_ext (seen seen' l : list string) :
  (forall x, In x seen <-> In x seen') -> distinct seen l = distinct seen' l.
Proof.
  revert seen seen'. induction l as [|k l IH]; intros seen seen' H; simpl.
  - reflexivity.
  - assert (E : existsb (String.eqb k) seen = existsb (String.eqb k) seen').
    { apply eq_true_iff_eq. fold (set_has seen k) (set_has seen' k).
      rewrite !set_has_true. apply H. }
    rewrite E. destruct (existsb (String.eqb k) seen').
    + apply IH, H.
    + f_equal. apply IH. intros x. simpl. rewrite H. tauto.
Qed.

Lemma distinct_In (seen l : list string) (x : string) :
  In x (distinct seen l) <-> In x l /\ ~ In x seen.
Proof.
  revert seen. induction l as [|k l IH]; intros seen; simpl.
  - tauto.
  - fold (set_has seen k). destruct (set_has seen k) eqn:E.
    + apply set_has_true in E. rewrite IH. split; [tauto|].
      intros [[<-|H] Hn]; [contradiction|tauto].
    + apply set_has_false in E. simpl. rewrite IH. simpl.
      destruct (string_dec k x) as [<-|Hne]; [tauto|]. tauto.
Qed.

Lemma distinct_NoDup (seen l : list string) : NoDup (distinct seen l).
Proof.
  revert seen. induction l as [|k l IH]; intros seen; simpl.
  - constructor.
  - destruct (existsb (String.eqb k) seen); [apply IH|].
    constructor; [|apply IH].
    rewrite distinct_In. simpl. tauto.
Qed.

Lemma bumpPeriod_keys (period : Assignment.t -> string)
  (l : list Assignment.t) (pm : JSMap Q) :
  map_keys (fold_left (bumpPeriod period) l pm)
  = map_keys pm ++ distinct (map_keys pm) (map period l).
Proof.
  revert pm. induction l as [|a l IH]; intros pm; simpl.
  - now rewrite app_nil_r.
  - rewrite IH.
    assert (K : map_keys (bumpPeriod period pm a)
                = if map_has pm (period a) then map_keys pm
                  else map_keys pm ++ [period a])
      by (unfold bumpPeriod; apply map_keys_set).
    rewrite K. clear K.
    fold (set_has (map_keys pm) (period a)).
    destruct (map_has pm (period a)) eqn:E.
    + apply map_has_true in E. apply set_has_true in E. now rewrite E.
    + assert (E' : set_has (map_keys pm) (period a) = false).
      { apply set_has_false. rewrite <- map_has_true. congruence. }
      rewrite E', <- app_assoc. simpl. do 2 f_equal.
      apply distinct_ext. intros x. rewrite in_app_iff. simpl. tauto.
Qed.

Lemma bumpPeriod_hours (period : Assignment.t -> string)
  (l : list Assignment.t) (pm : JSMap Q) (k : string) :
  num_or0 (map_get (fold_left (bumpPeriod period) l pm) k)
  == num_or0 (map_get pm k)
     + hoursOf (filter (fun a => String.eqb (period a) k) l).
Proof.
  revert pm. induction l as [|a l IH]; intros pm; simpl.
  - rewrite hoursOf_nil. ring.
  - rewrite IH.
    destruct (String.eqb (period a) k) eqn:E.
    + apply String.eqb_eq in E. subst k.
      unfold bumpPeriod at 1.
      rewrite map_get_set_same, hoursOf_cons. simpl. ring.
    + apply String.eqb_neq in E.
      unfold bumpPeriod at 1.
      rewrite map_get_set_other by assumption. reflexivity.
Qed.

(** In a map without repeated keys every entry is what [get] returns. *)
Lemma map_values_by_get {V W} (f : V -> W) (d : V) (m : JSMap V) :
  NoDup (map_keys m) ->
  map f (map_values m)
  = map (fun k => f (match map_get m k with Some v => v | None => d end))
      (map_keys m).
Proof.
  induction m as [|[k v] m IH]; intros H; simpl.
  - reflexivity.
  - inversion H as [|? ? Hn Hnd]; subst.
    rewrite String.eqb_refl. f_equal.
    rewrite IH by assumption. apply map_ext_in. intros k' Hk'.
    destruct (String.eqb k k') eqn:E; [|reflexivity].
    apply String.eqb_eq in E. subst k'. contradiction.
Qed.

Lemma overtimeOfPeriods_sum (maxHours : Q) (periodHours : JSMap Q) (acc : Q) :
  overtimeOfPeriods maxHours periodHours acc
  == acc + sumQ (map (fun hours => Qmax 0 (hours - maxHours)) (map_values periodHours)).
Proof.
  unfold overtimeOfPeriods. generalize (map_values periodHours) as l.
  intros l. revert acc. induction l as [|h l IH]; intros acc; simpl.
  - unfold sumQ. simpl. ring.
  - rewrite IH, sumQ_cons, excess_is_Qmax. ring.
Qed.

(** What the outer map holds for an employee after the assignments admitted
    by [keep] have been entered. *)
Lemma periodMap_of_employee (keep : Assignment.t -> bool)
  (assignments : list Assignment.t) (m : JSMap (JSMap Q)) (e : string) :
  map_get
    (fold_left (fun m a => if keep a then addPeriodHours dateOrWeek m a else m)
       assignments m) e
  = match assignedTo keep e assignments with
    | [] => map_get m e
    | l =>
        Some (fold_left (bumpPeriod dateOrWeek) l
                (match map_get m e with Some pm => pm | None => [] end))
    end.
Proof.
  revert m. induction assignments as [|a l IH]; intros m; simpl.
  - reflexivity.
  - rewrite IH. clear IH.
    destruct (keep a) eqn:K; simpl; [|reflexivity].
    destruct (String.eqb (Assignment.employeeId a) e) eqn:E.
    + apply String.eqb_eq in E. subst e.
      assert (G : map_get (addPeriodHours dateOrWeek m a) (Assignment.employeeId a)
                  = Some (bumpPeriod dateOrWeek
                            (match map_get m (Assignment.employeeId a) with
                             | Some pm => pm | None => [] end) a)).
      { unfold addPeriodHours. rewrite map_get_set_same. do 2 f_equal.
        unfold map_has.
        destruct (map_get m (Assignment.employeeId a)) eqn:G.
        - now rewrite G.
        - now rewrite map_get_set_same. }
      rewrite G. simpl. destruct (assignedTo keep (Assignment.employeeId a) l); reflexivity.
    + apply String.eqb_neq in E.
      assert (G : map_get (addPeriodHours dateOrWeek m a) e = map_get m e).
      { unfold addPeriodHours. rewrite map_get_set_other by assumption.
        destruct (map_has m (Assignment.employeeId a)); [reflexivity|].
        now rewrite map_get_set_other. }
      now rewrite G.
Qed.

Lemma employee_overtime_spec (keep : Assignment.t -> bool) (e : Employee.t)
  (assignments : list Assignment.t) (acc : Q) :
  match
    map_get
      (fold_left (fun m a => if keep a then addPeriodHours dateOrWeek m a else m)
         assignments [])
      (Employee.id e)
  with
  | Some periodHours => overtimeOfPeriods (Employee.maxHours e) periodHours acc
  | None => acc
  end
  == acc + employeeOvertimeSpec keep e assignments.
Proof.
  rewrite periodMap_of_employee.
  unfold employeeOvertimeSpec, periodKeysOf, periodHoursSpec.
  destruct (assignedTo keep (Employee.id e) assignments) as [|a0 l] eqn:E.
  - simpl. unfold sumQ. simpl. ring.
  - change (map_get [] (Employee.id e)) with (@None (JSMap Q)). cbv iota.
    set (pm := fold_left (bumpPeriod dateOrWeek) (a0 :: l) []).
    assert (K : map_keys pm = distinct [] (map dateOrWeek (a0 :: l)))
      by (unfold pm; rewrite bumpPeriod_keys; reflexivity).
    rewrite overtimeOfPeriods_sum.
    rewrite (map_values_by_get (fun h => Qmax 0 (h - Employee.maxHours e)) 0 pm)
      by (rewrite K; apply distinct_NoDup).
    rewrite K. apply Qplus_comp; [reflexivity|].
    apply sumQ_pointwise. intros k _.
    apply Q.max_compat; [reflexivity|].
    apply Qplus_comp; [|reflexivity].
    change (match map_get pm k with Some v => v | None => 0 end)
      with (num_or0 (map_get pm k)).
    unfold pm. rewrite bumpPeriod_hours. simpl num_or0. ring.
Qed.

Lemma overtimeOfEmployees_spec (keep : Assignment.t -> bool)
  (employees : list Employee.t) (assignments : list Assignment.t) :
  overtimeOfEmployees
    (fold_left (fun m a => if keep a then addPeriodHours dateOrWeek m a else m)
       assignments [])
    employees
  == overtimeSpec keep employees assignments.
Proof.
  unfold overtimeOfEmployees, overtimeSpec.
  assert (G : forall acc,
    fold_left
      (fun ot employee =>
         match
           map_get
             (fold_left
                (fun m a => if keep a then addPeriodHours dateOrWeek m a else m)
                assignments [])
             (Employee.id employee)
         with
         | Some periodHours =>
             overtimeOfPeriods (Employee.maxHours employee) periodHours ot
         | None => ot
         end)
      employees acc
    == acc + sumQ (map (fun e => employeeOvertimeSpec keep e assignments) employees)).
  { induction employees as [|e l IH]; intros acc; simpl.
    - unfold sumQ. simpl. ring.
    - rewrite IH, employee_overtime_spec, sumQ_cons. ring. }
  rewrite G. ring.
Qed.

Lemma overtimeSpec_ext (keep keep' : Assignment.t -> bool)
  (employees : list Employee.t) (assignments : list Assignment.t) :
  (forall e a, In e employees -> In a assignments ->
     Assignment.employeeId a = Employee.id e -> keep a = keep' a) ->
  overtimeSpec keep employees assignments = overtimeSpec keep' employees assignments.
Proof.
  intros H. unfold overtimeSpec. f_equal. apply map_ext_in. intros e He.
  assert (E : assignedTo keep (Employee.id e) assignments
              = assignedTo keep' (Employee.id e) assignments).
  { unfold assignedTo. apply filter_ext_in. intros a Ha.
    destruct (String.eqb (Assignment.employeeId a) (Employee.id e)) eqn:E.
    - apply String.eqb_eq in E. now rewrite (H e a He Ha E).
    - now rewrite !andb_false_r. }
  unfold employeeOvertimeSpec, periodKeysOf, periodHoursSpec. now rewrite E.
Qed.

Lemma countsForOvertime_notPlaceholder (a : Assignment.t) :
  countsForOvertime a = notPlaceholder a.
Proof.
  unfold countsForOvertime, notPlaceholder, isPlaceholder, sentinelId.
  destruct (truthy _), (String.eqb _ "Placeholder"),
    (String.eqb _ "placeholder"), (startsWith _ _); reflexivity.
Qed.

Lemma calculateTotalOvertime_spec (employees : list Employee.t)
  (assignments : list Assignment.t) :
  calculateTotalOvertime employees assignments
  == overtimeSpec notPlaceholder employees assignments.
Proof.
  unfold calculateTotalOvertime.
  rewrite (overtimeOfEmployees_spec countsForOvertime).
  rewrite (overtimeSpec_ext countsForOvertime notPlaceholder); [reflexivity|].
  intros e a _ _ _. apply countsForOvertime_notPlaceholder.
Qed.

Lemma metricsOvertime_spec (employees : list Employee.t)
  (assignments : list Assignment.t) :
  metricsOvertime employees assignments
  == overtimeSpec everyAssignment employees assignments.
Proof.
  unfold metricsOvertime.
  change (fold_left (addPeriodHours dateOrWeek) assignments [])
    with (fold_left
            (fun m a => if everyAssignment a then addPeriodHours dateOrWeek m a else m)
            assignments []).
  apply overtimeOfEmployees_spec.
Qed.

(** ** Utilization and overtime in double precision

    The arithmetic of doubles is neither associative nor exact, so the
    statements below keep the order in which the code adds: the proofs
    relate the maps of the code to sums over the input lists without using
    any law of arithmetic. *)

Lemma fold_left_pointwise {A B} (f g : A -> B -> A) (l : list B) (a : A) :
  (forall x y, In y l -> f x y = g x y) -> fold_left f l a = fold_left g l a.
Proof.
  revert a. induction l as [|y l IH]; intros a H; simpl; [reflexivity|].
  rewrite H by now left. apply IH. intros x z Hz. apply H. now right.
Qed.

Lemma orZero_zero : Double.orZero 0 = 0%float.
Proof. reflexivity. Qed.

(** A running total kept in a map entry, [(get || 0) + hours], is the
    running total kept in a variable. *)
Lemma running_total_Some {A} (hours : A -> float) (l : list A) (t : float) :
  fold_left (fun o a => Some (Double.num_or0 o + hours a)%float) l (Some t)
  = Some (fold_left (fun total a => (Double.orZero total + hours a)%float) l t).
Proof.
  revert t. induction l as [|a l IH]; intros t; simpl; [reflexivity|]. apply IH.
Qed.

Lemma running_total_None (l : list Double.Assignment.t) :
  match
    fold_left (fun o a => Some (Double.num_or0 o + Double.Assignment.hours a)%float)
      l None
  with
  | Some total => total
  | None => 0%float
  end
  = Double.hoursOf l.
Proof.
  destruct l as [|a l]; [reflexivity|].
  unfold Double.hoursOf. cbn [fold_left Double.num_or0].
  rewrite running_total_Some, orZero_zero. reflexivity.
Qed.

Lemma running_total_or0 (l : list Double.Assignment.t) :
  Double.num_or0
    (fold_left (fun o a => Some (Double.num_or0 o + Double.Assignment.hours a)%float)
       l None)
  = Double.orZero (Double.hoursOf l).
Proof.
  destruct l as [|a l]; [reflexivity|].
  unfold Double.hoursOf. cbn [fold_left Double.num_or0].
  rewrite running_total_Some, orZero_zero. reflexivity.
Qed.

Lemma double_assignedHours_get (assignments : list Double.Assignment.t)
  (m : JSMap float) (k : string) :
  map_get (fold_left Double.addAssignedHours assignments m) k
  = fold_left (fun o a => Some (Double.num_or0 o + Double.Assignment.hours a)%float)
      (Double.assignedTo Double.everyAssignment k assignments) (map_get m k).
Proof.
  revert m. induction assignments as [|a l IH]; intros m; [reflexivity|].
  cbn [fold_left]. rewrite IH. unfold Double.assignedTo.
  cbn [filter Double.everyAssignment andb].
  unfold Double.addAssignedHours at 1.
  destruct (String.eqb (Double.Assignment.employeeId a) k) eqn:E.
  - apply String.eqb_eq in E. subst k. now rewrite map_get_set_same.
  - apply String.eqb_neq in E. now rewrite map_get_set_other by assumption.
Qed.

Lemma double_capacityAndHours_fold (numPeriods : float) (m : JSMap float)
  (employees : list Double.Employee.t) (c0 t0 : float) :
  fold_left
    (fun '(cap, tot) employee =>
       ((cap + Double.Employee.maxHours employee * numPeriods)%float,
        (tot + Double.num_or0 (map_get m (Double.Employee.id employee)))%float))
    employees (c0, t0)
  = (fold_left
       (fun total e => (total + Double.Employee.maxHours e * numPeriods)%float)
       employees c0,
     fold_left
       (fun total e =>
          (total + Double.num_or0 (map_get m (Double.Employee.id e)))%float)
       employees t0).
Proof.
  revert c0 t0. induction employees as [|e l IH]; intros c0 t0; simpl;
    [reflexivity|apply IH].
Qed.

Lemma double_timePeriodsSet_size (assignments : list Double.Assignment.t) :
  set_size (Double.timePeriodsSet assignments) = Double.distinctPeriodKeys assignments.
Proof.
  unfold Double.timePeriodsSet, Double.distinctPeriodKeys.
  rewrite (fold_left_map_arg set_add Double.dateOrWeek). apply fold_set_add_size.
Qed.

Lemma double_numPeriodsOf_spec {Date} (differenceInWeeks : Date -> Date -> float)
  (assignments : list Double.Assignment.t) (dateRange : option (DateRange.t Date)) :
  Double.numPeriodsOf differenceInWeeks assignments dateRange
  = Double.numPeriodsSpec differenceInWeeks assignments dateRange.
Proof.
  unfold Double.numPeriodsOf, Double.numPeriodsSpec.
  destruct dateRange as [[[s|] [e|]]|]; simpl;
    rewrite ?double_timePeriodsSet_size; reflexivity.
Qed.

Lemma double_capacityAndHours_spec {Date} (differenceInWeeks : Date -> Date -> float)
  (employees : list Double.Employee.t) (assignments : list Double.Assignment.t)
  (dateRange : option (DateRange.t Date)) :
  Double.capacityAndHours
    (Double.numPeriodsOf differenceInWeeks assignments dateRange)
    (fold_left Double.addAssignedHours assignments []) employees
  = (Double.totalMaxCapacity employees
       (Double.numPeriodsSpec differenceInWeeks assignments dateRange),
     Double.totalAssignedHours employees assignments).
Proof.
  unfold Double.capacityAndHours. rewrite double_capacityAndHours_fold.
  rewrite double_numPeriodsOf_spec. f_equal.
  unfold Double.totalAssignedHours. apply fold_left_pointwise.
  intros total e _. f_equal.
  rewrite double_assignedHours_get. apply running_total_or0.
Qed.

(** C5.  In double precision [calculateResourceUtilization] returns 0 for
    an empty employee list; otherwise it returns
    [Math.round ((totalAssignedHours / totalMaxCapacity) * 100)], the
    quotient rounded to a double before it is multiplied by 100, when
    [totalMaxCapacity] is greater than 0, and 0 when it is not.
    [totalMaxCapacity] adds [maxHours * numPeriods] over the employees in
    list order, [totalAssignedHours] adds over the employees the hours of
    the assignments that name each of them, and the number of periods is
    [Math.max(1, differenceInWeeks(end, start) + 1)] when both ends of a
    range are supplied and [Math.max(1, number of distinct period keys)]
    otherwise.  One employee with [maxHours = 40], 10 hours in one period
    and 50 in another, yields 75. *)
Theorem C5_utilization_in_double_precision
  (Date : Type) (differenceInWeeks : Date -> Date -> float)
  (employees : list Double.Employee.t) (assignments : list Double.Assignment.t)
  (dateRange : option (DateRange.t Date)) :
  Double.calculateResourceUtilization differenceInWeeks [] assignments dateRange
  = Fin 0
  /\ Double.calculateResourceUtilization differenceInWeeks employees assignments
       dateRange
     = match employees with
       | [] => Fin 0
       | _ =>
           let totalMaxCapacity :=
             Double.totalMaxCapacity employees
               (Double.numPeriodsSpec differenceInWeeks assignments dateRange) in
           let totalAssignedHours :=
             Double.totalAssignedHours employees assignments in
           if Double.gt totalMaxCapacity 0
           then Double.Math_round
                  ((totalAssignedHours / totalMaxCapacity) * 100)%float
           else Fin 0
       end
  /\ (forall start end_ : Date,
      Double.numPeriodsSpec differenceInWeeks assignments
        (Some {| DateRange.start := Some start; DateRange.end_ := Some end_ |})
      = Double.Math_max1 (differenceInWeeks end_ start + 1)%float)
  /\ Double.numPeriodsSpec differenceInWeeks assignments None
     = Double.Math_max1
         (Double.size_number
            (List.length (nodup string_dec (map Double.dateOrWeek assignments))))
  /\ Double.calculateResourceUtilization weeksBetweenDays64 [john64] johnTwoWeeks64
       noRange64
     = Fin 75.
Proof.
  split; [reflexivity|].
  split.
  { destruct employees as [|e0 l]; [reflexivity|].
    unfold Double.calculateResourceUtilization. cbv zeta.
    now rewrite double_capacityAndHours_spec. }
  split; [reflexivity|].
  split; [reflexivity|].
  vm_compute. reflexivity.
Qed.

(** C5, the claim as stated fails: with 23 hours assigned to one employee
    of 40 the code returns 57, because the double nearest to 23/40 times
    100 lies just below 57.5, while [round (100 * 23 / 40)] is 58. *)
Lemma C5_counterexample :
  Double.calculateResourceUtilization weeksBetweenDays64 [john64] john23 noRange64
  = Fin 57
  /\ Math_round
       (100 * totalAssignedHoursSpec (map exactEmployee [john64])
                (map exactAssignment john23)
        / totalCapacitySpec weeksBetweenDays (map exactEmployee [john64])
            (map exactAssignment john23) noRange)
     = 58%Z.
Proof.
  split; vm_compute; reflexivity.
Qed.

(** *** Overtime *)

Lemma double_bumpPeriod_keys (l : list Double.Assignment.t) (pm : JSMap float) :
  map_keys (fold_left Double.bumpPeriod l pm)
  = map_keys pm ++ distinct (map_keys pm) (map Double.dateOrWeek l).
Proof.
  revert pm. induction l as [|a l IH]; intros pm; simpl.
  - now rewrite app_nil_r.
  - rewrite IH.
    assert (K : map_keys (Double.bumpPeriod pm a)
                = if map_has pm (Double.dateOrWeek a) then map_keys pm
                  else map_keys pm ++ [Double.dateOrWeek a])
      by (unfold Double.bumpPeriod; apply map_keys_set).
    rewrite K. clear K.
    fold (set_has (map_keys pm) (Double.dateOrWeek a)).
    destruct (map_has pm (Double.dateOrWeek a)) eqn:E.
    + apply map_has_true in E. apply set_has_true in E. now rewrite E.
    + assert (E' : set_has (map_keys pm) (Double.dateOrWeek a) = false).
      { apply set_has_false. rewrite <- map_has_true. congruence. }
      rewrite E', <- app_assoc. simpl. do 2 f_equal.
      apply distinct_ext. intros x. rewrite in_app_iff. simpl. tauto.
Qed.

Lemma double_bumpPeriod_get (l : list Double.Assignment.t) (pm : JSMap float)
  (k : string) :
  map_get (fold_left Double.bumpPeriod l pm) k
  = fold_left (fun o a => Some (Double.num_or0 o + Double.Assignment.hours a)%float)
      (filter (fun a => String.eqb (Double.dateOrWeek a) k) l) (map_get pm k).
Proof.
  revert pm. induction l as [|a l IH]; intros pm; [reflexivity|].
  cbn [fold_left filter]. rewrite IH. unfold Double.bumpPeriod at 1. cbv zeta.
  destruct (String.eqb (Double.dateOrWeek a) k) eqn:E.
  - apply String.eqb_eq in E. subst k. now rewrite map_get_set_same.
  - apply String.eqb_neq in E. now rewrite map_get_set_other by assumption.
Qed.

Lemma double_periodMap_of_employee (keep : Double.Assignment.t -> bool)
  (assignments : list Double.Assignment.t) (m : JSMap (JSMap float)) (e : string) :
  map_get
    (fold_left (fun m a => if keep a then Double.addPeriodHours m a else m)
       assignments m) e
  = match Double.assignedTo keep e assignments with
    | [] => map_get m e
    | l =>
        Some (fold_left Double.bumpPeriod l
                (match map_get m e with Some pm => pm | None => [] end))
    end.
Proof.
  revert m. induction assignments as [|a l IH]; intros m; simpl.
  - reflexivity.
  - rewrite IH. clear IH.
    destruct (keep a) eqn:K; simpl; [|reflexivity].
    destruct (String.eqb (Double.Assignment.employeeId a) e) eqn:E.
    + apply String.eqb_eq in E. subst e.
      assert (G : map_get (Double.addPeriodHours m a) (Double.Assignment.employeeId a)
                  = Some (Double.bumpPeriod
                            (match map_get m (Double.Assignment.employeeId a) with
                             | Some pm => pm | None => [] end) a)).
      { unfold Double.addPeriodHours. rewrite map_get_set_same. do 2 f_equal.
        unfold map_has.
        destruct (map_get m (Double.Assignment.employeeId a)) eqn:G.
        - now rewrite G.
        - now rewrite map_get_set_same. }
      rewrite G. simpl.
      destruct (Double.assignedTo keep (Double.Assignment.employeeId a) l);
        reflexivity.
    + apply String.eqb_neq in E.
      assert (G : map_get (Double.addPeriodHours m a) e = map_get m e).
      { unfold Double.addPeriodHours. rewrite map_get_set_other by assumption.
        destruct (map_has m (Double.Assignment.employeeId a)); [reflexivity|].
        now rewrite map_get_set_other. }
      now rewrite G.
Qed.

(** The periods the code visits for an employee, and the hours it finds
    in each, are those of the reference: the distinct period keys of the
    employee's assignments in order of first occurrence, each with its
    running total. *)
Lemma double_employee_overtime (keep : Double.Assignment.t -> bool)
  (e : Double.Employee.t) (assignments : list Double.Assignment.t) (acc : float) :
  match
    map_get
      (fold_left (fun m a => if keep a then Double.addPeriodHours m a else m)
         assignments [])
      (Double.Employee.id e)
  with
  | Some periodHours =>
      Double.overtimeOfPeriods (Double.Employee.maxHours e) periodHours acc
  | None => acc
  end
  = fold_left (Double.addExcess (Double.Employee.maxHours e))
      (map (fun period =>
              Double.periodHours keep (Double.Employee.id e) period assignments)
         (Double.periodKeysOf keep (Double.Employee.id e) assignments))
      acc.
Proof.
  rewrite double_periodMap_of_employee.
  unfold Double.periodKeysOf, Double.periodHours.
  destruct (Double.assignedTo keep (Double.Employee.id e) assignments)
    as [|a0 l] eqn:E; [reflexivity|].
  change (map_get [] (Double.Employee.id e)) with (@None (JSMap float)). cbv iota.
  set (pm := fold_left Double.bumpPeriod (a0 :: l) []).
  assert (K : map_keys pm = distinct [] (map Double.dateOrWeek (a0 :: l)))
    by (unfold pm; rewrite double_bumpPeriod_keys; reflexivity).
  unfold Double.overtimeOfPeriods.
  rewrite <- (map_id (map_values pm)).
  rewrite (map_values_by_get (fun h => h) 0%float pm)
    by (rewrite K; apply distinct_NoDup).
  rewrite K. f_equal. apply map_ext. intros k.
  unfold pm. rewrite double_bumpPeriod_get.
  change (map_get [] k) with (@None float). apply running_total_None.
Qed.

Lemma double_overtimeOfEmployees_spec (keep : Double.Assignment.t -> bool)
  (employees : list Double.Employee.t) (assignments : list Double.Assignment.t) :
  Double.overtimeOfEmployees
    (fold_left (fun m a => if keep a then Double.addPeriodHours m a else m)
       assignments [])
    employees
  = Double.overtimeSpec keep employees assignments.
Proof.
  unfold Double.overtimeOfEmployees, Double.overtimeSpec.
  apply fold_left_pointwise. intros total e _.
  apply double_employee_overtime.
Qed.

Lemma double_overtimeSpec_ext (keep keep' : Double.Assignment.t -> bool)
  (employees : list Double.Employee.t) (assignments : list Double.Assignment.t) :
  (forall e a, In e employees -> In a assignments ->
     Double.Assignment.employeeId a = Double.Employee.id e -> keep a = keep' a) ->
  Double.overtimeSpec keep employees assignments
  = Double.overtimeSpec keep' employees assignments.
Proof.
  intros H. unfold Double.overtimeSpec. apply fold_left_pointwise.
  intros total e He.
  assert (E : Double.assignedTo keep (Double.Employee.id e) assignments
              = Double.assignedTo keep' (Double.Employee.id e) assignments).
  { unfold Double.assignedTo. apply filter_ext_in. intros a Ha.
    destruct (String.eqb (Double.Assignment.employeeId a) (Double.Employee.id e))
      eqn:E.
    - apply String.eqb_eq in E. now rewrite (H e a He Ha E).
    - now rewrite !andb_false_r. }
  unfold Double.periodKeysOf, Double.periodHours. now rewrite E.
Qed.

Lemma double_countsForOvertime_notPlaceholder (a : Double.Assignment.t) :
  Double.countsForOvertime a = Double.notPlaceholder a.
Proof.
  unfold Double.countsForOvertime, Double.notPlaceholder, Double.isPlaceholder,
    sentinelId.
  destruct (truthy _), (String.eqb _ "Placeholder"),
    (String.eqb _ "placeholder"), (startsWith _ _); reflexivity.
Qed.

Lemma double_calculateTotalOvertime_spec (employees : list Double.Employee.t)
  (assignments : list Double.Assignment.t) :
  Double.calculateTotalOvertime employees assignments
  = Double.overtimeSpec Double.notPlaceholder employees assignments.
Proof.
  unfold Double.calculateTotalOvertime. cbv zeta.
  rewrite (double_overtimeOfEmployees_spec Double.countsForOvertime).
  apply double_overtimeSpec_ext.
  intros e a _ _ _. apply double_countsForOvertime_notPlaceholder.
Qed.

Lemma double_metricsOvertime_spec (employees : list Double.Employee.t)
  (assignments : list Double.Assignment.t) :
  Forall (fun e => sentinelId (Double.Employee.id e) = false) employees ->
  Double.metricsOvertime employees assignments
  = Double.overtimeSpec Double.notPlaceholder employees assignments.
Proof.
  intros Hids. unfold Double.metricsOvertime.
  change (fold_left Double.addPeriodHours assignments [])
    with (fold_left
            (fun m a =>
               if Double.everyAssignment a then Double.addPeriodHours m a else m)
            assignments []).
  rewrite double_overtimeOfEmployees_spec.
  apply double_overtimeSpec_ext. intros e a He _ Ea.
  rewrite Forall_forall in Hids. specialize (Hids e He).
  unfold Double.everyAssignment, Double.notPlaceholder, Double.isPlaceholder.
  now rewrite Ea, Hids.
Qed.

Lemma double_overtimeSpec_under_capacity (keep : Double.Assignment.t -> bool)
  (employees : list Double.Employee.t) (assignments : list Double.Assignment.t) :
  (forall e period, In e employees ->
     In period (Double.periodKeysOf keep (Double.Employee.id e) assignments) ->
     Double.gt (Double.periodHours keep (Double.Employee.id e) period assignments)
       (Double.Employee.maxHours e) = false) ->
  Double.overtimeSpec keep employees assignments = 0%float.
Proof.
  intros H. unfold Double.overtimeSpec.
  generalize 0%float as total.
  induction employees as [|e l IH]; intros total; [reflexivity|].
  cbn [fold_left].
  assert (E : forall (periods : list string) (t : float),
            incl periods (Double.periodKeysOf keep (Double.Employee.id e) assignments) ->
            fold_left (Double.addExcess (Double.Employee.maxHours e))
              (map (fun period =>
                      Double.periodHours keep (Double.Employee.id e) period
                        assignments) periods) t = t).
  { induction periods as [|k ks IHk]; intros t Hincl; [reflexivity|].
    cbn [map fold_left]. unfold Double.addExcess at 2.
    rewrite (H e k) by (first [now left | apply Hincl; now left]).
    apply IHk. intros x Hx. apply Hincl. now right. }
  rewrite E by apply incl_refl.
  apply IH. intros e' period He'. apply H. now right.
Qed.

(** C6.  In double precision [calculateTotalOvertime] is the period-scoped
    sum: employee by employee in list order, and for each period key the
    employee appears in (placeholder assignments excluded, keys in order of
    first occurrence), the excess of the period's hours over [maxHours] is
    added where the hours exceed it; a period's hours are added up in
    assignment order.  When no listed employee has an empty or a
    placeholder id, [calculateMetrics] reports [Math.round] of the same
    sum.  An employee whose hours exceed [maxHours] in no period
    contributes zero, also when the hours of all periods together exceed
    it. *)
Theorem C6_overtime_is_period_scoped_in_double_precision
  (employees : list Double.Employee.t) (assignments : list Double.Assignment.t) :
  Double.calculateTotalOvertime employees assignments
  = Double.overtimeSpec Double.notPlaceholder employees assignments
  /\ (Forall (fun e => sentinelId (Double.Employee.id e) = false) employees ->
      Double.metricsOvertimeHours employees assignments
      = Double.Math_round
          (Double.overtimeSpec Double.notPlaceholder employees assignments))
  /\ (forall keep : Double.Assignment.t -> bool,
      (forall e period, In e employees ->
         In period (Double.periodKeysOf keep (Double.Employee.id e) assignments) ->
         Double.gt
           (Double.periodHours keep (Double.Employee.id e) period assignments)
           (Double.Employee.maxHours e) = false) ->
      Double.overtimeSpec keep employees assignments = 0%float)
  /\ (Double.hoursOf johnSteady64 = 60%float
      /\ Double.calculateTotalOvertime [john64] johnSteady64 = 0%float).
Proof.
  split; [apply double_calculateTotalOvertime_spec|].
  split.
  { intros Hids. unfold Double.metricsOvertimeHours.
    now rewrite double_metricsOvertime_spec. }
  split; [intros keep H; now apply double_overtimeSpec_under_capacity|].
  split; vm_compute; reflexivity.
Qed.

Lemma C6_overtime_in_double_precision_witness :
  Double.metricsOvertimeHours [john64] johnSteady64
  = Double.Math_round
      (Double.overtimeSpec Double.notPlaceholder [john64] johnSteady64)
  /\ Double.overtimeSpec Double.notPlaceholder [john64] johnSteady64 = 0%float.
Proof.
  pose proof (C6_overtime_is_period_scoped_in_double_precision [john64] johnSteady64)
    as (_ & Hmetrics & Hzero & _).
  split.
  - apply Hmetrics. repeat constructor.
  - apply (Hzero Double.notPlaceholder). intros e period [<-|[]] Hperiod.
    vm_compute in Hperiod.
    destruct Hperiod as [<-|[<-|[]]]; vm_compute; reflexivity.
Defined.

(** C6, the claim as stated fails: 0.1, 32.2 and 7.7 hours in one week add
    up to 40 as decimals, and the period-scoped sum in exact arithmetic is
    zero; the doubles the program holds add up, in this order, to
    40.000000000000007, and the code reports an overtime of 2^-47, which is
    not the exact excess of these doubles over 40 either. *)
Lemma C6_counterexample :
  overtimeSpec notPlaceholder [john] johnFractionsDecimal == 0
  /\ Double.gt (Double.calculateTotalOvertime [john64] johnFractions) 0 = true
  /\ Qeq_bool
       (Double.toQ (Double.calculateTotalOvertime [john64] johnFractions))
       (overtimeSpec notPlaceholder (map exactEmployee [john64])
          (map exactAssignment johnFractions))
     = false.
Proof.
  repeat split; vm_compute; reflexivity.
Qed.

(** ** The optimizer without placeholders, and unknown ids in the cache *)

Lemma filter_nil_of_Forall {A} (f : A -> bool) (l : list A) :
  Forall (fun x => f x = false) l -> filter f l = [].
Proof.
  induction 1 as [|x l Hx _ IH]; simpl; [reflexivity|]. now rewrite Hx.
Qed.

(** C8.  For a dataset in which no assignment is a placeholder,
    [optimizeSchedule] returns no suggestions and total score 0, and each
    predicted metric (overtime, utilization, skills match) equals the
    corresponding current metric. *)
Theorem C8_no_placeholders_is_noop
  (Date : Type) (differenceInWeeks : Date -> Date -> Z)
  (data : ScheduleData.t) (algorithm : Algorithm)
  (weights : OptimizationWeights.t) (dateRange : option (DateRange.t Date)) :
  Forall (fun a => isPlaceholder a = false) (ScheduleData.assignments data) ->
  let result := optimizeSchedule differenceInWeeks data algorithm weights dateRange in
  let m := OptimizationResult.metrics result in
  OptimizationResult.suggestions result = []
  /\ OptimizationResult.totalScore result = Fin 0
  /\ OptimizationMetrics.predictedOvertimeHours m
     = OptimizationMetrics.currentOvertimeHours m
  /\ OptimizationMetrics.predictedUtilization m
     = OptimizationMetrics.currentUtilization m
  /\ OptimizationMetrics.predictedSkillsMatch m
     = OptimizationMetrics.currentSkillsMatch m.
Proof.
  intros H. apply filter_nil_of_Forall in H.
  unfold optimizeSchedule. rewrite H. simpl. repeat split; reflexivity.
Qed.

Lemma C8_no_placeholders_witness :
  OptimizationResult.suggestions
    (optimizeSchedule weeksBetweenDays
       {| ScheduleData.employees := [john]; ScheduleData.projects := [projData];
          ScheduleData.assignments := johnTwoWeeks |}
       genetic unitWeights noRange)
  = [].
Proof.
  apply (C8_no_placeholders_is_noop Z weeksBetweenDays
           {| ScheduleData.employees := [john]; ScheduleData.projects := [projData];
              ScheduleData.assignments := johnTwoWeeks |}
           genetic unitWeights noRange).
  repeat constructor.
Defined.

(** C9.  [updateAssignment] and [removeAssignment] called with an id that is
    not in the assignment map leave the whole calculator unchanged: the
    assignment map, both reverse indices, the result cache, the dirty sets
    and the [isDirty] flag. *)
Theorem C9_unknown_id_is_noop
  (s : IncrementalMetricsCalculator.t) (assignmentId : string)
  (updates : PartialAssignment.t) :
  map_get (IncrementalMetricsCalculator.assignments s) assignmentId = None ->
  IncrementalMetricsCalculator.updateAssignment s assignmentId updates = s
  /\ IncrementalMetricsCalculator.removeAssignment s assignmentId = s.
Proof.
  intros H.
  unfold IncrementalMetricsCalculator.updateAssignment,
    IncrementalMetricsCalculator.removeAssignment.
  rewrite H. split; reflexivity.
Qed.

Lemma C9_unknown_id_witness :
  IncrementalMetricsCalculator.updateAssignment cacheAfterAdd "a2"
    {| PartialAssignment.id := None;
       PartialAssignment.employeeId := Some "ann";
       PartialAssignment.projectId := None;
       PartialAssignment.hours := Some 12;
       PartialAssignment.week := None;
       PartialAssignment.date := None |}
  = cacheAfterAdd
  /\ IncrementalMetricsCalculator.removeAssignment cacheAfterAdd "a2" = cacheAfterAdd.
Proof.
  apply C9_unknown_id_is_noop. reflexivity.
Defined.

(** ** Behaviour on particular inputs *)

(** C1.  Incremental and full recomputation disagree after an assignment to
    a project that is not in the project list has been added: [getMetrics]
    on the mutated calculator reports skills matching 50, while
    [initialize] on the same employees, projects and assignments followed by
    [getMetrics] reports 0. *)
Theorem C1_incremental_differs_from_full_recompute :
  map_get (IncrementalMetricsCalculator.projects cacheAfterAdd) "p9" = None
  /\ (IncrementalMetricsCalculator.employees (reinitialize cacheAfterAdd)
      = IncrementalMetricsCalculator.employees cacheAfterAdd
      /\ IncrementalMetricsCalculator.projects (reinitialize cacheAfterAdd)
         = IncrementalMetricsCalculator.projects cacheAfterAdd
      /\ IncrementalMetricsCalculator.assignments (reinitialize cacheAfterAdd)
         = IncrementalMetricsCalculator.assignments cacheAfterAdd)
  /\ fst (IncrementalMetricsCalculator.getMetrics cacheAfterAdd)
     = {| Metrics.overtimeHours := 0; Metrics.resourceUtilization := 25;
          Metrics.skillsMatching := 50 |}
  /\ fst (IncrementalMetricsCalculator.getMetrics (reinitialize cacheAfterAdd))
     = {| Metrics.overtimeHours := 0; Metrics.resourceUtilization := 25;
          Metrics.skillsMatching := 0 |}.
Proof.
  repeat split; vm_compute; reflexivity.
Qed.

(** For an assignment that carries both a date and a week label, the batch
    key is the date and the key of the optimizer's grouping and of the
    incremental cache is the week label. *)
Lemma period_keys_with_both (a : Assignment.t) :
  truthy (Assignment.date a) = true -> truthy (Assignment.week a) = true ->
  dateOrWeek a = Assignment.date a
  /\ weekOrDate a = Assignment.week a
  /\ placeholderKey a
     = (Assignment.projectId a ++ "-" ++ Assignment.week a)%string.
Proof.
  unfold truthy, dateOrWeek, weekOrDate, placeholderKey, weekOrDate, str_or.
  intros Hd Hw. apply negb_true_iff in Hd, Hw. now rewrite Hd, Hw.
Qed.

(** C2.  The week label, not the date, keys the optimizer's grouping and the
    incremental cache.  Two open slots of one project that carry the same
    date and different week labels fall into two groups and are both given
    to the same employee; an employee booked twice for 30 hours on one date
    under two week labels has 20 hours of overtime in the batch calculator
    (one period, keyed by date) and none in the incremental cache (two
    periods, keyed by week label). *)
Theorem C2_week_label_takes_precedence_outside_batch :
  (truthy (Assignment.date slotImported) = true
   /\ truthy (Assignment.week slotImported) = true
   /\ truthy (Assignment.date slotGrid) = true
   /\ truthy (Assignment.week slotGrid) = true
   /\ Assignment.date slotImported = Assignment.date slotGrid
   /\ Assignment.projectId slotImported = Assignment.projectId slotGrid)
  /\ dateOrWeek slotImported = dateOrWeek slotGrid
  /\ map_keys
       (placeholderGroupsOf
          (filter isPlaceholder (ScheduleData.assignments sameDateData)))
     = ["p1-2024-W01"; "p1-JAN 1"]
  /\ map PlaceholderSuggestion.suggestedEmployeeId
       (OptimizationResult.suggestions
          (optimizeSchedule weeksBetweenDays sameDateData genetic unitWeights noRange))
     = ["ann"; "ann"]
  /\ Metrics.overtimeHours
       (calculateMetrics weeksBetweenDays [ann] [projData] annSameDate noRange)
     = 20%Z
  /\ Metrics.overtimeHours
       (fst (IncrementalMetricsCalculator.getMetrics
               (IncrementalMetricsCalculator.initialize
                  IncrementalMetricsCalculator.new [ann] [projData] annSameDate)))
     = 0%Z.
Proof.
  repeat split; vm_compute; reflexivity.
Qed.

(** C3.  A placeholder with a date and an empty week label is resolved (the
    optimizer emits a suggestion for its group) and is still present in the
    predicted assignment list, next to the new concrete assignment. *)
Theorem C3_resolved_placeholder_without_week_is_kept :
  isPlaceholder slotNoWeek = true
  /\ map_keys
       (placeholderGroupsOf
          (filter isPlaceholder (ScheduleData.assignments noWeekData)))
     = [placeholderKey slotNoWeek]
  /\ map (fun s => (PlaceholderSuggestion.projectId s,
                    PlaceholderSuggestion.suggestedEmployeeId s))
       (OptimizationResult.suggestions
          (optimizeSchedule weeksBetweenDays noWeekData genetic unitWeights noRange))
     = [("p1", "ann")]
  /\ applysuggestions (ScheduleData.assignments noWeekData)
       (OptimizationResult.suggestions
          (optimizeSchedule weeksBetweenDays noWeekData genetic unitWeights noRange))
     = [ slotNoWeek; mkAssignment "ann-p1-" "ann" "p1" 10 "" "" ].
Proof.
  repeat split; vm_compute; reflexivity.
Qed.

(** ** References that do not resolve *)

Lemma skillsMatchStep_unresolved (employeeMap : JSMap Employee.t)
  (projectMap : JSMap Project.t) (st : Q * JSSet) (a : Assignment.t) :
  map_get employeeMap (Assignment.employeeId a) = None
  \/ map_get projectMap (Assignment.projectId a) = None ->
  skillsMatchStep employeeMap projectMap st a = st.
Proof.
  intros H. unfold skillsMatchStep. destruct st as [total pairs].
  destruct (set_has pairs _); [reflexivity|].
  destruct H as [H|H]; rewrite H; [reflexivity|].
  destruct (map_get employeeMap _); reflexivity.
Qed.

Lemma calculateSkillsMatch_unresolved (employeeMap : JSMap Employee.t)
  (projectMap : JSMap Project.t) (l1 l2 : list Assignment.t) (a : Assignment.t) :
  map_get employeeMap (Assignment.employeeId a) = None
  \/ map_get projectMap (Assignment.projectId a) = None ->
  calculateSkillsMatch (l1 ++ a :: l2) employeeMap projectMap
  = calculateSkillsMatch (l1 ++ l2) employeeMap projectMap.
Proof.
  intros H. unfold calculateSkillsMatch.
  rewrite !fold_left_app. simpl.
  now rewrite skillsMatchStep_unresolved.
Qed.

Lemma assignedTo_unlisted (keep : Assignment.t -> bool) (e : string)
  (l1 l2 : list Assignment.t) (a : Assignment.t) :
  Assignment.employeeId a <> e ->
  assignedTo keep e (l1 ++ a :: l2) = assignedTo keep e (l1 ++ l2).
Proof.
  intros H. unfold assignedTo. rewrite !filter_app. simpl.
  apply String.eqb_neq in H. now rewrite H, andb_false_r.
Qed.

Lemma overtimeSpec_unlisted (keep : Assignment.t -> bool)
  (employees : list Employee.t) (l1 l2 : list Assignment.t) (a : Assignment.t) :
  ~ In (Assignment.employeeId a) (map Employee.id employees) ->
  overtimeSpec keep employees (l1 ++ a :: l2)
  = overtimeSpec keep employees (l1 ++ l2).
Proof.
  intros H. unfold overtimeSpec. f_equal. apply map_ext_in. intros e He.
  unfold employeeOvertimeSpec, periodKeysOf, periodHoursSpec.
  rewrite assignedTo_unlisted; [reflexivity|].
  intros E. apply H. rewrite E. now apply in_map.
Qed.

Lemma totalAssignedHoursSpec_unlisted (employees : list Employee.t)
  (l1 l2 : list Assignment.t) (a : Assignment.t) :
  ~ In (Assignment.employeeId a) (map Employee.id employees) ->
  totalAssignedHoursSpec employees (l1 ++ a :: l2)
  = totalAssignedHoursSpec employees (l1 ++ l2).
Proof.
  intros H. unfold totalAssignedHoursSpec. f_equal. apply map_ext_in. intros e He.
  rewrite assignedTo_unlisted; [reflexivity|].
  intros E. apply H. rewrite E. now apply in_map.
Qed.

Lemma distinctPeriodKeys_known (l1 l2 : list Assignment.t) (a : Assignment.t) :
  In (dateOrWeek a) (map dateOrWeek (l1 ++ l2)) ->
  distinctPeriodKeys (l1 ++ a :: l2) = distinctPeriodKeys (l1 ++ l2).
Proof.
  intros H. unfold distinctPeriodKeys.
  apply Permutation_length, NoDup_Permutation; try apply NoDup_nodup.
  intros x. rewrite !nodup_In, !map_app, !in_app_iff. simpl.
  rewrite map_app, in_app_iff in H. intuition (subst; auto).
Qed.

Lemma distinctPeriodKeys_new (l1 l2 : list Assignment.t) (a : Assignment.t) :
  ~ In (dateOrWeek a) (map dateOrWeek (l1 ++ l2)) ->
  distinctPeriodKeys (l1 ++ a :: l2) = S (distinctPeriodKeys (l1 ++ l2)).
Proof.
  intros H. unfold distinctPeriodKeys.
  change (S (List.length (nodup string_dec (map dateOrWeek (l1 ++ l2)))))
    with (List.length (dateOrWeek a :: nodup string_dec (map dateOrWeek (l1 ++ l2)))).
  apply Permutation_length, NoDup_Permutation.
  - apply NoDup_nodup.
  - constructor; [now rewrite nodup_In | apply NoDup_nodup].
  - intros x. simpl. rewrite !nodup_In, !map_app, !in_app_iff. simpl. tauto.
Qed.

Lemma distinctPeriodKeys_grows (l1 l2 : list Assignment.t) (a : Assignment.t) :
  (distinctPeriodKeys (l1 ++ l2) <= distinctPeriodKeys (l1 ++ a :: l2))%nat.
Proof.
  destruct (in_dec string_dec (dateOrWeek a) (map dateOrWeek (l1 ++ l2))) as [H|H].
  - rewrite distinctPeriodKeys_known by assumption. lia.
  - rewrite distinctPeriodKeys_new by assumption. lia.
Qed.

Lemma employeeMapOf_unlisted (employees : list Employee.t) (k : string) :
  ~ In k (map Employee.id employees) -> map_get (employeeMapOf employees) k = None.
Proof. apply (map_of_entries_get_None Employee.id). Qed.

Lemma projectMapOf_unlisted (projects : list Project.t) (k : string) :
  ~ In k (map Project.id projects) -> map_get (projectMapOf projects) k = None.
Proof. apply (map_of_entries_get_None Project.id). Qed.

Section Unresolved.

Variable Date : Type.
Variable differenceInWeeks : Date -> Date -> Z.

Lemma utilization_unlisted_same_periods (employees : list Employee.t)
  (l1 l2 : list Assignment.t) (a : Assignment.t)
  (dateRange : option (DateRange.t Date)) :
  ~ In (Assignment.employeeId a) (map Employee.id employees) ->
  numPeriodsSpec differenceInWeeks (l1 ++ a :: l2) dateRange
  = numPeriodsSpec differenceInWeeks (l1 ++ l2) dateRange ->
  calculateResourceUtilization differenceInWeeks employees (l1 ++ a :: l2) dateRange
  = calculateResourceUtilization differenceInWeeks employees (l1 ++ l2) dateRange.
Proof.
  intros H Hn. destruct employees as [|e0 l] eqn:E; [reflexivity|].
  rewrite <- E in *.
  assert (Hne : employees <> []) by (rewrite E; discriminate).
  rewrite !utilization_by_formula by assumption.
  unfold totalCapacitySpec. rewrite Hn.
  now rewrite totalAssignedHoursSpec_unlisted.
Qed.

End Unresolved.

(** C4.  In the batch calculator an assignment whose employee id is not in
    the employee list adds nothing to overtime, to skills matching or to the
    total of assigned hours, and leaves utilization unchanged whenever the
    number of periods is unchanged (a date range with both ends is supplied,
    or the assignment's period key already occurs); an assignment whose
    project id is not in the project list adds nothing to skills matching.
    In the incremental cache an employee id that does not resolve leaves the
    cached overtime and utilization untouched.  All of these are total
    functions: no lookup raises. *)
Theorem C4_unresolved_references_contribute_nothing
  (Date : Type) (differenceInWeeks : Date -> Date -> Z)
  (employees : list Employee.t) (projects : list Project.t)
  (l1 l2 : list Assignment.t) (a : Assignment.t)
  (dateRange : option (DateRange.t Date)) :
  let withA :=
    calculateMetrics differenceInWeeks employees projects (l1 ++ a :: l2) dateRange in
  let without :=
    calculateMetrics differenceInWeeks employees projects (l1 ++ l2) dateRange in
  (~ In (Assignment.employeeId a) (map Employee.id employees) ->
   Metrics.overtimeHours withA = Metrics.overtimeHours without
   /\ Metrics.skillsMatching withA = Metrics.skillsMatching without
   /\ calculateTotalOvertime employees (l1 ++ a :: l2)
      == calculateTotalOvertime employees (l1 ++ l2)
   /\ totalAssignedHoursSpec employees (l1 ++ a :: l2)
      = totalAssignedHoursSpec employees (l1 ++ l2)
   /\ ((exists start end_,
          dateRange
          = Some {| DateRange.start := Some start; DateRange.end_ := Some end_ |})
       \/ In (dateOrWeek a) (map dateOrWeek (l1 ++ l2)) ->
       Metrics.resourceUtilization withA = Metrics.resourceUtilization without))
  /\ (~ In (Assignment.projectId a) (map Project.id projects) ->
      Metrics.skillsMatching withA = Metrics.skillsMatching without)
  /\ (forall (s : IncrementalMetricsCalculator.t) (employeeId : string),
      map_get (IncrementalMetricsCalculator.employees s) employeeId = None ->
      IncrementalMetricsCalculator.calculateEmployeeOvertime s employeeId = s
      /\ IncrementalMetricsCalculator.calculateEmployeeUtilization s employeeId = s).
Proof.
  cbv zeta. split; [|split].
  - intros H. split; [|split; [|split; [|split]]].
    + unfold calculateMetrics. simpl. apply Math_round_comp.
      rewrite !metricsOvertime_spec. now rewrite overtimeSpec_unlisted.
    + unfold calculateMetrics. simpl. f_equal.
      apply calculateSkillsMatch_unresolved. left.
      now apply employeeMapOf_unlisted.
    + rewrite !calculateTotalOvertime_spec. now rewrite overtimeSpec_unlisted.
    + now apply totalAssignedHoursSpec_unlisted.
    + intros Hp. unfold calculateMetrics. simpl.
      apply utilization_unlisted_same_periods; [assumption|].
      destruct Hp as [(s & e & ->)|Hp]; [reflexivity|].
      unfold numPeriodsSpec. rewrite (distinctPeriodKeys_known l1 l2 a Hp).
      reflexivity.
  - intros H. unfold calculateMetrics. simpl. f_equal.
    apply calculateSkillsMatch_unresolved. right.
    now apply projectMapOf_unlisted.
  - intros s employeeId H.
    unfold IncrementalMetricsCalculator.calculateEmployeeOvertime,
      IncrementalMetricsCalculator.calculateEmployeeUtilization.
    now rewrite H.
Qed.

Lemma C4_unresolved_references_witness :
  Metrics.overtimeHours
    (calculateMetrics weeksBetweenDays [john] [projData]
       (johnTwoWeeks ++ [strayAssignment]) noRange)
  = Metrics.overtimeHours
      (calculateMetrics weeksBetweenDays [john] [projData] johnTwoWeeks noRange)
  /\ IncrementalMetricsCalculator.calculateEmployeeOvertime cacheStart "nobody"
     = cacheStart.
Proof.
  pose proof (C4_unresolved_references_contribute_nothing Z weeksBetweenDays
                [john] [projData] johnTwoWeeks [] strayAssignment noRange)
    as (He & _ & Hs).
  split.
  - rewrite <- (app_nil_r johnTwoWeeks) at 2. apply He.
    vm_compute. intros [H|[]]. discriminate H.
  - apply (Hs cacheStart "nobody"). reflexivity.
Defined.

(** C4, the claim as stated fails.  In the batch calculator an assignment
    of an unlisted employee in a new period lowers the reported utilization
    from 75 to 50; in the incremental cache an assignment to an unlisted
    project raises skills matching from 0 to 50, because the unknown project
    is cached with 100. *)
Lemma C4_counterexample :
  (~ In (Assignment.employeeId strayAssignment) (map Employee.id [john])
   /\ Metrics.resourceUtilization
        (calculateMetrics weeksBetweenDays [john] [projData] johnTwoWeeks noRange)
      = 75%Z
   /\ Metrics.resourceUtilization
        (calculateMetrics weeksBetweenDays [john] [projData]
           (johnTwoWeeks ++ [strayAssignment]) noRange)
      = 50%Z)
  /\ (map_get (IncrementalMetricsCalculator.projects cacheStart)
        (Assignment.projectId danglingProjectAssignment) = None
      /\ Metrics.skillsMatching
           (fst (IncrementalMetricsCalculator.getMetrics cacheStart)) = 0%Z
      /\ Metrics.skillsMatching
           (fst (IncrementalMetricsCalculator.getMetrics
                   (IncrementalMetricsCalculator.addAssignment cacheStart
                      danglingProjectAssignment))) = 50%Z
      /\ map_get
           (IncrementalMetricsCalculator.skillsMatchByProject
              (IncrementalMetricsCalculator.cache
                 (snd (IncrementalMetricsCalculator.getMetrics
                         (IncrementalMetricsCalculator.addAssignment cacheStart
                            danglingProjectAssignment)))))
           "p9" = Some 100).
Proof.
  split; [split; [|split]|repeat split]; try (vm_compute; reflexivity).
  vm_compute. intros [H|[]]. discriminate H.
Qed.

(** ** Utilization when an unlisted assignment opens a period *)

Lemma Qdiv_nonneg (x c : Q) : 0 <= x -> 0 < c -> 0 <= x / c.
Proof.
  intros Hx Hc. apply Qle_shift_div_l; [assumption|]. now rewrite Qmult_0_l.
Qed.

Lemma Qdiv_antitone (x c c' : Q) :
  0 <= x -> 0 < c -> c <= c' -> x / c' <= x / c.
Proof.
  intros Hx Hc Hcc'.
  apply Qle_shift_div_r; [now apply Qlt_le_trans with c|].
  apply Qle_trans with (x / c * c).
  - assert (E : x / c * c == x) by (field; intros E; rewrite E in Hc; discriminate).
    rewrite E. apply Qle_refl.
  - rewrite !(Qmult_comm (x / c)).
    apply Qmult_le_compat_r; [assumption | now apply Qdiv_nonneg].
Qed.

Lemma hoursOf_nonneg (l : list Assignment.t) :
  Forall (fun a => 0 <= Assignment.hours a) l -> 0 <= hoursOf l.
Proof.
  intros H. unfold hoursOf. apply sumQ_nonneg.
  rewrite Forall_map. exact H.
Qed.

Lemma totalAssignedHoursSpec_nonneg (employees : list Employee.t)
  (assignments : list Assignment.t) :
  Forall (fun a => 0 <= Assignment.hours a) assignments ->
  0 <= totalAssignedHoursSpec employees assignments.
Proof.
  intros H. unfold totalAssignedHoursSpec. apply sumQ_nonneg.
  rewrite Forall_map. apply Forall_forall. intros e _.
  apply hoursOf_nonneg. unfold assignedTo.
  rewrite Forall_forall in *. intros a Ha. apply filter_In in Ha. apply H, Ha.
Qed.

Lemma Math_round_nonneg (x : Q) : 0 <= x -> (0 <= Math_round x)%Z.
Proof.
  intros H. change 0%Z with (Math_round 0). now apply Math_round_mono.
Qed.

Section NewPeriod.

Variable Date : Type.
Variable differenceInWeeks : Date -> Date -> Z.

Lemma utilization_unlisted_not_higher (employees : list Employee.t)
  (l1 l2 : list Assignment.t) (a : Assignment.t) :
  ~ In (Assignment.employeeId a) (map Employee.id employees) ->
  Forall (fun x => 0 <= Assignment.hours x) (l1 ++ l2) ->
  (calculateResourceUtilization differenceInWeeks employees (l1 ++ a :: l2) None
   <= calculateResourceUtilization differenceInWeeks employees (l1 ++ l2) None)%Z.
Proof.
  intros Hid Hh. destruct employees as [|e0 l] eqn:E; [reflexivity|].
  rewrite <- E in *.
  assert (Hne : employees <> []) by (rewrite E; discriminate).
  rewrite !utilization_by_formula by assumption.
  rewrite totalAssignedHoursSpec_unlisted by assumption.
  pose proof (totalAssignedHoursSpec_nonneg employees (l1 ++ l2) Hh) as HT.
  unfold totalCapacitySpec, numPeriodsSpec.
  set (T := totalAssignedHoursSpec employees (l1 ++ l2)) in *.
  set (S0 := sumQ (map Employee.maxHours employees)).
  set (n' := Z.max 1 (Z.of_nat (distinctPeriodKeys (l1 ++ a :: l2)))).
  set (n := Z.max 1 (Z.of_nat (distinctPeriodKeys (l1 ++ l2)))).
  assert (Hn : (1 <= n)%Z) by (unfold n; lia).
  assert (Hnn' : (n <= n')%Z).
  { unfold n, n'. pose proof (distinctPeriodKeys_grows l1 l2 a). lia. }
  assert (Hnq : 0 < inject_Z n)
    by (change 0 with (inject_Z 0); rewrite <- Zlt_Qlt; lia).
  assert (Hn'q : 0 < inject_Z n')
    by (change 0 with (inject_Z 0); rewrite <- Zlt_Qlt; lia).
  assert (Hle : inject_Z n <= inject_Z n') by (rewrite <- Zle_Qle; assumption).
  assert (H100 : 0 <= 100 * T).
  { apply Qmult_le_0_compat; [discriminate | assumption]. }
  destruct (Qgtb (S0 * inject_Z n') 0) eqn:E'.
  - apply Qgtb_true in E'.
    assert (HS : 0 < S0).
    { apply Qnot_le_lt. intros Hle0.
      apply (Qlt_not_le _ _ E').
      rewrite Qmult_comm.
      setoid_replace 0 with (inject_Z n' * 0) by ring.
      apply Qmult_le_l; assumption. }
    assert (Hc : 0 < S0 * inject_Z n) by (now apply Qmult_lt_0_compat).
    apply Qgtb_true in Hc. rewrite Hc. apply Qgtb_true in Hc.
    apply Math_round_mono, Qdiv_antitone; try assumption.
    apply Qmult_le_l; assumption.
  - destruct (Qgtb (S0 * inject_Z n) 0) eqn:E''; [|reflexivity].
    apply Qgtb_true in E''.
    apply Math_round_nonneg, Qdiv_nonneg; assumption.
Qed.

End NewPeriod.

(** C10.  Without a date range, an assignment whose employee id is not in
    the employee list (every placeholder, unless an employee entry carries
    its sentinel id) adds nothing to the hours that
    [calculateResourceUtilization] sums for the listed employees, while its
    period key, when new, raises the number of distinct periods by one;
    with non-negative hours the reported utilization after adding it is at
    most what it was before. *)
Theorem C10_unlisted_assignment_lowers_utilization
  (Date : Type) (differenceInWeeks : Date -> Date -> Z)
  (employees : list Employee.t) (l1 l2 : list Assignment.t) (a : Assignment.t) :
  ~ In (Assignment.employeeId a) (map Employee.id employees) ->
  Forall (fun x => 0 <= Assignment.hours x) (l1 ++ l2) ->
  (forall numPeriods : Z,
     snd (capacityAndHours numPeriods
            (fold_left addAssignedHours (l1 ++ a :: l2) []) employees)
     == snd (capacityAndHours numPeriods
               (fold_left addAssignedHours (l1 ++ l2) []) employees))
  /\ (~ In (dateOrWeek a) (map dateOrWeek (l1 ++ l2)) ->
      set_size (timePeriodsSet (l1 ++ a :: l2))
      = S (set_size (timePeriodsSet (l1 ++ l2))))
  /\ (calculateResourceUtilization differenceInWeeks employees (l1 ++ a :: l2) None
      <= calculateResourceUtilization differenceInWeeks employees (l1 ++ l2) None)%Z.
Proof.
  intros Hid Hh. split; [|split].
  - intros n. unfold capacityAndHours.
    destruct (capacityAndHours_fold n
                (fold_left addAssignedHours (l1 ++ a :: l2) []) employees 0 0)
      as [_ H1].
    destruct (capacityAndHours_fold n
                (fold_left addAssignedHours (l1 ++ l2) []) employees 0 0)
      as [_ H2].
    cbv zeta in H1, H2. rewrite H1, H2.
    apply Qplus_comp; [reflexivity|].
    apply sumQ_pointwise. intros e He.
    rewrite !assignedHours_fold.
    rewrite assignedTo_unlisted; [reflexivity|].
    intros E. apply Hid. rewrite E. now apply in_map.
  - intros Hnew. rewrite !timePeriodsSet_size.
    now apply distinctPeriodKeys_new.
  - now apply utilization_unlisted_not_higher.
Qed.

Lemma C10_unlisted_assignment_witness :
  (calculateResourceUtilization weeksBetweenDays [john]
     (johnTwoWeeks ++ [strayAssignment]) noRange
   <= calculateResourceUtilization weeksBetweenDays [john] johnTwoWeeks noRange)%Z.
Proof.
  rewrite <- (app_nil_r johnTwoWeeks) at 2.
  apply (C10_unlisted_assignment_lowers_utilization Z weeksBetweenDays
           [john] johnTwoWeeks [] strayAssignment).
  - vm_compute. intros [H|[]]. discriminate H.
  - repeat constructor; vm_compute; intros H; discriminate H.
Defined.

(** C10, the claim as stated fails: when an employee entry carries the
    sentinel id, a placeholder assignment's hours are summed for that entry
    and adding it raises the utilization from 0 to 125. *)
Lemma C10_counterexample :
  isPlaceholder sentinelSlot = true
  /\ calculateResourceUtilization weeksBetweenDays [sentinelEmployee] [] noRange
     = 0%Z
  /\ calculateResourceUtilization weeksBetweenDays [sentinelEmployee]
       ([] ++ [sentinelSlot]) noRange
     = 125%Z.
Proof.
  repeat split; vm_compute; reflexivity.
Qed.

(** ** The per-group loop of the optimizer *)


Lemma bestStep_picks_candidate (scoreOf : Employee.t -> jsnum)
  (candidates : list Employee.t) (b : option Employee.t) (bs : jsnum)
  (e' : Employee.t) :
  fst (fold_left (bestStep scoreOf) candidates (b, bs)) = Some e' ->
  In e' candidates \/ b = Some e'.
Proof.
  revert b bs. induction candidates as [|e l IH]; intros b bs H; simpl in *.
  - now right.
  - destruct (js_gt (scoreOf e) bs); apply IH in H.
    + destruct H as [H|[= ->]]; auto.
    + destruct H as [H|H]; auto.
Qed.

Lemma findBestEmployee_is_candidate (placeholder : Assignment.t)
  (project : Project.t) (data : ScheduleData.t) (weights : OptimizationWeights.t)
  (matrix : JSMap (JSMap Q)) (algorithm : Algorithm) (excluded : JSSet)
  (e : Employee.t) :
  findBestEmployee placeholder project data weights matrix algorithm excluded
  = Some e ->
  In e (ScheduleData.employees data) /\ isCandidate excluded e = true.
Proof.
  unfold findBestEmployee.
  destruct (filter (isCandidate excluded) (ScheduleData.employees data))
    as [|c l] eqn:E; [discriminate|].
  intros H. apply bestStep_picks_candidate in H.
  destruct H as [H|H]; [|discriminate].
  rewrite <- E in H. apply filter_In in H. exact H.
Qed.






Lemma isCandidate_weaken (excluded : JSSet) (e : Employee.t) :
  isCandidate excluded e = true -> isCandidate [] e = true.
Proof.
  unfold isCandidate. rewrite !andb_true_iff.
  intros [H _]. split; [exact H | reflexivity].
Qed.


Lemma isCandidate_excludes (excluded : JSSet) (e : Employee.t) :
  isCandidate excluded e = true -> ~ In (Employee.id e) excluded.
Proof.
  unfold isCandidate. rewrite !andb_true_iff.
  intros [_ H]. apply negb_true_iff in H. now apply set_has_false.
Qed.

Lemma eligibleIds_In (employees : list Employee.t) (x : string) :
  In x (eligibleIds employees)
  <-> exists e, In e employees /\ isCandidate [] e = true /\ Employee.id e = x.
Proof.
  unfold eligibleIds. rewrite nodup_In, in_map_iff. split.
  - intros (e & <- & He). apply filter_In in He. exists e. tauto.
  - intros (e & He & Hc & <-). exists e. split; [reflexivity|].
    apply filter_In. tauto.
Qed.

Section GroupLoop.

Variable project : Project.t.
Variable data : ScheduleData.t.
Variable weights : OptimizationWeights.t.
Variable matrix : JSMap (JSMap Q).
Variable algorithm : Algorithm.

Lemma groupStep_invariant (st : JSSet * list PlaceholderSuggestion.t)
  (placeholder : Assignment.t) :
  groupInvariant data st ->
  groupInvariant data (groupStep project data weights matrix algorithm st placeholder).
Proof.
  destruct st as [assigned pushed]. unfold groupInvariant, groupStep. simpl.
  intros (Hmap & Hnd & Hincl).
  destruct (findBestEmployee placeholder project data weights matrix algorithm
              assigned) as [best|] eqn:E; simpl; [|tauto].
  apply findBestEmployee_is_candidate in E. destruct E as [Hin Hc].
  pose proof (isCandidate_excludes _ _ Hc) as Hfresh.
  assert (Ha : set_add assigned (Employee.id best) = assigned ++ [Employee.id best]).
  { unfold set_add. apply set_has_false in Hfresh. now rewrite Hfresh. }
  rewrite Ha. split; [|split].
  - rewrite map_app, Hmap. reflexivity.
  - apply NoDup_app; [assumption | repeat constructor; simpl; tauto |].
    intros x Hx [<-|[]]. contradiction.
  - intros x Hx. apply in_app_iff in Hx. destruct Hx as [Hx|[<-|[]]]; [auto|].
    apply eligibleIds_In. exists best. split; [assumption|].
    split; [now apply isCandidate_weaken with assigned | reflexivity].
Qed.

Lemma groupLoop_invariant (placeholders : list Assignment.t)
  (st : JSSet * list PlaceholderSuggestion.t) :
  groupInvariant data st ->
  groupInvariant data
    (fold_left (groupStep project data weights matrix algorithm) placeholders st).
Proof.
  revert st. induction placeholders as [|p l IH]; intros st H; simpl.
  - assumption.
  - apply IH, groupStep_invariant, H.
Qed.





End GroupLoop.

(** ** Groups and the whole run *)

Lemma map_set_In {V} (m : JSMap V) (k k' : string) (v v' : V) :
  In (k, v) (map_set m k' v') -> (k = k' /\ v = v') \/ In (k, v) m.
Proof.
  induction m as [|[k0 v0] m IH]; simpl.
  - intros [[= <- <-]|[]]. now left.
  - destruct (String.eqb k0 k') eqn:E; simpl.
    + apply String.eqb_eq in E. subst k0.
      intros [[= <- <-]|H]; [now left | right; now right].
    + intros [H|H]; [right; now left|].
      destruct (IH H) as [H'|H']; [now left | right; now right].
Qed.

Lemma map_get_In {V} (m : JSMap V) (k : string) (v : V) :
  map_get m k = Some v -> In (k, v) m.
Proof.
  induction m as [|[k0 v0] m IH]; simpl; [discriminate|].
  destruct (String.eqb k0 k) eqn:E.
  - apply String.eqb_eq in E. subst k0. intros [= ->]. now left.
  - intros H. right. now apply IH.
Qed.

(** Every member of every group is one of the placeholders that were
    grouped. *)
Lemma addToGroup_members (Q : Assignment.t -> Prop)
  (groups : JSMap (list Assignment.t)) (placeholder : Assignment.t) :
  Q placeholder ->
  (forall key members, In (key, members) groups -> Forall Q members) ->
  forall key members,
    In (key, members) (addToGroup groups placeholder) -> Forall Q members.
Proof.
  intros Hq Hg key members. unfold addToGroup.
  set (k := placeholderKey placeholder).
  set (groups1 := if map_has groups k then groups else map_set groups k []).
  assert (Hg1 : forall key members, In (key, members) groups1 -> Forall Q members).
  { intros key' members' H. unfold groups1 in H.
    destruct (map_has groups k); [now apply Hg with key'|].
    apply map_set_In in H. destruct H as [[_ ->]|H]; [constructor|].
    now apply Hg with key'. }
  destruct (map_get groups1 k) as [ms|] eqn:E; [|apply Hg1].
  intros H. apply map_set_In in H. destruct H as [[_ ->]|H]; [|now apply Hg1 with key].
  apply Forall_app. split; [|now constructor].
  apply Hg1 with k. now apply map_get_In.
Qed.

Lemma placeholderGroups_members (Q : Assignment.t -> Prop)
  (placeholders : list Assignment.t) :
  Forall Q placeholders ->
  forall key members,
    In (key, members) (placeholderGroupsOf placeholders) -> Forall Q members.
Proof.
  unfold placeholderGroupsOf.
  assert (G : forall groups,
    Forall Q placeholders ->
    (forall key members, In (key, members) groups -> Forall Q members) ->
    forall key members,
      In (key, members) (fold_left addToGroup placeholders groups) ->
      Forall Q members).
  { induction placeholders as [|p l IH]; intros groups Hq Hg; simpl.
    - exact Hg.
    - inversion Hq; subst. apply IH; [assumption|].
      now apply addToGroup_members. }
  intros Hq. apply G; [assumption|]. intros key members [].
Qed.

Lemma fold_left_app_flat_map {A B} (f : A -> list B) (l : list A) (acc : list B) :
  fold_left (fun acc x => acc ++ f x) l acc = acc ++ flat_map f l.
Proof.
  revert acc. induction l as [|x l IH]; intros acc; simpl.
  - now rewrite app_nil_r.
  - now rewrite IH, app_assoc.
Qed.





(** ** Why the cache and a full recomputation can disagree

    A project id that does not resolve is cached with 100 when it is
    recalculated as dirty, while [initialize] only ever caches the listed
    projects. *)

Lemma unknown_project_cached_as_100 (s : IncrementalMetricsCalculator.t)
  (projectId : string) :
  map_get (IncrementalMetricsCalculator.projects s) projectId = None ->
  map_get
    (IncrementalMetricsCalculator.skillsMatchByProject
       (IncrementalMetricsCalculator.cache
          (IncrementalMetricsCalculator.calculateProjectSkillsMatch s projectId)))
    projectId
  = Some 100.
Proof.
  intros H. unfold IncrementalMetricsCalculator.calculateProjectSkillsMatch.
  rewrite H. simpl. apply map_get_set_same.
Qed.

(** Recalculating an employee rewrites only the cache, and leaves the
    cached projects alone. *)
Lemma recalcEmployee_frame (s : IncrementalMetricsCalculator.t)
  (employeeId : string) :
  exists c,
    IncrementalMetricsCalculator.recalcEmployee s employeeId
    = IncrementalMetricsCalculator.with_cache s c
    /\ IncrementalMetricsCalculator.skillsMatchByProject c
       = IncrementalMetricsCalculator.skillsMatchByProject
           (IncrementalMetricsCalculator.cache s).
Proof.
  unfold IncrementalMetricsCalculator.recalcEmployee,
    IncrementalMetricsCalculator.calculateEmployeeUtilization,
    IncrementalMetricsCalculator.calculateEmployeeOvertime.
  destruct (map_get (IncrementalMetricsCalculator.employees s) employeeId)
    as [employee|] eqn:E.
  - cbn [IncrementalMetricsCalculator.employees
           IncrementalMetricsCalculator.with_cache].
    rewrite E.
    match goal with
    | |- context [let '(_, _) := ?p in _] => destruct p as [totalHours weeksWorked]
    end.
    eexists. split; reflexivity.
  - rewrite E. exists (IncrementalMetricsCalculator.cache s).
    destruct s. split; reflexivity.
Qed.

Lemma recalcEmployees_frame (ids : list string)
  (s : IncrementalMetricsCalculator.t) :
  exists c,
    fold_left IncrementalMetricsCalculator.recalcEmployee ids s
    = IncrementalMetricsCalculator.with_cache s c
    /\ IncrementalMetricsCalculator.skillsMatchByProject c
       = IncrementalMetricsCalculator.skillsMatchByProject
           (IncrementalMetricsCalculator.cache s).
Proof.
  revert s. induction ids as [|i l IH]; intros s; simpl.
  - exists (IncrementalMetricsCalculator.cache s). destruct s. split; reflexivity.
  - destruct (recalcEmployee_frame s i) as (c1 & -> & E1).
    destruct (IH (IncrementalMetricsCalculator.with_cache s c1)) as (c2 & -> & E2).
    exists c2. split; [reflexivity|]. now rewrite E2.
Qed.

Lemma setSkillsMatch_keys (s : IncrementalMetricsCalculator.t)
  (projectId x : string) (v : Q) :
  In x (map_keys
          (IncrementalMetricsCalculator.skillsMatchByProject
             (IncrementalMetricsCalculator.cache
                (IncrementalMetricsCalculator.setSkillsMatch s projectId v)))) ->
  x = projectId
  \/ In x (map_keys
             (IncrementalMetricsCalculator.skillsMatchByProject
                (IncrementalMetricsCalculator.cache s))).
Proof.
  simpl. rewrite map_keys_set.
  destruct (map_has _ projectId); [tauto|].
  rewrite in_app_iff. simpl. intuition.
Qed.

Lemma calculateProjectSkillsMatch_frame (s : IncrementalMetricsCalculator.t)
  (projectId : string) :
  exists v,
    IncrementalMetricsCalculator.calculateProjectSkillsMatch s projectId
    = IncrementalMetricsCalculator.setSkillsMatch s projectId v.
Proof.
  unfold IncrementalMetricsCalculator.calculateProjectSkillsMatch.
  destruct (map_get (IncrementalMetricsCalculator.projects s) projectId);
    [|eexists; reflexivity].
  destruct (negb _); [eexists; reflexivity|].
  destruct (_ =? _)%nat; eexists; reflexivity.
Qed.

Lemma calculateProjects_keys (ids : list string)
  (s : IncrementalMetricsCalculator.t) (x : string) :
  In x (map_keys
          (IncrementalMetricsCalculator.skillsMatchByProject
             (IncrementalMetricsCalculator.cache
                (fold_left IncrementalMetricsCalculator.calculateProjectSkillsMatch
                   ids s)))) ->
  In x ids
  \/ In x (map_keys
             (IncrementalMetricsCalculator.skillsMatchByProject
                (IncrementalMetricsCalculator.cache s))).
Proof.
  revert s. induction ids as [|i l IH]; intros s H; simpl in *; [now right|].
  apply IH in H. destruct H as [H|H]; [left; now right|].
  destruct (calculateProjectSkillsMatch_frame s i) as [v E]. rewrite E in H.
  apply setSkillsMatch_keys in H. destruct H as [->|H]; auto.
Qed.

Lemma map_of_list_values {A} (key : A -> string) (l : list A) (v : A) :
  In v (map_values (fold_left (fun m x => map_set m (key x) x) l [])) -> In v l.
Proof.
  assert (G : forall m,
    In v (map_values (fold_left (fun m x => map_set m (key x) x) l m)) ->
    In v l \/ In v (map_values m)).
  { induction l as [|x l IH]; intros m H; simpl in *; [now right|].
    apply IH in H. destruct H as [H|H]; [left; now right|].
    unfold map_values in H. apply in_map_iff in H.
    destruct H as ([k w] & E & H). simpl in E. subst w.
    apply map_set_In in H. destruct H as [[_ ->]|H]; [left; now left|].
    right. unfold map_values. apply in_map_iff. now exists (k, v). }
  intros H. apply G in H. destruct H as [H|[]]. exact H.
Qed.

(** After [initialize] every cached project is a listed project. *)
Lemma initialize_caches_listed_projects (s : IncrementalMetricsCalculator.t)
  (employees : list Employee.t) (projects : list Project.t)
  (assignments : list Assignment.t) (x : string) :
  In x (map_keys
          (IncrementalMetricsCalculator.skillsMatchByProject
             (IncrementalMetricsCalculator.cache
                (IncrementalMetricsCalculator.initialize s employees projects
                   assignments)))) ->
  In x (map Project.id projects).
Proof.
  unfold IncrementalMetricsCalculator.initialize.
  match goal with
  | |- context [fold_left ?f assignments ?init] =>
      destruct (fold_left f assignments init) as [[am be] bp]
  end.
  unfold IncrementalMetricsCalculator.calculateAll.
  cbn [IncrementalMetricsCalculator.employees].
  match goal with
  | |- context [fold_left IncrementalMetricsCalculator.recalcEmployee ?ids ?s0] =>
      destruct (recalcEmployees_frame ids s0) as (c & -> & Ec)
  end.
  cbn [IncrementalMetricsCalculator.projects IncrementalMetricsCalculator.with_cache
       IncrementalMetricsCalculator.clearDirtyTracking
       IncrementalMetricsCalculator.cache IncrementalMetricsCalculator.setDirtyFlag
       IncrementalMetricsCalculator.skillsMatchByProject].
  intros H. apply calculateProjects_keys in H. destruct H as [H|H].
  - apply in_map_iff in H. destruct H as (p & <- & Hp). apply in_map.
    now apply (map_of_list_values Project.id) in Hp.
  - cbn [IncrementalMetricsCalculator.cache IncrementalMetricsCalculator.with_cache] in H.
    rewrite Ec in H. destruct H.
Qed.

(** * Further properties of the batch calculator *)

(** ** Skill scores and the skill score matrix *)

Lemma sumQ_upper (c : Q) (l : list Q) :
  Forall (fun x => x <= c) l -> sumQ l <= c * inject_Z (Z.of_nat (List.length l)).
Proof.
  induction 1 as [|x l Hx _ IH].
  - unfold sumQ. simpl. rewrite Qmult_0_r. apply Qle_refl.
  - rewrite sumQ_cons. cbn [List.length].
    rewrite Nat2Z.inj_succ. unfold Z.succ. rewrite inject_Z_plus.
    setoid_replace (c * (inject_Z (Z.of_nat (List.length l)) + inject_Z 1))
      with (c + c * inject_Z (Z.of_nat (List.length l))) by ring.
    apply Qplus_le_compat; assumption.
Qed.

Lemma skillPoints_range (employee : Employee.t) (skill : string) :
  0 <= skillPoints employee skill <= 3.
Proof.
  unfold skillPoints. destruct (map_get _ _) as [[| |]|]; simpl; split; discriminate.
Qed.

Lemma skill_fold_sum (employee : Employee.t) (skills : list string) (acc : Q) :
  fold_left (fun score skill => score + skillPoints employee skill) skills acc
  == acc + sumQ (map (skillPoints employee) skills).
Proof.
  revert acc. induction skills as [|s l IH]; intros acc; simpl.
  - unfold sumQ. simpl. ring.
  - rewrite IH, sumQ_cons. ring.
Qed.

Lemma skill_score_nonneg (employee : Employee.t) (project : Project.t) :
  0 <= getEmployeeProjectSkillScore employee project.
Proof.
  unfold getEmployeeProjectSkillScore.
  destruct (Project.requiredSkills project) as [l|]; [|apply Qle_refl].
  rewrite skill_fold_sum, Qplus_0_l.
  apply sumQ_nonneg. rewrite Forall_map. apply Forall_forall.
  intros s _. apply skillPoints_range.
Qed.

(** X1.  When every required skill is the employee's own or is not a name
    inherited from [Object.prototype], the score of the employee for the
    project lies between 0 and three points for each required skill; a
    project without a list of required skills scores 0. *)
Theorem X1_skill_score_range (employee : Employee.t) (project : Project.t) :
  plainSkills employee project ->
  0 <= getEmployeeProjectSkillScore employee project
  /\ getEmployeeProjectSkillScore employee project
     <= 3 * inject_Z (Z.of_nat
                        (List.length
                           (match Project.requiredSkills project with
                            | Some requiredSkills => requiredSkills
                            | None => []
                            end))).
Proof.
  intros _.
  unfold getEmployeeProjectSkillScore.
  destruct (Project.requiredSkills project) as [l|].
  - rewrite skill_fold_sum, Qplus_0_l. split.
    + apply sumQ_nonneg. rewrite Forall_map. apply Forall_forall.
      intros s _. apply skillPoints_range.
    + rewrite <- (length_map (skillPoints employee) l).
      apply sumQ_upper. rewrite Forall_map. apply Forall_forall.
      intros s _. apply skillPoints_range.
  - split; [apply Qle_refl | discriminate].
Qed.

Lemma X1_skill_score_range_witness :
  0 <= getEmployeeProjectSkillScore ann projData
  /\ getEmployeeProjectSkillScore ann projData
     <= 3 * inject_Z (Z.of_nat (List.length ["Data"])).
Proof.
  apply (X1_skill_score_range ann projData).
  repeat constructor.
Defined.

(** The inner loop of [createSkillScoreMatrix] for one employee. *)
Lemma projectScores_untouched (employee : Employee.t) (projects : list Project.t)
  (acc : JSMap Q) (k : string) :
  ~ In k (map Project.id projects) ->
  map_get
    (fold_left
       (fun ps project =>
          if Qgtb (getEmployeeProjectSkillScore employee project) 0
          then map_set ps (Project.id project)
                 (getEmployeeProjectSkillScore employee project)
          else ps)
       projects acc) k
  = map_get acc k.
Proof.
  revert acc. induction projects as [|p l IH]; intros acc H; simpl in *.
  - reflexivity.
  - rewrite IH by tauto.
    destruct (Qgtb _ 0); [|reflexivity].
    apply map_get_set_other. tauto.
Qed.

Lemma projectScores_lookup (employee : Employee.t) (projects : list Project.t)
  (acc : JSMap Q) (p : Project.t) :
  NoDup (map Project.id projects) -> In p projects ->
  map_get acc (Project.id p) = None ->
  map_get
    (fold_left
       (fun ps project =>
          if Qgtb (getEmployeeProjectSkillScore employee project) 0
          then map_set ps (Project.id project)
                 (getEmployeeProjectSkillScore employee project)
          else ps)
       projects acc) (Project.id p)
  = if Qgtb (getEmployeeProjectSkillScore employee p) 0
    then Some (getEmployeeProjectSkillScore employee p) else None.
Proof.
  revert acc. induction projects as [|q l IH]; intros acc Hnd Hin Hacc; simpl in *.
  - contradiction.
  - inversion Hnd as [|? ? Hq Hl]; subst.
    destruct Hin as [->|Hin].
    + rewrite projectScores_untouched by assumption.
      destruct (Qgtb (getEmployeeProjectSkillScore employee p) 0);
        [apply map_get_set_same | assumption].
    + apply IH; try assumption.
      destruct (Qgtb (getEmployeeProjectSkillScore employee q) 0);
        [|assumption].
      rewrite map_get_set_other; [assumption|].
      intros E. apply Hq. rewrite E. now apply in_map.
Qed.

Lemma projectScores_entries (employee : Employee.t) (projects : list Project.t)
  (acc : JSMap Q) (k : string) (v : Q) :
  In (k, v)
    (fold_left
       (fun ps project =>
          if Qgtb (getEmployeeProjectSkillScore employee project) 0
          then map_set ps (Project.id project)
                 (getEmployeeProjectSkillScore employee project)
          else ps)
       projects acc) ->
  In (k, v) acc \/ (0 < v /\ In k (map Project.id projects)).
Proof.
  revert acc. induction projects as [|p l IH]; intros acc H; simpl in *.
  - now left.
  - apply IH in H. destruct H as [H|[Hv Hk]]; [|right; tauto].
    destruct (Qgtb _ 0) eqn:E; [|now left].
    apply map_set_In in H. destruct H as [[-> ->]|H]; [|now left].
    right. apply Qgtb_true in E. tauto.
Qed.

Lemma matrix_untouched (employees : list Employee.t) (projects : list Project.t)
  (acc : JSMap (JSMap Q)) (k : string) :
  ~ In k (map Employee.id employees) ->
  map_get
    (fold_left
       (fun matrix employee =>
          if (0 <? map_size (projectScoresOf employee projects))%nat
          then map_set matrix (Employee.id employee)
                 (projectScoresOf employee projects)
          else matrix)
       employees acc) k
  = map_get acc k.
Proof.
  revert acc. induction employees as [|e l IH]; intros acc H; simpl in *.
  - reflexivity.
  - rewrite IH by tauto.
    destruct (0 <? _)%nat; [|reflexivity].
    apply map_get_set_other. tauto.
Qed.

Lemma matrix_lookup (employees : list Employee.t) (projects : list Project.t)
  (acc : JSMap (JSMap Q)) (e : Employee.t) :
  NoDup (map Employee.id employees) -> In e employees ->
  map_get acc (Employee.id e) = None ->
  map_get
    (fold_left
       (fun matrix employee =>
          if (0 <? map_size (projectScoresOf employee projects))%nat
          then map_set matrix (Employee.id employee)
                 (projectScoresOf employee projects)
          else matrix)
       employees acc) (Employee.id e)
  = if (0 <? map_size (projectScoresOf e projects))%nat
    then Some (projectScoresOf e projects) else None.
Proof.
  revert acc. induction employees as [|q l IH]; intros acc Hnd Hin Hacc; simpl in *.
  - contradiction.
  - inversion Hnd as [|? ? Hq Hl]; subst.
    destruct Hin as [->|Hin].
    + rewrite matrix_untouched by assumption.
      destruct (0 <? map_size (projectScoresOf e projects))%nat;
        [apply map_get_set_same | assumption].
    + apply IH; try assumption.
      destruct (0 <? map_size (projectScoresOf q projects))%nat;
        [|assumption].
      rewrite map_get_set_other; [assumption|].
      intros E. apply Hq. rewrite E. now apply in_map.
Qed.

Lemma createSkillScoreMatrix_fold (employees : list Employee.t)
  (projects : list Project.t) :
  createSkillScoreMatrix employees projects
  = fold_left
      (fun matrix employee =>
         if (0 <? map_size (projectScoresOf employee projects))%nat
         then map_set matrix (Employee.id employee)
                (projectScoresOf employee projects)
         else matrix)
      employees [].
Proof. reflexivity. Qed.

(** X2.  The sparse matrix loses nothing: when employee ids and project ids
    are unique, looking an employee and a project of the lists up in the
    matrix (a missing entry reads as 0) gives the pair's skill score,
    provided every skill the project requires is the employee's own or is
    not a name inherited from [Object.prototype]. *)
Theorem X2_matrix_lookup_is_skill_score
  (employees : list Employee.t) (projects : list Project.t)
  (e : Employee.t) (p : Project.t) :
  NoDup (map Employee.id employees) -> NoDup (map Project.id projects) ->
  In e employees -> In p projects -> plainSkills e p ->
  matrixScore (createSkillScoreMatrix employees projects) e p
  == getEmployeeProjectSkillScore e p.
Proof.
  intros Hne Hnp He Hp _. unfold matrixScore.
  rewrite createSkillScoreMatrix_fold.
  rewrite (matrix_lookup employees projects [] e Hne He eq_refl).
  pose proof (projectScores_lookup e projects [] p Hnp Hp eq_refl) as Hl.
  fold (projectScoresOf e projects) in Hl.
  set (inner := projectScoresOf e projects) in *.
  assert (Hzero : Qgtb (getEmployeeProjectSkillScore e p) 0 = false ->
                  0 == getEmployeeProjectSkillScore e p).
  { intros E. apply Qgtb_false in E. apply Qle_antisym; [|assumption].
    apply skill_score_nonneg. }
  destruct (0 <? map_size inner)%nat eqn:Es.
  - rewrite Hl. destruct (Qgtb _ 0) eqn:E; simpl; [reflexivity | now apply Hzero].
  - apply Hzero. destruct (Qgtb _ 0) eqn:E; [|reflexivity].
    destruct inner; [discriminate Hl | discriminate Es].
Qed.

Lemma X2_matrix_lookup_witness :
  matrixScore (createSkillScoreMatrix [ann; bob] [projData]) bob projData
  == getEmployeeProjectSkillScore bob projData.
Proof.
  apply (X2_matrix_lookup_is_skill_score [ann; bob] [projData] bob projData).
  - repeat constructor; simpl; intuition discriminate.
  - repeat constructor; simpl; intuition discriminate.
  - right. left. reflexivity.
  - left. reflexivity.
  - repeat constructor.
Defined.

Lemma matrix_entries (employees : list Employee.t) (projects : list Project.t)
  (acc : JSMap (JSMap Q)) (k : string) (inner : JSMap Q) :
  In (k, inner)
    (fold_left
       (fun matrix employee =>
          if (0 <? map_size (projectScoresOf employee projects))%nat
          then map_set matrix (Employee.id employee)
                 (projectScoresOf employee projects)
          else matrix)
       employees acc) ->
  In (k, inner) acc
  \/ exists e, In e employees /\ Employee.id e = k
               /\ inner = projectScoresOf e projects /\ inner <> [].
Proof.
  revert acc. induction employees as [|e l IH]; intros acc H; simpl in *.
  - now left.
  - apply IH in H. destruct H as [H|(e' & He' & Hk & Hi & Hn)].
    + destruct (0 <? map_size (projectScoresOf e projects))%nat eqn:E; [|now left].
      apply map_set_In in H. destruct H as [[-> ->]|H]; [|now left].
      right. exists e. repeat split; auto.
      intros E0. rewrite E0 in E. discriminate E.
    + right. exists e'. repeat split; auto.
Qed.

(** X3.  The matrix is sparse: an employee has a row only if the row is not
    empty, the row belongs to a listed employee, and every score stored in a
    row is positive and belongs to a listed project. *)
Theorem X3_matrix_is_sparse
  (employees : list Employee.t) (projects : list Project.t)
  (employeeId : string) (row : JSMap Q) :
  map_get (createSkillScoreMatrix employees projects) employeeId = Some row ->
  row <> []
  /\ In employeeId (map Employee.id employees)
  /\ forall projectId score,
       map_get row projectId = Some score ->
       0 < score /\ In projectId (map Project.id projects).
Proof.
  intros H. apply map_get_In in H. rewrite createSkillScoreMatrix_fold in H.
  apply matrix_entries in H. destruct H as [[]|(e & He & <- & -> & Hn)].
  split; [assumption|]. split; [now apply in_map|].
  intros projectId score Hs. apply map_get_In in Hs.
  unfold projectScoresOf in Hs. apply projectScores_entries in Hs.
  destruct Hs as [[]|Hs]. exact Hs.
Qed.

Lemma X3_matrix_is_sparse_witness :
  0 < 3 /\ In "p1" (map Project.id [projData]).
Proof.
  apply (proj2 (proj2 (X3_matrix_is_sparse [ann; bob] [projData] "ann"
                         [("p1", 3)] eq_refl)) "p1" 3).
  reflexivity.
Defined.

(** ** Skills matching over an assignment list *)

(** Whether an assignment can score at all: both references resolve and
    the project lists at least one required skill. *)
Lemma skillsMatchStep_cases (employeeMap : JSMap Employee.t)
  (projectMap : JSMap Project.t) (st : Q * JSSet) (a : Assignment.t) :
  skillsMatchStep employeeMap projectMap st a = st
  \/ exists employee project,
       map_get employeeMap (Assignment.employeeId a) = Some employee
       /\ map_get projectMap (Assignment.projectId a) = Some project
       /\ set_has (snd st) (pairKeyOf a) = false
       /\ fst (skillsMatchStep employeeMap projectMap st a)
          == fst st + getEmployeeProjectSkillScore employee project
       /\ snd (skillsMatchStep employeeMap projectMap st a)
          = set_add (snd st) (pairKeyOf a).
Proof.
  unfold skillsMatchStep, pairKeyOf. destruct st as [total pairs]. simpl.
  destruct (set_has pairs _) eqn:Eh; [now left|].
  destruct (map_get employeeMap _) as [employee|]; [|now left].
  destruct (map_get projectMap _) as [project|] eqn:Ep; [|now left].
  destruct (Project.requiredSkills project) as [[|s l]|] eqn:Er; [now left| |now left].
  right. exists employee, project. repeat split; try reflexivity.
  simpl. unfold getEmployeeProjectSkillScore. rewrite Er.
  rewrite (skill_fold_sum employee (s :: l) total).
  rewrite (skill_fold_sum employee (s :: l) 0). ring.
Qed.

Lemma skillsMatchStep_keeps_pairs (employeeMap : JSMap Employee.t)
  (projectMap : JSMap Project.t) (st : Q * JSSet) (a : Assignment.t) (k : string) :
  In k (snd st) -> In k (snd (skillsMatchStep employeeMap projectMap st a)).
Proof.
  intros H. destruct (skillsMatchStep_cases employeeMap projectMap st a)
    as [->|(e & p & _ & _ & _ & _ & ->)]; [assumption|].
  apply set_add_In. now left.
Qed.

Lemma skillsMatch_fold_keeps_pairs (employeeMap : JSMap Employee.t)
  (projectMap : JSMap Project.t) (l : list Assignment.t) (st : Q * JSSet)
  (k : string) :
  In k (snd st) ->
  In k (snd (fold_left (skillsMatchStep employeeMap projectMap) l st)).
Proof.
  revert st. induction l as [|a l IH]; intros st H; simpl; [assumption|].
  apply IH. now apply skillsMatchStep_keeps_pairs.
Qed.

Lemma skillsMatchStep_not_scorable (employeeMap : JSMap Employee.t)
  (projectMap : JSMap Project.t) (st : Q * JSSet) (a : Assignment.t) :
  scorable employeeMap projectMap a = false ->
  skillsMatchStep employeeMap projectMap st a = st.
Proof.
  unfold scorable, skillsMatchStep. destruct st as [total pairs].
  destruct (set_has pairs _); [reflexivity|].
  destruct (map_get employeeMap _); [|reflexivity].
  destruct (map_get projectMap _) as [project|]; [|reflexivity].
  destruct (Project.requiredSkills project) as [[|s l]|];
    [reflexivity | discriminate | reflexivity].
Qed.

Lemma skillsMatchStep_known_pair (employeeMap : JSMap Employee.t)
  (projectMap : JSMap Project.t) (st : Q * JSSet) (a : Assignment.t) :
  In (pairKeyOf a) (snd st) ->
  skillsMatchStep employeeMap projectMap st a = st.
Proof.
  intros H. apply set_has_true in H.
  unfold skillsMatchStep. destruct st as [total pairs].
  change (Assignment.employeeId a ++ "-" ++ Assignment.projectId a)%string
    with (pairKeyOf a).
  cbn [snd] in H. now rewrite H.
Qed.

Lemma skillsMatchStep_records_pair (employeeMap : JSMap Employee.t)
  (projectMap : JSMap Project.t) (st : Q * JSSet) (a : Assignment.t) :
  scorable employeeMap projectMap a = true ->
  In (pairKeyOf a) (snd (skillsMatchStep employeeMap projectMap st a)).
Proof.
  intros Hs.
  destruct (in_dec string_dec (pairKeyOf a) (snd st)) as [Hin|Hn].
  - now rewrite skillsMatchStep_known_pair.
  - apply set_has_false in Hn.
    unfold scorable in Hs. unfold skillsMatchStep. destruct st as [total pairs].
    change (Assignment.employeeId a ++ "-" ++ Assignment.projectId a)%string
      with (pairKeyOf a).
    cbn [snd] in Hn. rewrite Hn.
    destruct (map_get employeeMap _); [|discriminate].
    destruct (map_get projectMap _) as [project|]; [|discriminate].
    destruct (Project.requiredSkills project) as [[|s l]|]; try discriminate.
    cbn [snd]. apply set_add_In. now right.
Qed.

(** X4.  Each employee-project pair is counted once: a further assignment
    of the same employee to the same project, anywhere later in the list,
    leaves the skills total unchanged. *)
Theorem X4_skills_pair_counted_once
  (employeeMap : JSMap Employee.t) (projectMap : JSMap Project.t)
  (l1 l2 l3 : list Assignment.t) (a0 a : Assignment.t) :
  Assignment.employeeId a = Assignment.employeeId a0 ->
  Assignment.projectId a = Assignment.projectId a0 ->
  calculateSkillsMatch (l1 ++ a0 :: l2 ++ a :: l3) employeeMap projectMap
  = calculateSkillsMatch (l1 ++ a0 :: l2 ++ l3) employeeMap projectMap.
Proof.
  intros Ee Ep. unfold calculateSkillsMatch.
  rewrite !fold_left_app. cbn [fold_left]. rewrite !fold_left_app. cbn [fold_left].
  set (st0 := fold_left (skillsMatchStep employeeMap projectMap) l1 (0, [])).
  set (st1 := fold_left (skillsMatchStep employeeMap projectMap) l2
                (skillsMatchStep employeeMap projectMap st0 a0)).
  assert (E : skillsMatchStep employeeMap projectMap st1 a = st1);
    [|now rewrite E].
  assert (Ek : pairKeyOf a = pairKeyOf a0) by (unfold pairKeyOf; now rewrite Ee, Ep).
  destruct (scorable employeeMap projectMap a) eqn:Es.
  - apply skillsMatchStep_known_pair. rewrite Ek.
    apply skillsMatch_fold_keeps_pairs, skillsMatchStep_records_pair.
    unfold scorable in *. now rewrite <- Ee, <- Ep.
  - now apply skillsMatchStep_not_scorable.
Qed.

Lemma X4_skills_pair_counted_once_witness :
  calculateSkillsMatch
    ([] ++ mkAssignment "y1" "ann" "p1" 30 "2024-W01" "2024-01-01"
        :: [] ++ mkAssignment "y2" "ann" "p1" 30 "JAN 1" "2024-01-01" :: [])
    (employeeMapOf [ann]) (projectMapOf [projData])
  = calculateSkillsMatch
      ([] ++ mkAssignment "y1" "ann" "p1" 30 "2024-W01" "2024-01-01" :: [] ++ [])
      (employeeMapOf [ann]) (projectMapOf [projData]).
Proof.
  apply X4_skills_pair_counted_once; reflexivity.
Defined.

(** X5.  When, for every employee and project of the two maps, the skills
    the project requires are the employee's own or are not names inherited
    from [Object.prototype]: appending one assignment to the list either
    leaves the skills total unchanged or adds exactly the skill score of
    the employee and the project it resolves to; the total never
    decreases. *)
Theorem X5_skills_total_grows_by_pair_score
  (employeeMap : JSMap Employee.t) (projectMap : JSMap Project.t)
  (l : list Assignment.t) (a : Assignment.t) :
  (forall employee project,
     In employee (map_values employeeMap) -> In project (map_values projectMap) ->
     plainSkills employee project) ->
  (calculateSkillsMatch (l ++ [a]) employeeMap projectMap
   = calculateSkillsMatch l employeeMap projectMap
   \/ exists employee project,
        map_get employeeMap (Assignment.employeeId a) = Some employee
        /\ map_get projectMap (Assignment.projectId a) = Some project
        /\ calculateSkillsMatch (l ++ [a]) employeeMap projectMap
           == calculateSkillsMatch l employeeMap projectMap
              + getEmployeeProjectSkillScore employee project)
  /\ calculateSkillsMatch l employeeMap projectMap
     <= calculateSkillsMatch (l ++ [a]) employeeMap projectMap.
Proof.
  intros _.
  unfold calculateSkillsMatch. rewrite fold_left_app. simpl.
  set (st := fold_left (skillsMatchStep employeeMap projectMap) l (0, [])).
  destruct (skillsMatchStep_cases employeeMap projectMap st a)
    as [->|(e & p & He & Hp & _ & Hf & _)].
  - split; [now left | apply Qle_refl].
  - split.
    + right. exists e, p. repeat split; assumption.
    + rewrite Hf. setoid_replace (fst st) with (fst st + 0) at 1 by ring.
      apply Qplus_le_compat; [apply Qle_refl | apply skill_score_nonneg].
Qed.

Lemma X5_skills_total_witness :
  calculateSkillsMatch [] (employeeMapOf [ann]) (projectMapOf [projData])
  <= calculateSkillsMatch
       ([] ++ [mkAssignment "y1" "ann" "p1" 30 "2024-W01" "2024-01-01"])
       (employeeMapOf [ann]) (projectMapOf [projData]).
Proof.
  apply (X5_skills_total_grows_by_pair_score (employeeMapOf [ann])
           (projectMapOf [projData]) []
           (mkAssignment "y1" "ann" "p1" 30 "2024-W01" "2024-01-01")).
  intros employee project [<-|[]] [<-|[]]. repeat constructor.
Defined.

(** ** Ranges of the batch metrics *)

Lemma overtimeSpec_nonneg (keep : Assignment.t -> bool)
  (employees : list Employee.t) (assignments : list Assignment.t) :
  0 <= overtimeSpec keep employees assignments.
Proof.
  unfold overtimeSpec. apply sumQ_nonneg. rewrite Forall_map.
  apply Forall_forall. intros e _. unfold employeeOvertimeSpec.
  apply sumQ_nonneg. rewrite Forall_map. apply Forall_forall. intros k _.
  apply Q.le_max_l.
Qed.

(** X8.  Overtime is never negative, whatever the hours and capacities:
    neither the optimizer's total nor the rounded overtime hours of
    [calculateMetrics]. *)
Theorem X8_overtime_nonnegative
  (employees : list Employee.t) (assignments : list Assignment.t) :
  0 <= calculateTotalOvertime employees assignments
  /\ forall (Date : Type) (differenceInWeeks : Date -> Date -> Z)
       (projects : list Project.t) (dateRange : option (DateRange.t Date)),
       (0 <= Metrics.overtimeHours
               (calculateMetrics differenceInWeeks employees projects assignments
                  dateRange))%Z.
Proof.
  split.
  - rewrite calculateTotalOvertime_spec. apply overtimeSpec_nonneg.
  - intros Date dw projects dr. unfold calculateMetrics. simpl.
    apply Math_round_nonneg. rewrite metricsOvertime_spec.
    apply overtimeSpec_nonneg.
Qed.

(** X9.  With non-negative hours the reported utilization is not negative;
    it is at most 100 whenever the hours assigned to the listed employees
    do not exceed the total capacity. *)
Theorem X9_utilization_range
  (Date : Type) (differenceInWeeks : Date -> Date -> Z)
  (employees : list Employee.t) (assignments : list Assignment.t)
  (dateRange : option (DateRange.t Date)) :
  Forall (fun a => 0 <= Assignment.hours a) assignments ->
  (0 <= calculateResourceUtilization differenceInWeeks employees assignments
          dateRange)%Z
  /\ (totalAssignedHoursSpec employees assignments
      <= totalCapacitySpec differenceInWeeks employees assignments dateRange ->
      (calculateResourceUtilization differenceInWeeks employees assignments
         dateRange <= 100)%Z).
Proof.
  intros Hh.
  destruct employees as [|e0 l0] eqn:E.
  { split; [reflexivity | intros _; discriminate]. }
  rewrite <- E in *.
  assert (Hne : employees <> []) by (rewrite E; discriminate).
  rewrite utilization_by_formula by assumption.
  pose proof (totalAssignedHoursSpec_nonneg employees assignments Hh) as HT.
  destruct (Qgtb _ 0) eqn:Ec.
  - apply Qgtb_true in Ec. split.
    + apply Math_round_nonneg, Qdiv_nonneg; [|assumption].
      apply Qmult_le_0_compat; [discriminate | assumption].
    + intros Hle. change 100%Z with (Math_round 100).
      apply Math_round_mono. apply Qle_shift_div_r; [assumption|].
      apply Qmult_le_l; [reflexivity | assumption].
  - split; [reflexivity | intros _; discriminate].
Qed.

Lemma X9_utilization_range_witness :
  (0 <= calculateResourceUtilization weeksBetweenDays [john] johnTwoWeeks noRange
   <= 100)%Z.
Proof.
  destruct (X9_utilization_range Z weeksBetweenDays [john] johnTwoWeeks noRange)
    as [H0 H100].
  - repeat constructor; vm_compute; intros E; discriminate E.
  - split; [exact H0|]. apply H100. vm_compute. intros E; discriminate E.
Defined.

(** * Further properties of the optimizer *)

(** ** Grouping of placeholders *)

Lemma addToGroup_get_same (groups : JSMap (list Assignment.t)) (p : Assignment.t) :
  map_get (addToGroup groups p) (placeholderKey p)
  = Some ((match map_get groups (placeholderKey p) with
           | Some members => members
           | None => []
           end) ++ [p]).
Proof.
  unfold addToGroup, map_has.
  destruct (map_get groups (placeholderKey p)) as [members|] eqn:E.
  - rewrite E. apply map_get_set_same.
  - rewrite map_get_set_same. apply map_get_set_same.
Qed.

Lemma addToGroup_get_other (groups : JSMap (list Assignment.t)) (p : Assignment.t)
  (k : string) :
  placeholderKey p <> k ->
  map_get (addToGroup groups p) k = map_get groups k.
Proof.
  intros H. unfold addToGroup, map_has.
  destruct (map_get groups (placeholderKey p)) as [members|] eqn:E.
  - rewrite E. now apply map_get_set_other.
  - rewrite map_get_set_same. rewrite !map_get_set_other by assumption. reflexivity.
Qed.

Lemma addToGroup_keys (groups : JSMap (list Assignment.t)) (p : Assignment.t) :
  map_keys (addToGroup groups p)
  = if map_has groups (placeholderKey p) then map_keys groups
    else map_keys groups ++ [placeholderKey p].
Proof.
  unfold addToGroup.
  destruct (map_has groups (placeholderKey p)) eqn:E.
  - unfold map_has in E.
    destruct (map_get groups (placeholderKey p)) eqn:G; [|discriminate].
    rewrite map_keys_set. unfold map_has. now rewrite G.
  - rewrite map_get_set_same, !map_keys_set, E.
    unfold map_has. now rewrite map_get_set_same.
Qed.

Lemma placeholderGroups_fold_get (l : list Assignment.t)
  (groups : JSMap (list Assignment.t)) (k : string) :
  map_get (fold_left addToGroup l groups) k
  = match filter (fun p => String.eqb (placeholderKey p) k) l with
    | [] => map_get groups k
    | members =>
        Some ((match map_get groups k with Some ms => ms | None => [] end)
              ++ members)
    end.
Proof.
  revert groups. induction l as [|p l IH]; intros groups; simpl.
  - reflexivity.
  - rewrite IH. clear IH.
    destruct (String.eqb (placeholderKey p) k) eqn:E.
    + apply String.eqb_eq in E. subst k. rewrite addToGroup_get_same.
      destruct (filter _ l); [reflexivity|]. now rewrite <- app_assoc.
    + apply String.eqb_neq in E. now rewrite addToGroup_get_other.
Qed.

Lemma placeholderGroups_fold_keys (l : list Assignment.t)
  (groups : JSMap (list Assignment.t)) :
  map_keys (fold_left addToGroup l groups)
  = map_keys groups ++ distinct (map_keys groups) (map placeholderKey l).
Proof.
  revert groups. induction l as [|p l IH]; intros groups; simpl.
  - now rewrite app_nil_r.
  - rewrite IH, addToGroup_keys.
    fold (set_has (map_keys groups) (placeholderKey p)).
    destruct (map_has groups (placeholderKey p)) eqn:E.
    + apply map_has_true in E. apply set_has_true in E. now rewrite E.
    + assert (E' : set_has (map_keys groups) (placeholderKey p) = false).
      { apply set_has_false. rewrite <- map_has_true. congruence. }
      rewrite E', <- app_assoc. simpl. do 2 f_equal.
      apply distinct_ext. intros x. rewrite in_app_iff. simpl. tauto.
Qed.

(** X10.  Grouping partitions the placeholders by their key: the group
    found under a key holds exactly the placeholders with that key, in their
    original order; a key without placeholders has no group; the groups are
    ordered by the first occurrence of their key. *)
Theorem X10_groups_partition_by_key (placeholders : list Assignment.t) (k : string) :
  map_get (placeholderGroupsOf placeholders) k
  = match filter (fun p => String.eqb (placeholderKey p) k) placeholders with
    | [] => None
    | members => Some members
    end
  /\ map_keys (placeholderGroupsOf placeholders)
     = distinct [] (map placeholderKey placeholders).
Proof.
  unfold placeholderGroupsOf. split.
  - rewrite placeholderGroups_fold_get. reflexivity.
  - rewrite placeholderGroups_fold_keys. reflexivity.
Qed.

(** ** Choice of the best employee *)







(** ** What a run suggests *)

Section SuggestionsOfGroup.

Variable project : Project.t.
Variable data : ScheduleData.t.
Variable weights : OptimizationWeights.t.
Variable matrix : JSMap (JSMap Q).
Variable algorithm : Algorithm.

Lemma groupStep_origin (placeholders : list Assignment.t)
  (st : JSSet * list PlaceholderSuggestion.t) (p : Assignment.t) :
  In p placeholders ->
  Forall (suggestionFrom project placeholders) (snd st) ->
  Forall (suggestionFrom project placeholders)
    (snd (groupStep project data weights matrix algorithm st p)).
Proof.
  intros Hp H. unfold groupStep. destruct st as [assigned pushed].
  destruct (findBestEmployee p project data weights matrix algorithm assigned)
    as [best|]; [|assumption].
  cbn [snd] in *. apply Forall_app. split; [assumption|].
  constructor; [|constructor].
  unfold suggestionFrom. cbn. split; [reflexivity|]. exists p. auto.
Qed.

Lemma groupLoop_origin (placeholders l : list Assignment.t)
  (st : JSSet * list PlaceholderSuggestion.t) :
  incl l placeholders ->
  Forall (suggestionFrom project placeholders) (snd st) ->
  Forall (suggestionFrom project placeholders)
    (snd (fold_left (groupStep project data weights matrix algorithm) l st)).
Proof.
  revert st. induction l as [|p l IH]; intros st Hi H; simpl; [assumption|].
  apply IH.
  - intros x Hx. apply Hi. now right.
  - apply groupStep_origin; [|assumption]. apply Hi. now left.
Qed.

Lemma groupStep_at_most_one (st : JSSet * list PlaceholderSuggestion.t)
  (p : Assignment.t) :
  (List.length (snd (groupStep project data weights matrix algorithm st p))
   <= S (List.length (snd st)))%nat.
Proof.
  unfold groupStep. destruct st as [assigned pushed].
  destruct (findBestEmployee _ _ _ _ _ _ _); cbn [snd]; [|lia].
  rewrite length_app. simpl. lia.
Qed.

Lemma groupLoop_at_most (l : list Assignment.t)
  (st : JSSet * list PlaceholderSuggestion.t) :
  (List.length
     (snd (fold_left (groupStep project data weights matrix algorithm) l st))
   <= List.length (snd st) + List.length l)%nat.
Proof.
  revert st. induction l as [|p l IH]; intros st; simpl; [lia|].
  pose proof (IH (groupStep project data weights matrix algorithm st p)).
  pose proof (groupStep_at_most_one st p). lia.
Qed.

Lemma groupSuggestions_eligible (placeholders : list Assignment.t) :
  incl (map PlaceholderSuggestion.suggestedEmployeeId
          (groupSuggestions project data weights matrix algorithm placeholders))
    (eligibleIds (ScheduleData.employees data)).
Proof.
  unfold groupSuggestions.
  destruct (groupLoop_invariant project data weights matrix algorithm
              placeholders ([], [])) as (Hmap & _ & Hincl).
  { repeat split; simpl; [constructor | intros x []]. }
  now rewrite Hmap.
Qed.

End SuggestionsOfGroup.

Lemma projectMapOf_listed (projects : list Project.t) (k : string)
  (project : Project.t) :
  map_get (projectMapOf projects) k = Some project ->
  Project.id project = k /\ In k (map Project.id projects).
Proof.
  intros H. split.
  - now apply (map_of_entries_get_key Project.id projects).
  - destruct (in_dec string_dec k (map Project.id projects)) as [Hin|Hn];
      [assumption|].
    apply projectMapOf_unlisted in Hn. congruence.
Qed.

Lemma In_map_values {V} (m : JSMap V) (v : V) :
  In v (map_values m) -> exists k, In (k, v) m.
Proof.
  unfold map_values. intros H. apply in_map_iff in H.
  destruct H as ([k w] & E & H). simpl in E. subst w. now exists k.
Qed.

Lemma numbered_placeholder_is_candidate :
  isCandidate [] (mkEmployee "Placeholder 1" 40 []) = true
  /\ sentinelId "Placeholder 1" = true.
Proof.
  split; reflexivity.
Qed.

(** X13.  Every suggestion of a run names a listed employee that passes
    the filter of [findBestEmployee] (an id that is neither "placeholder"
    nor "Placeholder" and does not start with "placeholder" in lower case)
    and a listed project, and takes its week label and hours from a
    placeholder assignment of the dataset.  The filter is not the
    placeholder test of the assignments: an employee entry with the id
    "Placeholder 1" passes it. *)
Theorem X13_suggestions_name_real_entities
  (data : ScheduleData.t) (algorithm : Algorithm) (weights : OptimizationWeights.t)
  (s : PlaceholderSuggestion.t) :
  In s (allSuggestions data algorithm weights) ->
  In (PlaceholderSuggestion.suggestedEmployeeId s)
    (eligibleIds (ScheduleData.employees data))
  /\ In (PlaceholderSuggestion.projectId s)
       (map Project.id (ScheduleData.projects data))
  /\ exists p,
       In p (ScheduleData.assignments data) /\ isPlaceholder p = true
       /\ PlaceholderSuggestion.week s = Assignment.week p
       /\ PlaceholderSuggestion.originalHours s = Assignment.hours p.
Proof.
  unfold allSuggestions. rewrite fold_left_app_flat_map. simpl.
  intros H. apply in_flat_map in H. destruct H as (pls & Hg & Hs).
  apply In_map_values in Hg. destruct Hg as [key Hg].
  pose proof (placeholderGroups_members
                (fun p => In p (filter isPlaceholder (ScheduleData.assignments data)))
                (filter isPlaceholder (ScheduleData.assignments data))) as Hmem.
  specialize (Hmem ltac:(apply Forall_forall; auto) key pls Hg).
  rewrite Forall_forall in Hmem.
  unfold processGroup in Hs. destruct pls as [|first rest]; [destruct Hs|].
  destruct (map_get _ (Assignment.projectId first)) as [project|] eqn:Ep;
    [|destruct Hs].
  apply projectMapOf_listed in Ep. destruct Ep as [Eid Hlisted].
  split; [|split].
  - apply (groupSuggestions_eligible project data weights
             (createSkillScoreMatrix (ScheduleData.employees data)
                (ScheduleData.projects data))
             algorithm (first :: rest)).
    now apply in_map.
  - pose proof (groupLoop_origin project data weights
                  (createSkillScoreMatrix (ScheduleData.employees data)
                     (ScheduleData.projects data))
                  algorithm (first :: rest) (first :: rest) ([], [])
                  (incl_refl _) (Forall_nil _)) as Ho.
    rewrite Forall_forall in Ho. destruct (Ho s Hs) as [Epid _].
    now rewrite Epid, Eid.
  - pose proof (groupLoop_origin project data weights
                  (createSkillScoreMatrix (ScheduleData.employees data)
                     (ScheduleData.projects data))
                  algorithm (first :: rest) (first :: rest) ([], [])
                  (incl_refl _) (Forall_nil _)) as Ho.
    rewrite Forall_forall in Ho. destruct (Ho s Hs) as [_ (p & Hp & Ew & Eh)].
    exists p. apply Hmem in Hp. apply filter_In in Hp. tauto.
Qed.

Lemma X13_suggestions_witness :
  In (PlaceholderSuggestion.suggestedEmployeeId noWeekSuggestion)
    (eligibleIds (ScheduleData.employees noWeekData)).
Proof.
  refine (proj1 (X13_suggestions_name_real_entities noWeekData genetic unitWeights
                   noWeekSuggestion _)).
  left. vm_compute. reflexivity.
Defined.

(** ** How many suggestions a run makes *)

Lemma concat_values_set_new {A} (m : JSMap (list A)) (k : string) (v : list A) :
  map_get m k = None ->
  List.length (List.concat (map_values (map_set m k v)))
  = (List.length (List.concat (map_values m)) + List.length v)%nat.
Proof.
  induction m as [|[k0 v0] m IH]; simpl; intros H.
  - rewrite app_nil_r. reflexivity.
  - destruct (String.eqb k0 k) eqn:E; [discriminate|].
    simpl. rewrite !length_app, IH by assumption. lia.
Qed.

Lemma concat_values_set_old {A} (m : JSMap (list A)) (k : string) (v v' : list A) :
  map_get m k = Some v ->
  (List.length (List.concat (map_values (map_set m k v'))) + List.length v
   = List.length (List.concat (map_values m)) + List.length v')%nat.
Proof.
  induction m as [|[k0 v0] m IH]; simpl; intros H; [discriminate|].
  destruct (String.eqb k0 k) eqn:E.
  - injection H as ->. simpl. rewrite !length_app. lia.
  - simpl. rewrite !length_app. specialize (IH H). lia.
Qed.

Lemma addToGroup_size (groups : JSMap (list Assignment.t)) (p : Assignment.t) :
  List.length (List.concat (map_values (addToGroup groups p)))
  = S (List.length (List.concat (map_values groups))).
Proof.
  pose proof (addToGroup_get_same groups p) as Hs.
  unfold addToGroup in *. unfold map_has in *.
  destruct (map_get groups (placeholderKey p)) as [members|] eqn:E.
  - rewrite E.
    pose proof (concat_values_set_old groups (placeholderKey p) members
                  (members ++ [p]) E) as H.
    rewrite length_app in H. simpl in H. lia.
  - rewrite map_get_set_same.
    pose proof (concat_values_set_new groups (placeholderKey p) [] E) as H0.
    pose proof (concat_values_set_old (map_set groups (placeholderKey p) [])
                  (placeholderKey p) [] ([] ++ [p])
                  (map_get_set_same _ _ _)) as H1.
    simpl in *. lia.
Qed.

Lemma placeholderGroups_size (l : list Assignment.t)
  (groups : JSMap (list Assignment.t)) :
  List.length (List.concat (map_values (fold_left addToGroup l groups)))
  = (List.length (List.concat (map_values groups)) + List.length l)%nat.
Proof.
  revert groups. induction l as [|p l IH]; intros groups; simpl; [lia|].
  rewrite IH, addToGroup_size. lia.
Qed.

Lemma flat_map_length_le {A B} (f : list A -> list B) (l : list (list A)) :
  (forall g, In g l -> (List.length (f g) <= List.length g)%nat) ->
  (List.length (flat_map f l) <= List.length (List.concat l))%nat.
Proof.
  induction l as [|g l IH]; intros H; simpl; [lia|].
  rewrite !length_app.
  pose proof (H g (or_introl eq_refl)).
  assert (List.length (flat_map f l) <= List.length (List.concat l))%nat
    by (apply IH; intros g' Hg'; apply H; now right).
  lia.
Qed.

(** X14.  A run makes at most one suggestion per placeholder assignment. *)
Theorem X14_at_most_one_suggestion_per_placeholder
  (data : ScheduleData.t) (algorithm : Algorithm) (weights : OptimizationWeights.t) :
  (List.length (allSuggestions data algorithm weights)
   <= List.length (filter isPlaceholder (ScheduleData.assignments data)))%nat.
Proof.
  unfold allSuggestions. rewrite fold_left_app_flat_map. simpl.
  pose proof (placeholderGroups_size
                (filter isPlaceholder (ScheduleData.assignments data)) []) as Hsize.
  simpl in Hsize. fold (placeholderGroupsOf
    (filter isPlaceholder (ScheduleData.assignments data))) in Hsize.
  rewrite <- Hsize. apply flat_map_length_le.
  intros pls _. unfold processGroup.
  destruct pls as [|first rest]; [simpl; lia|].
  destruct (map_get _ _) as [project|]; [|simpl; lia].
  unfold groupSuggestions.
  pose proof (groupLoop_at_most project data weights
                (createSkillScoreMatrix (ScheduleData.employees data)
                   (ScheduleData.projects data))
                algorithm (first :: rest) ([], [])) as H.
  simpl in H. simpl. lia.
Qed.

(** ** Applying suggestions *)

Lemma fold_left_snoc_map {A B} (f : A -> B) (l : list A) (acc : list B) :
  fold_left (fun acc x => acc ++ [f x]) l acc = acc ++ map f l.
Proof.
  revert acc. induction l as [|x l IH]; intros acc; simpl.
  - now rewrite app_nil_r.
  - now rewrite IH, <- app_assoc.
Qed.

Lemma replacedPlaceholders_has (suggestions : list PlaceholderSuggestion.t)
  (k : string) :
  set_has
    (fold_left (fun s suggestion => set_add s (suggestionKey suggestion))
       suggestions [])
    k
  = existsb (String.eqb k) (map suggestionKey suggestions).
Proof.
  rewrite (fold_left_map_arg set_add suggestionKey).
  apply eq_true_iff_eq.
  fold (set_has (map suggestionKey suggestions) k).
  rewrite !set_has_true, fold_set_add_In. simpl. tauto.
Qed.

Lemma applysuggestions_shape (assignments : list Assignment.t)
  (suggestions : list PlaceholderSuggestion.t) :
  applysuggestions assignments suggestions
  = filter
      (fun a =>
         notPlaceholder a
         || negb (existsb (String.eqb (placeholderKey a))
                    (map suggestionKey suggestions)))
      assignments
    ++ map suggestedAssignment suggestions.
Proof.
  unfold applysuggestions. rewrite fold_left_snoc_map. f_equal.
  apply filter_ext. intros a. rewrite replacedPlaceholders_has.
  unfold notPlaceholder. destruct (isPlaceholder a); reflexivity.
Qed.

Lemma filter_filter_weaker {A} (f g : A -> bool) (l : list A) :
  (forall x, f x = true -> g x = true) ->
  filter f (filter g l) = filter f l.
Proof.
  intros H. induction l as [|x l IH]; simpl; [reflexivity|].
  destruct (g x) eqn:Eg; simpl.
  - destruct (f x); now rewrite IH.
  - destruct (f x) eqn:Ef; [|assumption].
    apply H in Ef. congruence.
Qed.

Lemma filter_all {A} (f : A -> bool) (l : list A) :
  (forall x, f x = true) -> filter f l = l.
Proof.
  intros H. induction l as [|x l IH]; simpl; [reflexivity|].
  now rewrite H, IH.
Qed.

Lemma applysuggestions_nil (assignments : list Assignment.t) :
  applysuggestions assignments [] = assignments.
Proof.
  rewrite applysuggestions_shape. simpl. rewrite app_nil_r.
  apply filter_all. intros a. apply orb_true_r.
Qed.

(** X15.  The predicted list consists of the original assignments, in their
    order, without the placeholders whose key
    [`${projectId}-${week || date}`] equals the key
    [`${projectId}-${week}`] of some suggestion, followed by one new
    assignment per suggestion in the order of the suggestions.  The
    assignments of real employees all survive, in order, and without
    suggestions the list is returned as it is. *)
Theorem X15_applysuggestions_shape
  (assignments : list Assignment.t) (suggestions : list PlaceholderSuggestion.t) :
  applysuggestions assignments suggestions
  = filter
      (fun a =>
         notPlaceholder a
         || negb (existsb (String.eqb (placeholderKey a))
                    (map suggestionKey suggestions)))
      assignments
    ++ map suggestedAssignment suggestions
  /\ filter notPlaceholder (applysuggestions assignments suggestions)
     = filter notPlaceholder assignments
       ++ filter notPlaceholder (map suggestedAssignment suggestions)
  /\ applysuggestions assignments [] = assignments.
Proof.
  split; [apply applysuggestions_shape|]. split.
  - rewrite applysuggestions_shape, filter_app. f_equal.
    apply filter_filter_weaker. intros a ->. reflexivity.
  - apply applysuggestions_nil.
Qed.



(** X18.  Whenever a run makes no suggestion (no placeholder, no eligible
    employee, or only unknown projects) every predicted metric equals the
    current one. *)
Theorem X18_no_suggestion_no_change
  (Date : Type) (differenceInWeeks : Date -> Date -> Z)
  (data : ScheduleData.t) (algorithm : Algorithm)
  (weights : OptimizationWeights.t) (dateRange : option (DateRange.t Date)) :
  let result := optimizeSchedule differenceInWeeks data algorithm weights dateRange in
  let m := OptimizationResult.metrics result in
  OptimizationResult.suggestions result = [] ->
  OptimizationMetrics.predictedOvertimeHours m
  = OptimizationMetrics.currentOvertimeHours m
  /\ OptimizationMetrics.predictedUtilization m
     = OptimizationMetrics.currentUtilization m
  /\ OptimizationMetrics.predictedSkillsMatch m
     = OptimizationMetrics.currentSkillsMatch m
  /\ OptimizationResult.totalScore result = Fin 0.
Proof.
  cbv zeta. unfold optimizeSchedule.
  destruct (filter isPlaceholder (ScheduleData.assignments data)) as [|p l];
    cbn [OptimizationResult.suggestions OptimizationResult.metrics
         OptimizationResult.totalScore
         OptimizationMetrics.predictedOvertimeHours
         OptimizationMetrics.currentOvertimeHours
         OptimizationMetrics.predictedUtilization
         OptimizationMetrics.currentUtilization
         OptimizationMetrics.predictedSkillsMatch
         OptimizationMetrics.currentSkillsMatch].
  - intros _. repeat split; reflexivity.
  - intros ->.
    assert (E : applysuggestions (ScheduleData.assignments data) []
                = ScheduleData.assignments data)
      by apply applysuggestions_nil.
    rewrite E. repeat split; reflexivity.
Qed.

Lemma X18_no_suggestion_witness :
  OptimizationMetrics.predictedUtilization
    (OptimizationResult.metrics
       (optimizeSchedule weeksBetweenDays unknownProjectData genetic unitWeights
          noRange))
  = OptimizationMetrics.currentUtilization
      (OptimizationResult.metrics
         (optimizeSchedule weeksBetweenDays unknownProjectData genetic unitWeights
            noRange)).
Proof.
  apply (X18_no_suggestion_no_change Z weeksBetweenDays unknownProjectData genetic
           unitWeights noRange).
  vm_compute. reflexivity.
Defined.

(** * Further properties of the incremental cache *)

(** ** Reading twice *)

Lemma recalculateDirty_clean (s : IncrementalMetricsCalculator.t) :
  IncrementalMetricsCalculator.isDirty
    (IncrementalMetricsCalculator.cache
       (IncrementalMetricsCalculator.recalculateDirty s)) = false
  /\ IncrementalMetricsCalculator.dirtyTracking
       (IncrementalMetricsCalculator.recalculateDirty s)
     = IncrementalMetricsCalculator.emptyDirty.
Proof.
  unfold IncrementalMetricsCalculator.recalculateDirty. split; reflexivity.
Qed.

(** X19.  [getMetrics] leaves a clean calculator: the flag is cleared, and
    when it had to recalculate the dirty sets are empty.  A second call
    without a mutation in between returns the same record and leaves the
    state as it is. *)
Theorem X19_getMetrics_is_idempotent (s : IncrementalMetricsCalculator.t) :
  let r := IncrementalMetricsCalculator.getMetrics s in
  IncrementalMetricsCalculator.isDirty
    (IncrementalMetricsCalculator.cache (snd r)) = false
  /\ IncrementalMetricsCalculator.getMetrics (snd r) = r.
Proof.
  cbv zeta. unfold IncrementalMetricsCalculator.getMetrics.
  destruct (IncrementalMetricsCalculator.isDirty
              (IncrementalMetricsCalculator.cache s)) eqn:E; cbn [fst snd].
  - destruct (recalculateDirty_clean s) as [Hc _]. rewrite Hc. split; reflexivity.
  - rewrite E. split; reflexivity.
Qed.

(** ** The assignment map and the two indices *)

Lemma indexAdd_get_same (index : JSMap JSSet) (k id : string) :
  IncrementalMetricsCalculator.indexGet
    (IncrementalMetricsCalculator.indexAdd index k id) k
  = set_add (IncrementalMetricsCalculator.indexGet index k) id.
Proof.
  unfold IncrementalMetricsCalculator.indexGet,
    IncrementalMetricsCalculator.indexAdd, map_has.
  destruct (map_get index k) as [ids|] eqn:E.
  - rewrite E. now rewrite map_get_set_same.
  - rewrite map_get_set_same. now rewrite map_get_set_same.
Qed.

Lemma indexAdd_get_other (index : JSMap JSSet) (k k' id : string) :
  k <> k' ->
  IncrementalMetricsCalculator.indexGet
    (IncrementalMetricsCalculator.indexAdd index k id) k'
  = IncrementalMetricsCalculator.indexGet index k'.
Proof.
  intros H. unfold IncrementalMetricsCalculator.indexGet,
    IncrementalMetricsCalculator.indexAdd, map_has.
  destruct (map_get index k) as [ids|] eqn:E.
  - rewrite E. now rewrite map_get_set_other.
  - rewrite map_get_set_same. now rewrite !map_get_set_other.
Qed.

Lemma indexDelete_get_same (index : JSMap JSSet) (k id : string) :
  IncrementalMetricsCalculator.indexGet
    (IncrementalMetricsCalculator.indexDelete index k id) k
  = set_delete (IncrementalMetricsCalculator.indexGet index k) id.
Proof.
  unfold IncrementalMetricsCalculator.indexGet,
    IncrementalMetricsCalculator.indexDelete.
  destruct (map_get index k) as [ids|] eqn:E.
  - now rewrite map_get_set_same.
  - now rewrite E.
Qed.

Lemma indexDelete_get_other (index : JSMap JSSet) (k k' id : string) :
  k <> k' ->
  IncrementalMetricsCalculator.indexGet
    (IncrementalMetricsCalculator.indexDelete index k id) k'
  = IncrementalMetricsCalculator.indexGet index k'.
Proof.
  intros H. unfold IncrementalMetricsCalculator.indexGet,
    IncrementalMetricsCalculator.indexDelete.
  destruct (map_get index k) as [ids|] eqn:E; [|reflexivity].
  now rewrite map_get_set_other.
Qed.

Lemma set_delete_not_In (s : JSSet) (x : string) : ~ In x (set_delete s x).
Proof.
  unfold set_delete. intros H. apply filter_In in H. destruct H as [_ H].
  now rewrite String.eqb_refl in H.
Qed.

Lemma set_delete_absent (s : JSSet) (x : string) : ~ In x s -> set_delete s x = s.
Proof.
  unfold set_delete. induction s as [|y s IH]; simpl; intros H; [reflexivity|].
  destruct (String.eqb x y) eqn:E.
  - apply String.eqb_eq in E. subst y. exfalso. apply H. now left.
  - simpl. f_equal. apply IH. intros Hx. apply H. now right.
Qed.

Lemma set_delete_add (s : JSSet) (x : string) :
  ~ In x s -> set_delete (set_add s x) x = s.
Proof.
  intros H. unfold set_add. pose proof H as H'. apply set_has_false in H'.
  rewrite H'. unfold set_delete. rewrite filter_app. simpl.
  rewrite String.eqb_refl. simpl. rewrite app_nil_r.
  now apply set_delete_absent.
Qed.

Lemma map_delete_set_fresh {V} (m : JSMap V) (k : string) (v : V) :
  map_get m k = None -> map_delete (map_set m k v) k = m.
Proof.
  induction m as [|[k0 v0] m IH]; simpl; intros H.
  - now rewrite String.eqb_refl.
  - destruct (String.eqb k0 k) eqn:E; [discriminate|].
    simpl. rewrite E. now rewrite IH.
Qed.

Lemma fold_set_add_single (s : JSSet) (x : string) :
  In x (fold_left set_add [x] s).
Proof. simpl. apply set_add_In. now right. Qed.

Lemma addAssignment_get (s : IncrementalMetricsCalculator.t) (a : Assignment.t) :
  map_get
    (IncrementalMetricsCalculator.assignments
       (IncrementalMetricsCalculator.addAssignment s a))
    (Assignment.id a)
  = Some a.
Proof. apply map_get_set_same. Qed.

(** X20.  After [addAssignment] the assignment is returned by its id, the
    id is listed under the assignment's employee and under its project,
    both are marked dirty and the dirty flag is set; every other assignment
    id and every other index entry reads as before. *)
Theorem X20_addAssignment_registers (s : IncrementalMetricsCalculator.t)
  (a : Assignment.t) :
  let s' := IncrementalMetricsCalculator.addAssignment s a in
  map_get (IncrementalMetricsCalculator.assignments s') (Assignment.id a) = Some a
  /\ In (Assignment.id a)
       (IncrementalMetricsCalculator.indexGet
          (IncrementalMetricsCalculator.assignmentsByEmployee s')
          (Assignment.employeeId a))
  /\ In (Assignment.id a)
       (IncrementalMetricsCalculator.indexGet
          (IncrementalMetricsCalculator.assignmentsByProject s')
          (Assignment.projectId a))
  /\ In (Assignment.employeeId a)
       (IncrementalMetricsCalculator.dirtyEmployees
          (IncrementalMetricsCalculator.dirtyTracking s'))
  /\ In (Assignment.projectId a)
       (IncrementalMetricsCalculator.dirtyProjects
          (IncrementalMetricsCalculator.dirtyTracking s'))
  /\ IncrementalMetricsCalculator.isDirty (IncrementalMetricsCalculator.cache s')
     = true
  /\ (forall k, k <> Assignment.id a ->
        map_get (IncrementalMetricsCalculator.assignments s') k
        = map_get (IncrementalMetricsCalculator.assignments s) k)
  /\ (forall k, k <> Assignment.employeeId a ->
        IncrementalMetricsCalculator.indexGet
          (IncrementalMetricsCalculator.assignmentsByEmployee s') k
        = IncrementalMetricsCalculator.indexGet
            (IncrementalMetricsCalculator.assignmentsByEmployee s) k)
  /\ (forall k, k <> Assignment.projectId a ->
        IncrementalMetricsCalculator.indexGet
          (IncrementalMetricsCalculator.assignmentsByProject s') k
        = IncrementalMetricsCalculator.indexGet
            (IncrementalMetricsCalculator.assignmentsByProject s) k).
Proof.
  cbv zeta. unfold IncrementalMetricsCalculator.addAssignment.
  cbn [IncrementalMetricsCalculator.assignments
       IncrementalMetricsCalculator.assignmentsByEmployee
       IncrementalMetricsCalculator.assignmentsByProject
       IncrementalMetricsCalculator.dirtyTracking
       IncrementalMetricsCalculator.cache
       IncrementalMetricsCalculator.markDirty
       IncrementalMetricsCalculator.dirtyEmployees
       IncrementalMetricsCalculator.dirtyProjects
       IncrementalMetricsCalculator.setDirtyFlag
       IncrementalMetricsCalculator.isDirty].
  repeat split.
  - apply map_get_set_same.
  - rewrite indexAdd_get_same. apply set_add_In. now right.
  - rewrite indexAdd_get_same. apply set_add_In. now right.
  - apply fold_set_add_single.
  - apply fold_set_add_single.
  - intros k Hk. apply map_get_set_other. congruence.
  - intros k Hk. apply indexAdd_get_other. congruence.
  - intros k Hk. apply indexAdd_get_other. congruence.
Qed.

Lemma X20_addAssignment_witness :
  map_get
    (IncrementalMetricsCalculator.assignments
       (IncrementalMetricsCalculator.addAssignment cacheStart
          danglingProjectAssignment))
    "zz"
  = map_get (IncrementalMetricsCalculator.assignments cacheStart) "zz".
Proof.
  apply (X20_addAssignment_registers cacheStart danglingProjectAssignment).
  discriminate.
Defined.

(** X21.  Removing an assignment that was just added under a fresh id
    undoes the addition as far as the entities go: the assignment map is
    the one before, and both indices list the same ids under every key.
    The employee and project stay marked dirty. *)
Theorem X21_remove_undoes_add (s : IncrementalMetricsCalculator.t)
  (a : Assignment.t) :
  map_get (IncrementalMetricsCalculator.assignments s) (Assignment.id a) = None ->
  ~ In (Assignment.id a)
      (IncrementalMetricsCalculator.indexGet
         (IncrementalMetricsCalculator.assignmentsByEmployee s)
         (Assignment.employeeId a)) ->
  ~ In (Assignment.id a)
      (IncrementalMetricsCalculator.indexGet
         (IncrementalMetricsCalculator.assignmentsByProject s)
         (Assignment.projectId a)) ->
  let s' :=
    IncrementalMetricsCalculator.removeAssignment
      (IncrementalMetricsCalculator.addAssignment s a) (Assignment.id a) in
  IncrementalMetricsCalculator.assignments s'
  = IncrementalMetricsCalculator.assignments s
  /\ (forall k,
        IncrementalMetricsCalculator.indexGet
          (IncrementalMetricsCalculator.assignmentsByEmployee s') k
        = IncrementalMetricsCalculator.indexGet
            (IncrementalMetricsCalculator.assignmentsByEmployee s) k)
  /\ (forall k,
        IncrementalMetricsCalculator.indexGet
          (IncrementalMetricsCalculator.assignmentsByProject s') k
        = IncrementalMetricsCalculator.indexGet
            (IncrementalMetricsCalculator.assignmentsByProject s) k)
  /\ In (Assignment.employeeId a)
       (IncrementalMetricsCalculator.dirtyEmployees
          (IncrementalMetricsCalculator.dirtyTracking s'))
  /\ In (Assignment.projectId a)
       (IncrementalMetricsCalculator.dirtyProjects
          (IncrementalMetricsCalculator.dirtyTracking s')).
Proof.
  intros Hfresh He Hp. cbv zeta.
  unfold IncrementalMetricsCalculator.removeAssignment.
  assert (Hget : map_get
                   (IncrementalMetricsCalculator.assignments
                      (IncrementalMetricsCalculator.addAssignment s a))
                   (Assignment.id a) = Some a)
    by apply addAssignment_get.
  rewrite Hget.
  cbn [IncrementalMetricsCalculator.assignments
       IncrementalMetricsCalculator.assignmentsByEmployee
       IncrementalMetricsCalculator.assignmentsByProject
       IncrementalMetricsCalculator.dirtyTracking
       IncrementalMetricsCalculator.addAssignment
       IncrementalMetricsCalculator.markDirty
       IncrementalMetricsCalculator.dirtyEmployees
       IncrementalMetricsCalculator.dirtyProjects].
  repeat split.
  - now apply map_delete_set_fresh.
  - intros k. destruct (string_dec (Assignment.employeeId a) k) as [<-|Hk].
    + rewrite indexDelete_get_same, indexAdd_get_same. now apply set_delete_add.
    + rewrite indexDelete_get_other, indexAdd_get_other by assumption. reflexivity.
  - intros k. destruct (string_dec (Assignment.projectId a) k) as [<-|Hk].
    + rewrite indexDelete_get_same, indexAdd_get_same. now apply set_delete_add.
    + rewrite indexDelete_get_other, indexAdd_get_other by assumption. reflexivity.
  - apply fold_set_add_In. left. apply fold_set_add_single.
  - apply fold_set_add_In. left. apply fold_set_add_single.
Qed.

Lemma X21_remove_undoes_add_witness :
  IncrementalMetricsCalculator.assignments
    (IncrementalMetricsCalculator.removeAssignment
       (IncrementalMetricsCalculator.addAssignment cacheStart
          danglingProjectAssignment)
       (Assignment.id danglingProjectAssignment))
  = IncrementalMetricsCalculator.assignments cacheStart.
Proof.
  apply (X21_remove_undoes_add cacheStart danglingProjectAssignment).
  - reflexivity.
  - vm_compute. intros [].
  - vm_compute. intros [].
Defined.

(** ** Updating an assignment *)

(** X22.  An update that names another, non-empty employee id stores the
    merged assignment under the same id, detaches the id from the old
    employee's index entry, attaches it to the new one and marks both
    employees and the project dirty. *)
Theorem X22_update_moves_between_employees
  (s : IncrementalMetricsCalculator.t) (assignmentId : string)
  (updates : PartialAssignment.t) (existing : Assignment.t) (newEmployee : string) :
  map_get (IncrementalMetricsCalculator.assignments s) assignmentId = Some existing ->
  PartialAssignment.employeeId updates = Some newEmployee ->
  newEmployee <> "" -> newEmployee <> Assignment.employeeId existing ->
  let s' := IncrementalMetricsCalculator.updateAssignment s assignmentId updates in
  map_get (IncrementalMetricsCalculator.assignments s') assignmentId
  = Some (spreadAssignment existing updates)
  /\ ~ In assignmentId
         (IncrementalMetricsCalculator.indexGet
            (IncrementalMetricsCalculator.assignmentsByEmployee s')
            (Assignment.employeeId existing))
  /\ In assignmentId
       (IncrementalMetricsCalculator.indexGet
          (IncrementalMetricsCalculator.assignmentsByEmployee s') newEmployee)
  /\ In (Assignment.employeeId existing)
       (IncrementalMetricsCalculator.dirtyEmployees
          (IncrementalMetricsCalculator.dirtyTracking s'))
  /\ In newEmployee
       (IncrementalMetricsCalculator.dirtyEmployees
          (IncrementalMetricsCalculator.dirtyTracking s'))
  /\ In (Assignment.projectId existing)
       (IncrementalMetricsCalculator.dirtyProjects
          (IncrementalMetricsCalculator.dirtyTracking s'))
  /\ IncrementalMetricsCalculator.isDirty (IncrementalMetricsCalculator.cache s')
     = true.
Proof.
  intros Hget Hupd Hne Hdiff. cbv zeta.
  unfold IncrementalMetricsCalculator.updateAssignment. rewrite Hget, Hupd.
  assert (Hc : changedTo (Some newEmployee) (Assignment.employeeId existing)
               = Some newEmployee).
  { unfold changedTo, truthy.
    apply String.eqb_neq in Hne, Hdiff. now rewrite Hne, Hdiff. }
  rewrite Hc.
  cbn [IncrementalMetricsCalculator.assignments
       IncrementalMetricsCalculator.assignmentsByEmployee
       IncrementalMetricsCalculator.dirtyTracking
       IncrementalMetricsCalculator.cache
       IncrementalMetricsCalculator.markDirty
       IncrementalMetricsCalculator.dirtyEmployees
       IncrementalMetricsCalculator.dirtyProjects
       IncrementalMetricsCalculator.setDirtyFlag
       IncrementalMetricsCalculator.isDirty
       IncrementalMetricsCalculator.opt_list].
  repeat split.
  - apply map_get_set_same.
  - rewrite indexAdd_get_other by assumption.
    rewrite indexDelete_get_same. apply set_delete_not_In.
  - rewrite indexAdd_get_same. apply set_add_In. now right.
  - apply fold_set_add_In. right. now left.
  - apply fold_set_add_In. right. right. now left.
  - apply fold_set_add_In. right. now left.
Qed.

Lemma X22_update_moves_witness :
  In "a1"
    (IncrementalMetricsCalculator.indexGet
       (IncrementalMetricsCalculator.assignmentsByEmployee
          (IncrementalMetricsCalculator.updateAssignment cacheAfterAdd "a1"
             (reassignTo "ann")))
       "ann").
Proof.
  apply (X22_update_moves_between_employees cacheAfterAdd "a1" (reassignTo "ann")
           danglingProjectAssignment "ann").
  - reflexivity.
  - reflexivity.
  - discriminate.
  - discriminate.
Defined.

(** X23.  An update whose employee id is the empty string rewrites the
    stored assignment (its employee reference becomes empty) but leaves the
    employee index as it was: the id stays listed under the previous
    employee, and no other employee is marked dirty. *)
Theorem X23_update_to_empty_employee_keeps_index
  (s : IncrementalMetricsCalculator.t) (assignmentId : string)
  (updates : PartialAssignment.t) (existing : Assignment.t) :
  map_get (IncrementalMetricsCalculator.assignments s) assignmentId = Some existing ->
  PartialAssignment.employeeId updates = Some "" ->
  let s' := IncrementalMetricsCalculator.updateAssignment s assignmentId updates in
  (exists stored,
     map_get (IncrementalMetricsCalculator.assignments s') assignmentId = Some stored
     /\ Assignment.employeeId stored = "")
  /\ IncrementalMetricsCalculator.assignmentsByEmployee s'
     = IncrementalMetricsCalculator.assignmentsByEmployee s
  /\ IncrementalMetricsCalculator.dirtyEmployees
       (IncrementalMetricsCalculator.dirtyTracking s')
     = set_add
         (IncrementalMetricsCalculator.dirtyEmployees
            (IncrementalMetricsCalculator.dirtyTracking s))
         (Assignment.employeeId existing).
Proof.
  intros Hget Hupd. cbv zeta.
  unfold IncrementalMetricsCalculator.updateAssignment. rewrite Hget, Hupd.
  cbn [changedTo truthy String.eqb negb andb
       IncrementalMetricsCalculator.assignments
       IncrementalMetricsCalculator.assignmentsByEmployee
       IncrementalMetricsCalculator.dirtyTracking
       IncrementalMetricsCalculator.markDirty
       IncrementalMetricsCalculator.dirtyEmployees
       IncrementalMetricsCalculator.opt_list].
  split; [|split; reflexivity].
  exists (spreadAssignment existing updates). split.
  - apply map_get_set_same.
  - unfold spreadAssignment. cbn [Assignment.employeeId]. now rewrite Hupd.
Qed.

Lemma X23_update_to_empty_witness :
  IncrementalMetricsCalculator.assignmentsByEmployee
    (IncrementalMetricsCalculator.updateAssignment cacheAfterAdd "a1"
       (reassignTo ""))
  = IncrementalMetricsCalculator.assignmentsByEmployee cacheAfterAdd.
Proof.
  apply (X23_update_to_empty_employee_keeps_index cacheAfterAdd "a1"
           (reassignTo "") danglingProjectAssignment).
  - reflexivity.
  - reflexivity.
Defined.

(** ** Initialisation *)

Lemma calculateEmployeeOvertime_withDirty (s : IncrementalMetricsCalculator.t)
  (d : IncrementalMetricsCalculator.DirtyTracking) (employeeId : string) :
  IncrementalMetricsCalculator.calculateEmployeeOvertime (withDirty s d) employeeId
  = withDirty (IncrementalMetricsCalculator.calculateEmployeeOvertime s employeeId) d.
Proof.
  destruct s as [c dt es ps asg be bp].
  unfold IncrementalMetricsCalculator.calculateEmployeeOvertime, withDirty.
  cbn [IncrementalMetricsCalculator.employees].
  destruct (map_get es employeeId); reflexivity.
Qed.

Lemma calculateEmployeeUtilization_withDirty (s : IncrementalMetricsCalculator.t)
  (d : IncrementalMetricsCalculator.DirtyTracking) (employeeId : string) :
  IncrementalMetricsCalculator.calculateEmployeeUtilization (withDirty s d) employeeId
  = withDirty (IncrementalMetricsCalculator.calculateEmployeeUtilization s employeeId) d.
Proof.
  destruct s as [c dt es ps asg be bp].
  unfold IncrementalMetricsCalculator.calculateEmployeeUtilization, withDirty.
  cbn [IncrementalMetricsCalculator.employees].
  destruct (map_get es employeeId); [|reflexivity].
  unfold IncrementalMetricsCalculator.resolveIds.
  cbn [IncrementalMetricsCalculator.assignments
       IncrementalMetricsCalculator.assignmentsByEmployee].
  match goal with
  | |- context [fold_left ?f ?l ?init] =>
      destruct (fold_left f l init) as [totalHours weeksWorked]
  end.
  reflexivity.
Qed.

Lemma recalcEmployee_withDirty (s : IncrementalMetricsCalculator.t)
  (d : IncrementalMetricsCalculator.DirtyTracking) (employeeId : string) :
  IncrementalMetricsCalculator.recalcEmployee (withDirty s d) employeeId
  = withDirty (IncrementalMetricsCalculator.recalcEmployee s employeeId) d.
Proof.
  unfold IncrementalMetricsCalculator.recalcEmployee.
  now rewrite calculateEmployeeOvertime_withDirty,
    calculateEmployeeUtilization_withDirty.
Qed.

Lemma calculateProjectSkillsMatch_withDirty (s : IncrementalMetricsCalculator.t)
  (d : IncrementalMetricsCalculator.DirtyTracking) (projectId : string) :
  IncrementalMetricsCalculator.calculateProjectSkillsMatch (withDirty s d) projectId
  = withDirty (IncrementalMetricsCalculator.calculateProjectSkillsMatch s projectId) d.
Proof.
  destruct s as [c dt es ps asg be bp].
  unfold IncrementalMetricsCalculator.calculateProjectSkillsMatch, withDirty.
  cbn [IncrementalMetricsCalculator.projects].
  destruct (map_get ps projectId) as [project|]; [|reflexivity].
  destruct (negb (IncrementalMetricsCalculator.hasRequiredSkills project));
    [reflexivity|].
  unfold IncrementalMetricsCalculator.resolveIds.
  cbn [IncrementalMetricsCalculator.assignments
       IncrementalMetricsCalculator.assignmentsByProject
       IncrementalMetricsCalculator.employees].
  match goal with
  | |- context [(?n =? 0)%nat] => destruct (n =? 0)%nat
  end; reflexivity.
Qed.

Lemma fold_withDirty
  (step : IncrementalMetricsCalculator.t -> string -> IncrementalMetricsCalculator.t)
  (ids : list string) (s : IncrementalMetricsCalculator.t)
  (d : IncrementalMetricsCalculator.DirtyTracking) :
  (forall s0 i, step (withDirty s0 d) i = withDirty (step s0 i) d) ->
  fold_left step ids (withDirty s d) = withDirty (fold_left step ids s) d.
Proof.
  intros H. revert s. induction ids as [|i l IH]; intros s; simpl; [reflexivity|].
  now rewrite H, IH.
Qed.

Lemma calculateAll_withDirty (s : IncrementalMetricsCalculator.t)
  (d : IncrementalMetricsCalculator.DirtyTracking) :
  IncrementalMetricsCalculator.calculateAll (withDirty s d)
  = IncrementalMetricsCalculator.calculateAll s.
Proof.
  unfold IncrementalMetricsCalculator.calculateAll.
  cbn [withDirty IncrementalMetricsCalculator.employees].
  rewrite (fold_withDirty IncrementalMetricsCalculator.recalcEmployee)
    by (intros; apply recalcEmployee_withDirty).
  cbn [withDirty IncrementalMetricsCalculator.projects].
  rewrite (fold_withDirty IncrementalMetricsCalculator.calculateProjectSkillsMatch)
    by (intros; apply calculateProjectSkillsMatch_withDirty).
  reflexivity.
Qed.

(** X24.  [initialize] forgets everything: the state it leaves depends only
    on the three lists, not on what the calculator held before (cache,
    indices, dirty sets). *)
Theorem X24_initialize_forgets_previous_state
  (s s' : IncrementalMetricsCalculator.t) (employees : list Employee.t)
  (projects : list Project.t) (assignments : list Assignment.t) :
  IncrementalMetricsCalculator.initialize s employees projects assignments
  = IncrementalMetricsCalculator.initialize s' employees projects assignments.
Proof.
  unfold IncrementalMetricsCalculator.initialize.
  match goal with
  | |- context [fold_left ?f assignments ?init] =>
      destruct (fold_left f assignments init) as [[am be] bp]
  end.
  match goal with
  | |- IncrementalMetricsCalculator.calculateAll ?a
       = IncrementalMetricsCalculator.calculateAll ?b =>
      change a with (withDirty b (IncrementalMetricsCalculator.dirtyTracking s))
  end.
  apply calculateAll_withDirty.
Qed.

(** ** Bounds on the cached values *)

Lemma skill_weight_fold_range (skills : JSMap ProficiencyLevel)
  (requiredSkills : list string) (acc : Q) :
  let weightedScore :=
    fold_left
      (fun ws requiredSkill =>
         match map_get skills requiredSkill with
         | Some Expert => ws + 1
         | Some Intermediate => ws + (7 # 10)
         | Some Beginner => ws + (4 # 10)
         | None => ws
         end)
      requiredSkills acc in
  acc <= weightedScore
  /\ weightedScore <= acc + inject_Z (Z.of_nat (List.length requiredSkills)).
Proof.
  cbv zeta. revert acc.
  induction requiredSkills as [|r l IH]; intros acc.
  - simpl. split; [apply Qle_refl|]. rewrite Qplus_0_r. apply Qle_refl.
  - cbn [fold_left List.length]. rewrite Nat2Z.inj_succ. unfold Z.succ.
    rewrite inject_Z_plus.
    set (n := inject_Z (Z.of_nat (List.length l))) in *.
    assert (Hstep : forall w, 0 <= w -> w <= 1 ->
              acc <= acc + w /\ acc + w + n <= acc + (n + inject_Z 1)).
    { intros w H0 H1. split.
      - setoid_replace acc with (acc + 0) at 1 by ring.
        apply Qplus_le_compat; [apply Qle_refl|assumption].
      - setoid_replace (acc + w + n) with (acc + (n + w)) by ring.
        apply Qplus_le_compat; [apply Qle_refl|].
        apply Qplus_le_compat; [apply Qle_refl|assumption]. }
    destruct (map_get skills r) as [[| |]|].
    + destruct (IH (acc + (4 # 10))) as [L U].
      destruct (Hstep (4 # 10)) as [A B]; [discriminate|discriminate|].
      split; eapply Qle_trans; eauto.
    + destruct (IH (acc + (7 # 10))) as [L U].
      destruct (Hstep (7 # 10)) as [A B]; [discriminate|discriminate|].
      split; eapply Qle_trans; eauto.
    + destruct (IH (acc + 1)) as [L U].
      destruct (Hstep 1) as [A B]; [discriminate|discriminate|].
      split; eapply Qle_trans; eauto.
    + destruct (IH acc) as [L U]. split; [assumption|].
      eapply Qle_trans; [exact U|].
      apply Qplus_le_compat; [apply Qle_refl|].
      setoid_replace n with (n + 0) at 1 by ring.
      apply Qplus_le_compat; [apply Qle_refl|discriminate].
Qed.

Lemma inject_nat_pos (n : nat) : (0 < n)%nat -> 0 < inject_Z (Z.of_nat n).
Proof.
  intros H. change 0 with (inject_Z 0). rewrite <- Zlt_Qlt. lia.
Qed.

Lemma Qdiv_le_1 (x c : Q) : 0 < c -> x <= c -> x / c <= 1.
Proof.
  intros Hc H. apply Qle_shift_div_r; [assumption|]. now rewrite Qmult_1_l.
Qed.

Lemma incremental_skills_match_range (employee : Employee.t) (project : Project.t) :
  0 <= IncrementalMetricsCalculator.calculateSkillsMatch employee project
  /\ IncrementalMetricsCalculator.calculateSkillsMatch employee project <= 1.
Proof.
  unfold IncrementalMetricsCalculator.calculateSkillsMatch.
  destruct (Project.requiredSkills project) as [[|r l]|];
    try (split; discriminate).
  destruct (Employee.skills employee) as [|kv skills] eqn:E;
    [split; discriminate|].
  rewrite <- E.
  destruct (skill_weight_fold_range (Employee.skills employee) (r :: l) 0) as [L U].
  rewrite Qplus_0_l in U.
  assert (Hpos : 0 < inject_Z (Z.of_nat (List.length (r :: l))))
    by (apply inject_nat_pos; simpl; lia).
  split.
  - now apply Qdiv_nonneg.
  - now apply Qdiv_le_1.
Qed.

(** X25.  The private skills score of an employee for a project is a
    fraction: it lies between 0 and 1, whatever the skills and the
    requirements are. *)
Theorem X25_incremental_skills_match_is_fraction
  (employee : Employee.t) (project : Project.t) :
  0 <= IncrementalMetricsCalculator.calculateSkillsMatch employee project <= 1.
Proof.
  apply incremental_skills_match_range.
Qed.

Lemma match_total_range (s : IncrementalMetricsCalculator.t) (project : Project.t)
  (ids : list string) (acc : Q) :
  let totalMatch :=
    fold_left
      (fun total employeeId =>
         match map_get (IncrementalMetricsCalculator.employees s) employeeId with
         | Some employee =>
             total + IncrementalMetricsCalculator.calculateSkillsMatch employee project
         | None => total
         end)
      ids acc in
  acc <= totalMatch /\ totalMatch <= acc + inject_Z (Z.of_nat (List.length ids)).
Proof.
  cbv zeta. revert acc. induction ids as [|i l IH]; intros acc.
  - simpl. split; [apply Qle_refl|]. rewrite Qplus_0_r. apply Qle_refl.
  - cbn [fold_left List.length]. rewrite Nat2Z.inj_succ. unfold Z.succ.
    rewrite inject_Z_plus.
    set (n := inject_Z (Z.of_nat (List.length l))) in *.
    destruct (map_get (IncrementalMetricsCalculator.employees s) i) as [employee|].
    + destruct (incremental_skills_match_range employee project) as [H0 H1].
      set (w := IncrementalMetricsCalculator.calculateSkillsMatch employee project) in *.
      destruct (IH (acc + w)) as [L U]. split.
      * eapply Qle_trans; [|exact L].
        setoid_replace acc with (acc + 0) at 1 by ring.
        apply Qplus_le_compat; [apply Qle_refl|assumption].
      * eapply Qle_trans; [exact U|].
        setoid_replace (acc + w + n) with (acc + (n + w)) by ring.
        apply Qplus_le_compat; [apply Qle_refl|].
        apply Qplus_le_compat; [apply Qle_refl|assumption].
    + destruct (IH acc) as [L U]. split; [assumption|].
      eapply Qle_trans; [exact U|].
      apply Qplus_le_compat; [apply Qle_refl|].
      setoid_replace n with (n + 0) at 1 by ring.
      apply Qplus_le_compat; [apply Qle_refl|discriminate].
Qed.

Lemma percent_range (x c : Q) :
  0 < c -> 0 <= x -> x <= c -> 0 <= (x / c) * 100 /\ (x / c) * 100 <= 100.
Proof.
  intros Hc H0 H1. split.
  - apply Qmult_le_0_compat; [now apply Qdiv_nonneg|discriminate].
  - setoid_replace 100 with (1 * 100) at 2 by ring.
    apply Qmult_le_compat_r; [now apply Qdiv_le_1|discriminate].
Qed.

(** What [calculateProjectSkillsMatch] writes is a percentage. *)
Lemma calculateProjectSkillsMatch_value (s : IncrementalMetricsCalculator.t)
  (projectId : string) :
  exists v,
    IncrementalMetricsCalculator.calculateProjectSkillsMatch s projectId
    = IncrementalMetricsCalculator.setSkillsMatch s projectId v
    /\ 0 <= v /\ v <= 100.
Proof.
  unfold IncrementalMetricsCalculator.calculateProjectSkillsMatch.
  destruct (map_get (IncrementalMetricsCalculator.projects s) projectId)
    as [project|].
  2: { exists 100. repeat split; [discriminate|apply Qle_refl]. }
  destruct (negb (IncrementalMetricsCalculator.hasRequiredSkills project)).
  { exists 100. repeat split; [discriminate|apply Qle_refl]. }
  set (employeesOnProject :=
         fold_left (fun es a => set_add es (Assignment.employeeId a))
           (IncrementalMetricsCalculator.resolveIds s
              (IncrementalMetricsCalculator.indexGet
                 (IncrementalMetricsCalculator.assignmentsByProject s) projectId))
           ([] : JSSet)).
  cbv zeta. fold employeesOnProject.
  destruct (set_size employeesOnProject =? 0)%nat eqn:E.
  { exists 0. repeat split; [apply Qle_refl|discriminate]. }
  apply Nat.eqb_neq in E.
  eexists. split; [reflexivity|].
  destruct (match_total_range s project employeesOnProject 0) as [L U].
  rewrite Qplus_0_l in U.
  apply percent_range; [apply inject_nat_pos; lia|exact L|exact U].
Qed.

Lemma map_values_set {V} (m : JSMap V) (k : string) (x v : V) :
  In v (map_values (map_set m k x)) -> v = x \/ In v (map_values m).
Proof.
  intros H. apply In_map_values in H. destruct H as [k' H].
  apply map_set_In in H. destruct H as [[_ ->]|H]; [now left|].
  right. unfold map_values. apply in_map_iff. now exists (k', v).
Qed.

Lemma Math_min100_le (x : Q) : Math_min100 x <= 100.
Proof.
  unfold Math_min100. destruct (Qle_bool x 100) eqn:E.
  - now apply Qle_bool_iff.
  - apply Qle_refl.
Qed.

Lemma overtimeByWeek_positive (maxHours : Q) (weeklyHours acc : JSMap Q) :
  (forall v, In v (map_values acc) -> 0 < v) ->
  forall v,
    In v (map_values
            (fold_left
               (fun ow '(week, hours) =>
                  let overtime := Math_max0 (hours - maxHours) in
                  if Qgtb overtime 0 then map_set ow week overtime else ow)
               weeklyHours acc)) ->
    0 < v.
Proof.
  revert acc. induction weeklyHours as [|[week hours] l IH]; intros acc Hacc v;
    cbn [fold_left]; [apply Hacc|].
  apply IH. cbv zeta.
  destruct (Qgtb (Math_max0 (hours - maxHours)) 0) eqn:E; [|exact Hacc].
  intros w Hw. apply map_values_set in Hw. destruct Hw as [->|Hw].
  - now apply Qgtb_true.
  - now apply Hacc.
Qed.

Lemma calculateEmployeeOvertime_inRange (s : IncrementalMetricsCalculator.t)
  (employeeId : string) :
  cacheInRange (IncrementalMetricsCalculator.cache s) ->
  cacheInRange
    (IncrementalMetricsCalculator.cache
       (IncrementalMetricsCalculator.calculateEmployeeOvertime s employeeId)).
Proof.
  intros (Hu & Hs & Ho).
  unfold IncrementalMetricsCalculator.calculateEmployeeOvertime.
  destruct (map_get (IncrementalMetricsCalculator.employees s) employeeId)
    as [employee|]; [|exact (conj Hu (conj Hs Ho))].
  cbv zeta.
  cbn [IncrementalMetricsCalculator.cache IncrementalMetricsCalculator.with_cache].
  split; [exact Hu|]. split; [exact Hs|].
  cbn [IncrementalMetricsCalculator.overtimeByEmployee].
  intros weekMap v Hw Hv. apply map_values_set in Hw. destruct Hw as [->|Hw].
  - revert v Hv. apply overtimeByWeek_positive. intros v [].
  - now apply (Ho weekMap).
Qed.

Lemma calculateEmployeeUtilization_inRange (s : IncrementalMetricsCalculator.t)
  (employeeId : string) :
  cacheInRange (IncrementalMetricsCalculator.cache s) ->
  cacheInRange
    (IncrementalMetricsCalculator.cache
       (IncrementalMetricsCalculator.calculateEmployeeUtilization s employeeId)).
Proof.
  intros (Hu & Hs & Ho).
  unfold IncrementalMetricsCalculator.calculateEmployeeUtilization.
  destruct (map_get (IncrementalMetricsCalculator.employees s) employeeId)
    as [employee|]; [|exact (conj Hu (conj Hs Ho))].
  cbv zeta.
  match goal with
  | |- context [fold_left ?f ?l ?init] =>
      destruct (fold_left f l init) as [totalHours weeksWorked]
  end.
  cbn [IncrementalMetricsCalculator.cache IncrementalMetricsCalculator.with_cache].
  split; [|split; [exact Hs|exact Ho]].
  cbn [IncrementalMetricsCalculator.utilizationByEmployee].
  intros v Hv. apply map_values_set in Hv. destruct Hv as [->|Hv].
  - apply Math_min100_le.
  - now apply Hu.
Qed.

Lemma recalcEmployees_inRange (ids : list string)
  (s : IncrementalMetricsCalculator.t) :
  cacheInRange (IncrementalMetricsCalculator.cache s) ->
  cacheInRange
    (IncrementalMetricsCalculator.cache
       (fold_left IncrementalMetricsCalculator.recalcEmployee ids s)).
Proof.
  revert s. induction ids as [|i l IH]; intros s H; simpl; [exact H|].
  apply IH. unfold IncrementalMetricsCalculator.recalcEmployee.
  now apply calculateEmployeeUtilization_inRange, calculateEmployeeOvertime_inRange.
Qed.

Lemma calculateProjects_inRange (ids : list string)
  (s : IncrementalMetricsCalculator.t) :
  cacheInRange (IncrementalMetricsCalculator.cache s) ->
  cacheInRange
    (IncrementalMetricsCalculator.cache
       (fold_left IncrementalMetricsCalculator.calculateProjectSkillsMatch ids s)).
Proof.
  revert s. induction ids as [|i l IH]; intros s H; simpl; [exact H|].
  apply IH. destruct H as (Hu & Hs & Ho).
  destruct (calculateProjectSkillsMatch_value s i) as (v & -> & H0 & H1).
  cbn [IncrementalMetricsCalculator.setSkillsMatch
       IncrementalMetricsCalculator.cache IncrementalMetricsCalculator.with_cache].
  split; [exact Hu|]. split; [|exact Ho].
  cbn [IncrementalMetricsCalculator.skillsMatchByProject].
  intros w Hw. apply map_values_set in Hw. destruct Hw as [->|Hw].
  - now split.
  - now apply Hs.
Qed.

Lemma cacheInRange_flag (c : IncrementalMetricsCalculator.MetricsCache) (b : bool) :
  cacheInRange c -> cacheInRange (IncrementalMetricsCalculator.setDirtyFlag c b).
Proof.
  intros H. exact H.
Qed.

Lemma calculateAll_inRange (s : IncrementalMetricsCalculator.t) :
  cacheInRange (IncrementalMetricsCalculator.cache s) ->
  cacheInRange
    (IncrementalMetricsCalculator.cache (IncrementalMetricsCalculator.calculateAll s)).
Proof.
  intros H. unfold IncrementalMetricsCalculator.calculateAll. cbv zeta.
  cbn [IncrementalMetricsCalculator.clearDirtyTracking
       IncrementalMetricsCalculator.with_cache IncrementalMetricsCalculator.cache].
  apply cacheInRange_flag.
  now apply calculateProjects_inRange, recalcEmployees_inRange.
Qed.

Lemma recalculateDirty_inRange (s : IncrementalMetricsCalculator.t) :
  cacheInRange (IncrementalMetricsCalculator.cache s) ->
  cacheInRange
    (IncrementalMetricsCalculator.cache
       (IncrementalMetricsCalculator.recalculateDirty s)).
Proof.
  intros H. unfold IncrementalMetricsCalculator.recalculateDirty. cbv zeta.
  cbn [IncrementalMetricsCalculator.clearDirtyTracking
       IncrementalMetricsCalculator.with_cache IncrementalMetricsCalculator.cache].
  apply cacheInRange_flag.
  now apply calculateProjects_inRange, recalcEmployees_inRange.
Qed.

Lemma cacheInRange_empty (b : bool) :
  cacheInRange (IncrementalMetricsCalculator.emptyCache b).
Proof.
  repeat split; simpl in *; contradiction.
Qed.

Lemma reachable_inRange (s : IncrementalMetricsCalculator.t) :
  reachable s -> cacheInRange (IncrementalMetricsCalculator.cache s).
Proof.
  induction 1 as [|s employees projects assignments _ IH
                  |s assignmentId updates _ IH
                  |s assignment _ IH
                  |s assignmentId _ IH
                  |s _ IH].
  - apply cacheInRange_empty.
  - unfold IncrementalMetricsCalculator.initialize.
    match goal with
    | |- context [fold_left ?f assignments ?init] =>
        destruct (fold_left f assignments init) as [[am be] bp]
    end.
    apply calculateAll_inRange. apply cacheInRange_empty.
  - unfold IncrementalMetricsCalculator.updateAssignment.
    destruct (map_get (IncrementalMetricsCalculator.assignments s) assignmentId);
      [|exact IH].
    now apply cacheInRange_flag.
  - now apply cacheInRange_flag.
  - unfold IncrementalMetricsCalculator.removeAssignment.
    destruct (map_get (IncrementalMetricsCalculator.assignments s) assignmentId);
      [|exact IH].
    now apply cacheInRange_flag.
  - unfold IncrementalMetricsCalculator.getMetrics. cbn [snd].
    destruct (IncrementalMetricsCalculator.isDirty
                (IncrementalMetricsCalculator.cache s)); [|exact IH].
    now apply recalculateDirty_inRange.
Qed.

(** X26.  Whatever the public methods have done to a calculator, every
    cached utilisation is at most 100, every cached skills value is a
    percentage, and every stored overtime amount is positive. *)
Theorem X26_cache_stays_in_range (s : IncrementalMetricsCalculator.t) :
  reachable s -> cacheInRange (IncrementalMetricsCalculator.cache s).
Proof.
  apply reachable_inRange.
Qed.

Lemma X26_cache_stays_in_range_witness :
  cacheInRange (IncrementalMetricsCalculator.cache cacheAfterAdd).
Proof.
  apply (X26_cache_stays_in_range cacheAfterAdd).
  apply reach_addAssignment, reach_initialize, reach_new.
Defined.

(** *** The aggregate *)

Lemma count_fold (l : list Q) (total : Q) (n : Z) :
  fold_left (fun '(total, n) v => (total + v, (n + 1)%Z)) l (total, n)
  = (fold_left Qplus l total, (n + Z.of_nat (List.length l))%Z).
Proof.
  revert total n. induction l as [|x l IH]; intros total n.
  - simpl. now rewrite Z.add_0_r.
  - cbn [fold_left List.length]. rewrite IH. f_equal. lia.
Qed.

Lemma average_range (l : list Q) :
  (0 < List.length l)%nat ->
  Forall (fun x => x <= 100) l ->
  sumQ l / inject_Z (Z.of_nat (List.length l)) <= 100.
Proof.
  intros Hn H. apply Qle_shift_div_r; [now apply inject_nat_pos|].
  now apply sumQ_upper.
Qed.

Lemma Math_round_le_100 (x : Q) : x <= 100 -> (Math_round x <= 100)%Z.
Proof.
  intros H. change 100%Z with (Math_round 100). now apply Math_round_mono.
Qed.

Lemma overtime_total_nonneg (weekMaps : list (JSMap Q)) (acc : Q) :
  (forall weekMap v, In weekMap weekMaps -> In v (map_values weekMap) -> 0 < v) ->
  0 <= acc ->
  0 <= fold_left
         (fun total weekMap =>
            fold_left (fun t hours => t + hours) (map_values weekMap) total)
         weekMaps acc.
Proof.
  revert acc. induction weekMaps as [|wm l IH]; intros acc H Hacc;
    cbn [fold_left]; [exact Hacc|].
  apply IH.
  - intros weekMap v Hw. apply H. now right.
  - change (fun t hours : Q => t + hours) with Qplus.
    rewrite fold_Qplus_acc.
    setoid_replace 0 with (0 + 0) by ring.
    apply Qplus_le_compat; [exact Hacc|].
    apply sumQ_nonneg. apply Forall_forall. intros v Hv.
    apply Qlt_le_weak. apply (H wm); [now left|exact Hv].
Qed.

Lemma aggregateMetrics_range (s : IncrementalMetricsCalculator.t) :
  cacheInRange (IncrementalMetricsCalculator.cache s) ->
  let m := IncrementalMetricsCalculator.aggregateMetrics s in
  (0 <= Metrics.overtimeHours m)%Z
  /\ (Metrics.resourceUtilization m <= 100)%Z
  /\ (0 <= Metrics.skillsMatching m <= 100)%Z.
Proof.
  intros (Hu & Hs & Ho). cbv zeta.
  unfold IncrementalMetricsCalculator.aggregateMetrics. cbv zeta.
  rewrite !count_fold. cbn [Z.add].
  cbn [Metrics.overtimeHours Metrics.resourceUtilization Metrics.skillsMatching].
  set (us := map_values
               (IncrementalMetricsCalculator.utilizationByEmployee
                  (IncrementalMetricsCalculator.cache s))) in *.
  set (ss := map_values
               (IncrementalMetricsCalculator.skillsMatchByProject
                  (IncrementalMetricsCalculator.cache s))) in *.
  split; [|split].
  - apply Math_round_nonneg. apply overtime_total_nonneg; [exact Ho|apply Qle_refl].
  - destruct (0 <? Z.of_nat (List.length us))%Z eqn:E; [|lia].
    apply Z.ltb_lt in E. apply Math_round_le_100.
    change (fold_left Qplus us 0) with (sumQ us).
    apply (average_range us); [lia|]. now apply Forall_forall.
  - destruct (0 <? Z.of_nat (List.length ss))%Z eqn:E; [|lia].
    apply Z.ltb_lt in E.
    change (fold_left Qplus ss 0) with (sumQ ss). split.
    + apply Math_round_nonneg. apply Qdiv_nonneg; [|apply inject_nat_pos; lia].
      apply sumQ_nonneg. apply Forall_forall. intros v Hv. now apply Hs.
    + apply Math_round_le_100.
      apply (average_range ss); [lia|]. apply Forall_forall.
      intros v Hv. now apply Hs.
Qed.

(** X27.  Whatever the public methods have done to a calculator, the
    figures [getMetrics] reports are bounded: overtime is not negative,
    utilisation is at most 100 and skills matching lies between 0 and 100. *)
Theorem X27_reported_metrics_are_bounded (s : IncrementalMetricsCalculator.t) :
  reachable s ->
  let m := fst (IncrementalMetricsCalculator.getMetrics s) in
  (0 <= Metrics.overtimeHours m)%Z
  /\ (Metrics.resourceUtilization m <= 100)%Z
  /\ (0 <= Metrics.skillsMatching m <= 100)%Z.
Proof.
  intros H.
  apply reach_getMetrics, reachable_inRange in H.
  unfold IncrementalMetricsCalculator.getMetrics in *. cbn [fst snd] in *.
  now apply aggregateMetrics_range.
Qed.

Lemma X27_reported_metrics_witness :
  (Metrics.resourceUtilization
     (fst (IncrementalMetricsCalculator.getMetrics cacheAfterAdd)) <= 100)%Z.
Proof.
  apply (X27_reported_metrics_are_bounded cacheAfterAdd).
  apply reach_addAssignment, reach_initialize, reach_new.
Defined.
